(** * VK photo backup: a shallow embedding of [main.py]

    The program lists the photos of a VK profile, derives a file name for
    each of them from its like count (and, for ties, its upload time),
    hands them to Yandex.Disk or Google Drive, and writes a JSON manifest.

    Python values are modelled as follows: an [int] is a [Z]; a [str] is
    the list of its Unicode code points, each a [Z]; a raised exception is
    the [Raise] branch of [result]; the network and the local files are an
    explicit [world] threaded through the methods of [VkApiClient]. *)

From Stdlib Require Import ZArith List Lia Ascii String Bool DecimalString.
From Stdlib Require DecimalPos DecimalZ Permutation.
Import ListNotations.
Open Scope Z_scope.

(** ** Python strings *)

(** A [str] is a sequence of code points. *)
Definition str := list Z.

(** An ASCII literal of the source. *)
Definition lit (s : string) : str :=
  map (fun a => Z.of_N (N_of_ascii a)) (list_ascii_of_string s).

(** [str(n)] and the [{n}] field of an f-string, for an [int]. *)
Definition str_of_int (n : Z) : str :=
  lit (NilZero.string_of_int (Z.to_int n)).

Definition str_eqb (a b : str) : bool :=
  if list_eq_dec Z.eq_dec a b then true else false.

(** [s.startswith(t)]. *)
Fixpoint startswith (t s : str) : bool :=
  match t, s with
  | [], _ => true
  | _ :: _, [] => false
  | a :: t', b :: s' => (a =? b) && startswith t' s'
  end.

(** [t in s] for two strings: [t] occurs in [s] as a contiguous run.  The
    empty string occurs in every string. *)
Fixpoint contains (t s : str) : bool :=
  startswith t s ||
  match s with
  | [] => false
  | _ :: s' => contains t s'
  end.

(** [s.replace(target, rep)] for a non-empty [target]: the occurrences are
    found from the left and do not overlap.  [skip] counts the characters
    of an occurrence that are still to be dropped. *)
Fixpoint replace_from (target rep : str) (skip : nat) (s : str) : str :=
  match s with
  | [] => []
  | c :: s' =>
      match skip with
      | S k => replace_from target rep k s'
      | O =>
          if startswith target s
          then rep ++ replace_from target rep (Nat.pred (List.length target)) s'
          else c :: replace_from target rep O s'
      end
  end.

(** [s.replace("", rep)] puts [rep] before every character and at the end. *)
Fixpoint intersperse_all (rep s : str) : str :=
  match s with
  | [] => rep
  | c :: s' => rep ++ c :: intersperse_all rep s'
  end.

Definition replace (s target rep : str) : str :=
  match target with
  | [] => intersperse_all rep s
  | _ :: _ => replace_from target rep O s
  end.

(** [l.count(x)] on a list of integers. *)
Fixpoint list_count (l : list Z) (x : Z) : Z :=
  match l with
  | [] => 0
  | y :: l' => (if y =? x then 1 else 0) + list_count l' x
  end.

(** ** Exceptions *)

Inductive exn : Type :=
| IndexError          (* [l[0]] on an empty list *)
| KeyError            (* [d[k]] on a missing key *)
| TypeError           (* a list indexed by a string *)
| JSONDecodeError     (* [json.load] on a malformed document *)
| AttributeError      (* a method called on [None] *)
| ValueError          (* [datetime.fromtimestamp]: year out of range; far
                         beyond it Python raises OverflowError or OSError,
                         which end a run in the same way *)
| RequestException    (* [requests]: the transport failed *)
| HTTPError           (* [response.raise_for_status()] *)
| GoogleError         (* the Google client library raised *)
| OSError.            (* a local file could not be opened *)

Inductive result (A : Type) : Type :=
| Ok (a : A)
| Raise (e : exn).
Arguments Ok {A} a.
Arguments Raise {A} e.

Definition rbind {A B} (r : result A) (k : A -> result B) : result B :=
  match r with
  | Ok a => k a
  | Raise e => Raise e
  end.

(** ** [datetime.fromtimestamp] and [strftime] *)

Record datetime : Type := mkDatetime {
  year : Z; month : Z; day : Z; hour : Z; minute : Z; second : Z
}.

(** Days since 1970-01-01 to a date of the proleptic Gregorian calendar.
    The year is counted from 1 March inside a 400-year era of 146097
    days. *)
Definition civil_from_days (z : Z) : Z * Z * Z :=
  let z := z + 719468 in
  let era := z / 146097 in
  let doe := z - era * 146097 in
  let yoe := (doe - doe / 1460 + doe / 36524 - doe / 146096) / 365 in
  let y := yoe + era * 400 in
  let doy := doe - (365 * yoe + yoe / 4 - yoe / 100) in
  let mp := (5 * doy + 2) / 153 in
  let d := doy - (153 * mp + 2) / 5 + 1 in
  let m := if mp <? 10 then mp + 3 else mp - 9 in
  (if m <=? 2 then y + 1 else y, m, d).

(** The inverse direction, used to state what [civil_from_days] computes. *)
Definition days_from_civil (y m d : Z) : Z :=
  let y := if m <=? 2 then y - 1 else y in
  let era := y / 400 in
  let yoe := y - era * 400 in
  let mp := if 2 <? m then m - 3 else m + 9 in
  let doy := (153 * mp + 2) / 5 + d - 1 in
  let doe := yoe * 365 + yoe / 4 - yoe / 100 + doy in
  era * 146097 + doe - 719468.

(** Local seconds of 0001-01-01 00:00:00 and of 10000-01-01 00:00:00: the
    years a [datetime] can hold are 1 to 9999. *)
Definition MIN_LOCAL : Z := -62135596800.
Definition MAX_LOCAL : Z := 253402300800.

Section LocalTime.

(** The rules of the local time zone: the offset from UTC, in seconds, in
    force at a given instant.  [datetime.fromtimestamp] without a [tz]
    argument takes them from the platform. *)
Variable utcoffset : Z -> Z.

Definition local_seconds (t : Z) : Z := t + utcoffset t.

(** [datetime.fromtimestamp(t)]: the date of the local second of [t], for
    the local years 1 to 9999.  Outside them the call raises, an
    exception whose class depends on the platform and for which
    [ValueError] stands here.  CPython raises as well during the first
    local day of the year 1, where its search for a repeated local time
    leaves the range; the statements that need a date keep to the years
    from 1000 on. *)
Definition fromtimestamp (t : Z) : result datetime :=
  let l := local_seconds t in
  if (MIN_LOCAL <=? l) && (l <? MAX_LOCAL) then
    let days := l / 86400 in
    let sod := l mod 86400 in
    let '(y, m, d) := civil_from_days days in
    Ok (mkDatetime y m d (sod / 3600) (sod mod 3600 / 60) (sod mod 60))
  else Raise ValueError.

End LocalTime.

Definition digit (d : Z) : Z := 48 + d.
Arguments digit : simpl never.

(** [%m], [%d], [%H], [%M], [%S]: two digits. *)
Definition pad2 (n : Z) : str := [digit (n / 10 mod 10); digit (n mod 10)].

(** [%Y]: four digits.  From the year 1000 on every platform prints the
    year so; the earlier years are zero-filled here, as on the platforms
    that fill them. *)
Definition pad4 (n : Z) : str :=
  [digit (n / 1000 mod 10); digit (n / 100 mod 10);
   digit (n / 10 mod 10); digit (n mod 10)].

(** [dt.strftime('%Y-%m-%d_%H-%M-%S')]. *)
Definition strftime (dt : datetime) : str :=
  pad4 (year dt) ++ lit "-" ++ pad2 (month dt) ++ lit "-" ++ pad2 (day dt)
  ++ lit "_" ++ pad2 (hour dt) ++ lit "-" ++ pad2 (minute dt) ++ lit "-"
  ++ pad2 (second dt).

(** ** The photo set and the file names *)

(** A photo tuple [(likes, date, url)]. *)
Definition photo : Type := Z * Z * str.

Definition photo_likes (p : photo) : Z := fst (fst p).
Definition photo_date (p : photo) : Z := snd (fst p).
Definition photo_url (p : photo) : str := snd p.

(** [likes_counts = [photo[0] for photo in photos]]. *)
Definition likes_counts (photos : list photo) : list Z := map photo_likes photos.

Section Names.

Variable utcoffset : Z -> Z.

(** The suffixed name, lines 198-200 and 267-268. *)
Definition suffixed_name (likes date : Z) : result str :=
  rbind (fromtimestamp utcoffset date) (fun dt =>
  Ok (str_of_int likes ++ lit "_likes__" ++ strftime dt ++ lit ".jpg")).

(** The name of one photo in [save_photos_to_yandex_disk], lines 196-200:
    the suffix is added when the like count does not occur exactly once. *)
Definition image_name_yandex (counts : list Z) (likes date : Z) : result str :=
  let image_name := str_of_int likes ++ lit "_likes.jpg" in
  if negb (list_count counts likes =? 1)
  then suffixed_name likes date
  else Ok image_name.

(** The name of one photo in [save_photos_to_google_drive], lines 265-268:
    the suffix is added when the like count occurs more than once. *)
Definition image_name_google (counts : list Z) (likes date : Z) : result str :=
  let image_name := str_of_int likes ++ lit "_likes.jpg" in
  if 1 <? list_count counts likes
  then suffixed_name likes date
  else Ok image_name.

End Names.

(** ** Dictionaries and JSON values *)

(** A value of the [params] dictionaries: a string or an integer. *)
Inductive pyval : Type :=
| PStr (s : str)
| PInt (n : Z).

(** A [dict] with string keys, in insertion order. *)
Definition dict (V : Type) : Type := list (str * V).

(** [d[k] = v]: the value of a present key is replaced in place, a new key
    goes to the end. *)
Fixpoint dict_set {V} (d : dict V) (k : str) (v : V) : dict V :=
  match d with
  | [] => [(k, v)]
  | (k', v') :: d' =>
      if str_eqb k' k then (k', v) :: d' else (k', v') :: dict_set d' k v
  end.

(** [d.update(e)] and [{**d, **e}]. *)
Definition dict_update {V} (d e : dict V) : dict V :=
  fold_left (fun acc kv => dict_set acc (fst kv) (snd kv)) e d.

Fixpoint dict_get {V} (d : dict V) (k : str) : option V :=
  match d with
  | [] => None
  | (k', v) :: d' => if str_eqb k' k then Some v else dict_get d' k
  end.

(** What [json.dump] takes and [json.load] returns.  A float is kept as
    the text of its literal. *)
#[local] Set Warnings "-register-all".
Inductive json : Type :=
| JNull
| JBool (b : bool)
| JInt (n : Z)
| JFloat (lexeme : str)
| JStr (s : str)
| JList (l : list json)
| JDict (d : list (str * json)).

(** ** [json.dump] *)

Definition hexdigit (d : Z) : Z := if d <? 10 then 48 + d else 87 + d.

(** ['{0:04x}'.format(n)] for [n] below [0x10000]. *)
Definition hex4 (n : Z) : str :=
  [hexdigit (n / 4096 mod 16); hexdigit (n / 256 mod 16);
   hexdigit (n / 16 mod 16); hexdigit (n mod 16)].

(** The replacement of one character in [py_encode_basestring_ascii]:
    [ESCAPE_DCT] first, a character from space to [~] as it is, the others
    as [\uXXXX], beyond the basic plane as a surrogate pair. *)
Definition escape_char (c : Z) : str :=
  if c =? 92 then lit "\\"
  else if c =? 34 then [92; 34]
  else if c =? 8 then lit "\b"
  else if c =? 12 then lit "\f"
  else if c =? 10 then lit "\n"
  else if c =? 13 then lit "\r"
  else if c =? 9 then lit "\t"
  else if (32 <=? c) && (c <=? 126) then [c]
  else if c <? 65536 then lit "\u" ++ hex4 c
  else
    let n := c - 65536 in
    let s1 := Z.lor 55296 (Z.land (Z.shiftr n 10) 1023) in
    let s2 := Z.lor 56320 (Z.land n 1023) in
    lit "\u" ++ hex4 s1 ++ lit "\u" ++ hex4 s2.

Definition encode_basestring_ascii (s : str) : str :=
  [34] ++ flat_map escape_char s ++ [34].

(** ['\n' + ' ' * (4 * level)]. *)
Definition newline_indent (level : nat) : str := 10 :: repeat 32 (4 * level).

(** [sep.join(l)]. *)
Fixpoint join (sep : str) (l : list str) : str :=
  match l with
  | [] => []
  | [x] => x
  | x :: l' => x ++ sep ++ join sep l'
  end.

(** [_iterencode] with [indent=4]: the item separator is [","] followed by
    the new line and its indentation, the key separator is [": "]. *)
Fixpoint iterencode (level : nat) (o : json) {struct o} : str :=
  match o with
  | JNull => lit "null"
  | JBool true => lit "true"
  | JBool false => lit "false"
  | JInt n => str_of_int n
  | JFloat x => x
  | JStr s => encode_basestring_ascii s
  | JList [] => lit "[]"
  | JList lst =>
      lit "[" ++ newline_indent (S level)
      ++ join (lit "," ++ newline_indent (S level))
           (map (iterencode (S level)) lst)
      ++ newline_indent level ++ lit "]"
  | JDict [] => lit "{}"
  | JDict dct =>
      lit "{" ++ newline_indent (S level)
      ++ join (lit "," ++ newline_indent (S level))
           (map (fun kv =>
                   let '(key, value) := kv in
                   encode_basestring_ascii key ++ lit ": "
                   ++ iterencode (S level) value) dct)
      ++ newline_indent level ++ lit "}"
  end.

(** The text [json.dump(o, f, indent=4)] writes. *)
Definition json_dumps (o : json) : str := iterencode 0 o.

(** ** [json.load] *)

Definition is_ws (c : Z) : bool :=
  (c =? 32) || (c =? 9) || (c =? 10) || (c =? 13).

Fixpoint skip_ws (s : str) : str :=
  match s with
  | [] => []
  | c :: s' => if is_ws c then skip_ws s' else s
  end.

Definition hexval (c : Z) : option Z :=
  if (48 <=? c) && (c <=? 57) then Some (c - 48)
  else if (97 <=? c) && (c <=? 102) then Some (c - 87)
  else if (65 <=? c) && (c <=? 70) then Some (c - 55)
  else None.

(** [int(esc, 16)] on four hexadecimal digits. *)
Definition hex4val (a b c d : Z) : option Z :=
  match hexval a, hexval b, hexval c, hexval d with
  | Some a, Some b, Some c, Some d => Some (((a * 16 + b) * 16 + c) * 16 + d)
  | _, _, _, _ => None
  end.

(** The table [BACKSLASH] of the one-letter escapes. *)
Definition BACKSLASH (esc : Z) : option Z :=
  if esc =? 34 then Some 34
  else if esc =? 92 then Some 92
  else if esc =? 47 then Some 47
  else if esc =? 98 then Some 8
  else if esc =? 102 then Some 12
  else if esc =? 110 then Some 10
  else if esc =? 114 then Some 13
  else if esc =? 116 then Some 9
  else None.

Definition cons_chunk (c : Z) (r : result (str * str)) : result (str * str) :=
  rbind r (fun p => Ok (c :: fst p, snd p)).

(** [py_scanstring], strict: [s] starts after the opening quote; the
    result is the string and the input after the closing quote.  A high
    surrogate escape followed by a low surrogate escape is one character. *)
Fixpoint scanstring (s : str) : result (str * str) :=
  match s with
  | [] => Raise JSONDecodeError
  | c :: s1 =>
      if c =? 34 then Ok ([], s1)
      else if c =? 92 then
        match s1 with
        | [] => Raise JSONDecodeError
        | esc :: s2 =>
            if esc =? 117 then
              match s2 with
              | h1 :: h2 :: h3 :: h4 :: s3 =>
                  match hex4val h1 h2 h3 h4 with
                  | None => Raise JSONDecodeError
                  | Some uni =>
                      match s3 with
                      | b :: u :: s4 =>
                          if (55296 <=? uni) && (uni <=? 56319)
                             && (b =? 92) && (u =? 117)
                          then
                            match s4 with
                            | g1 :: g2 :: g3 :: g4 :: s5 =>
                                match hex4val g1 g2 g3 g4 with
                                | None => Raise JSONDecodeError
                                | Some uni2 =>
                                    if (56320 <=? uni2) && (uni2 <=? 57343)
                                    then
                                      cons_chunk
                                        (65536 +
                                         Z.lor (Z.shiftl (uni - 55296) 10)
                                           (uni2 - 56320))
                                        (scanstring s5)
                                    else cons_chunk uni (scanstring s3)
                                end
                            | _ => Raise JSONDecodeError
                            end
                          else cons_chunk uni (scanstring s3)
                      | _ => cons_chunk uni (scanstring s3)
                      end
                  end
              | _ => Raise JSONDecodeError
              end
            else
              match BACKSLASH esc with
              | Some ch => cons_chunk ch (scanstring s2)
              | None => Raise JSONDecodeError
              end
        end
      else if c <? 32 then Raise JSONDecodeError
      else cons_chunk c (scanstring s1)
  end.

Definition is_digit (c : Z) : bool := (48 <=? c) && (c <=? 57).

(** The longest run of digits at the head of [s], and what follows. *)
Fixpoint span_digits (s : str) : str * str :=
  match s with
  | [] => ([], [])
  | c :: s' =>
      if is_digit c
      then let '(ds, r) := span_digits s' in (c :: ds, r)
      else ([], s)
  end.

Definition int_of_digits (ds : str) : Z :=
  fold_left (fun acc d => acc * 10 + (d - 48)) ds 0.

(** [NUMBER_RE]: an integer part, then a fraction and an exponent if they
    are complete.  An integer literal is an [int], the others a float. *)
Definition match_number (s : str) : option (json * str) :=
  let '(sign, s1) :=
    match s with
    | c :: r => if c =? 45 then ([45], r) else ([], s)
    | [] => ([], s)
    end in
  let integer :=
    match s1 with
    | c :: r =>
        if c =? 48 then Some ([48], r)
        else if is_digit c then Some (span_digits s1)
        else None
    | [] => None
    end in
  match integer with
  | None => None
  | Some (ds, s2) =>
      let '(frac, s3) :=
        match s2 with
        | c :: r =>
            if c =? 46 then
              match span_digits r with
              | ([], _) => ([], s2)
              | (fs, r') => (46 :: fs, r')
              end
            else ([], s2)
        | [] => ([], s2)
        end in
      let '(exp, s4) :=
        match s3 with
        | c :: r =>
            if (c =? 101) || (c =? 69) then
              let '(esign, r1) :=
                match r with
                | c' :: r' =>
                    if (c' =? 45) || (c' =? 43) then ([c'], r') else ([], r)
                | [] => ([], r)
                end in
              match span_digits r1 with
              | ([], _) => ([], s3)
              | (es, r2) => (c :: esign ++ es, r2)
              end
            else ([], s3)
        | [] => ([], s3)
        end in
      match frac, exp with
      | [], [] =>
          Some (JInt (match sign with
                      | [] => int_of_digits ds
                      | _ :: _ => - int_of_digits ds
                      end), s4)
      | _, _ => Some (JFloat (sign ++ ds ++ frac ++ exp), s4)
      end
  end.

(** [dict(pairs)]: a repeated key keeps its first place and its last
    value. *)
Definition dict_of_pairs {V} (pairs : list (str * V)) : dict V :=
  fold_left (fun acc kv => dict_set acc (fst kv) (snd kv)) pairs [].

(** [scan_once], [JSONObject] and [JSONArray].  [fuel] bounds the number of
    nested calls and loop turns; each of them consumes input. *)
Fixpoint scan_once (fuel : nat) (s : str) {struct fuel} : result (json * str) :=
  match fuel with
  | O => Raise JSONDecodeError
  | S fuel' =>
      match s with
      | [] => Raise JSONDecodeError
      | nextchar :: s1 =>
          if nextchar =? 34 then
            rbind (scanstring s1) (fun p => Ok (JStr (fst p), snd p))
          else if nextchar =? 123 then
            match skip_ws s1 with
            | c :: s2 =>
                if c =? 125 then Ok (JDict [], s2)
                else if c =? 34 then object_members fuel' s2 []
                else Raise JSONDecodeError
            | [] => Raise JSONDecodeError
            end
          else if nextchar =? 91 then
            match skip_ws s1 with
            | c :: s2 =>
                if c =? 93 then Ok (JList [], s2)
                else array_items fuel' (c :: s2) []
            | [] => Raise JSONDecodeError
            end
          else if startswith (lit "null") s then Ok (JNull, skipn 4 s)
          else if startswith (lit "true") s then Ok (JBool true, skipn 4 s)
          else if startswith (lit "false") s then Ok (JBool false, skipn 5 s)
          else
            match match_number s with
            | Some r => Ok r
            | None =>
                if startswith (lit "NaN") s
                then Ok (JFloat (lit "NaN"), skipn 3 s)
                else if startswith (lit "Infinity") s
                then Ok (JFloat (lit "Infinity"), skipn 8 s)
                else if startswith (lit "-Infinity") s
                then Ok (JFloat (lit "-Infinity"), skipn 9 s)
                else Raise JSONDecodeError
            end
      end
  end

with object_members (fuel : nat) (s : str) (pairs : list (str * json))
  {struct fuel} : result (json * str) :=
  match fuel with
  | O => Raise JSONDecodeError
  | S fuel' =>
      rbind (scanstring s) (fun p =>
      let key := fst p in
      match skip_ws (snd p) with
      | colon :: s1 =>
          if colon =? 58 then
            rbind (scan_once fuel' (skip_ws s1)) (fun q =>
            let pairs := pairs ++ [(key, fst q)] in
            match skip_ws (snd q) with
            | c :: s2 =>
                if c =? 125 then Ok (JDict (dict_of_pairs pairs), s2)
                else if c =? 44 then
                  match skip_ws s2 with
                  | quote :: s3 =>
                      if quote =? 34 then object_members fuel' s3 pairs
                      else Raise JSONDecodeError
                  | [] => Raise JSONDecodeError
                  end
                else Raise JSONDecodeError
            | [] => Raise JSONDecodeError
            end)
          else Raise JSONDecodeError
      | [] => Raise JSONDecodeError
      end)
  end

with array_items (fuel : nat) (s : str) (values : list json)
  {struct fuel} : result (json * str) :=
  match fuel with
  | O => Raise JSONDecodeError
  | S fuel' =>
      rbind (scan_once fuel' s) (fun q =>
      let values := values ++ [fst q] in
      match skip_ws (snd q) with
      | c :: s1 =>
          if c =? 93 then Ok (JList values, s1)
          else if c =? 44 then array_items fuel' (skip_ws s1) values
          else Raise JSONDecodeError
      | [] => Raise JSONDecodeError
      end)
  end.

(** [json.loads(s)], which is [json.load] on a file holding [s]: one value,
    white space around it, nothing else. *)
Definition json_loads (s : str) : result json :=
  if startswith [65279] s then Raise JSONDecodeError
  else
    rbind (scan_once (S (List.length s)) (skip_ws s)) (fun q =>
    match skip_ws (snd q) with
    | [] => Ok (fst q)
    | _ :: _ => Raise JSONDecodeError
    end).

(** ** The remote services *)

Inductive http_method : Type := GET | PUT | POST.

Record request : Type := mkRequest {
  req_method : http_method;
  req_url : str;
  req_headers : dict str;
  req_params : dict pyval
}.

(** One size variant of a photo, [{'type': ..., 'url': ...}]. *)
Record size_info : Type := mkSize { size_type : str; size_url : str }.

(** One item of [photos.get] with [extended=1] and [photo_sizes=1]. *)
Record image_info : Type := mkImage {
  image_likes_count : Z;       (* image_info['likes']['count'] *)
  image_date : Z;              (* image_info['date'] *)
  image_sizes : list size_info (* image_info['sizes'] *)
}.

(** One item of [users.get]; the code reads the fields with [.get]. *)
Record user_info : Type := mkUser {
  first_name : option str;
  last_name : option str;
  user_id_info : option Z
}.

(** The value under the key ['response'] of a VK answer. *)
Inductive vk_payload : Type :=
| VkUsers (users : list user_info)      (* users.get: a list *)
| VkStatus (text : option str)          (* status.get: a dict, 'text' or not *)
| VkPhotos (items : list image_info).   (* photos.get: a dict with 'items' *)

(** A [requests.Response]: [json] is what [response.json()] gives, with
    [None] for a body without the key ['response'] (VK's error answers). *)
Record response : Type := mkResponse {
  status_code : Z;
  content : list Z;
  response_json : result (option vk_payload)
}.

(** The metadata of a Drive file: name, parents, MIME type. *)
Record file_metadata : Type := mkMetadata {
  meta_name : str;
  meta_parents : option (list (option str));  (* absent for the folder *)
  meta_mimeType : str
}.

(** The calls that leave the process. *)
Inductive call : Type :=
| Http (r : request)
| PathExists (path : str)
| LoadCredentials (path : str)
| RunAuthFlow (secrets : str)
| DriveList (q fields : str)
| DriveCreate (body : file_metadata) (media : option (list Z)) (fields : str).

(** What the outside answers, given the calls made so far (oldest first).
    An answer may be an exception. *)
Record environment : Type := mkEnvironment {
  http : list call -> request -> result response;
  path_exists : list call -> str -> bool;
  (* Credentials.from_authorized_user_file: the credentials' [valid] flag *)
  load_credentials : list call -> str -> result bool;
  (* InstalledAppFlow.from_client_secrets_file and run_local_server *)
  run_auth_flow : list call -> str -> result unit;
  (* files().list(...).execute(): the ids of response.get('files', []) *)
  drive_list : list call -> str -> str -> result (list str);
  (* files().create(...).execute(): the created file's .get("id") *)
  drive_create :
    list call -> file_metadata -> option (list Z) -> str -> result (option str)
}.

(** The state a run changes: the calls made, and the local files. *)
Record world : Type := mkWorld {
  calls : list call;
  files : dict str
}.

(** A method: it reads the environment, changes the world, and returns or
    raises. *)
Definition M (A : Type) : Type := environment -> world -> result A * world.

Definition ret {A} (a : A) : M A := fun _ w => (Ok a, w).

Definition throw {A} (e : exn) : M A := fun _ w => (Raise e, w).

Definition bind {A B} (m : M A) (k : A -> M B) : M B :=
  fun env w =>
    match m env w with
    | (Ok a, w') => k a env w'
    | (Raise e, w') => (Raise e, w')
    end.

Definition lift {A} (r : result A) : M A := fun _ w => (r, w).

Declare Scope py_scope.
Delimit Scope py_scope with py.
Notation "x <- m ;; k" := (bind m (fun x => k))
  (at level 61, m at next level, right associativity) : py_scope.
Notation "m ;;; k" := (bind m (fun _ => k))
  (at level 61, right associativity) : py_scope.
Open Scope py_scope.

Definition record_call (c : call) (w : world) : world :=
  mkWorld (calls w ++ [c]) (files w).

(** [requests.get], [requests.put], [requests.post]. *)
Definition requests (m : http_method) (url : str) (headers : dict str)
  (params : dict pyval) : M response :=
  fun env w =>
    let r := mkRequest m url headers params in
    (http env (calls w) r, record_call (Http r) w).

(** [with open(name, 'w') as f: json.dump(..., f)]: the file is replaced.
    Opening the file and writing to it are taken to succeed: a run in
    which the local write fails, which can leave a truncated file, is not
    a run of this model, and no statement below is about such a run. *)
Definition write_file (name text : str) : M unit :=
  fun _ w => (Ok tt, mkWorld (calls w) (dict_set (files w) name text)).

(** The text of a local file, if there is one. *)
Definition read_file (name : str) : M str :=
  fun _ w =>
    match dict_get (files w) name with
    | Some text => (Ok text, w)
    | None => (Raise OSError, w)
    end.

(** The calls of the Google client library. *)
Definition os_path_exists (path : str) : M bool :=
  fun env w => (Ok (path_exists env (calls w) path), record_call (PathExists path) w).

Definition from_authorized_user_file (path : str) : M bool :=
  fun env w =>
    (load_credentials env (calls w) path, record_call (LoadCredentials path) w).

Definition run_local_server (secrets : str) : M unit :=
  fun env w =>
    (run_auth_flow env (calls w) secrets, record_call (RunAuthFlow secrets) w).

Definition files_list (q fields : str) : M (list str) :=
  fun env w =>
    (drive_list env (calls w) q fields, record_call (DriveList q fields) w).

Definition files_create (body : file_metadata) (media : option (list Z))
  (fields : str) : M (option str) :=
  fun env w =>
    (drive_create env (calls w) body media fields,
     record_call (DriveCreate body media fields) w).

(** ** [class VkApiClient] *)

Record VkApiClient : Type := mkClient {
  token : str;
  photo_type : str
}.

Definition API_BASE_URL : str := lit "https://api.vk.com/method/".

(** [None] prints as ["None"] in an f-string. *)
Definition fmt_opt (o : option str) : str :=
  match o with
  | Some s => s
  | None => lit "None"
  end.

Section Methods.

Variable self : VkApiClient.

(** The module-level [TOKEN_YA_DISK], and the local time zone. *)
Variable TOKEN_YA_DISK : str.
Variable utcoffset : Z -> Z.

Definition get_common_params : dict pyval :=
  [(lit "access_token", PStr (token self)); (lit "v", PStr (lit "5.131"))].

(** [response.get('response', [])[0]], lines 65-67. *)
Definition first_user (body : option vk_payload) : result user_info :=
  match body with
  | None => Raise IndexError                  (* the default, [][0] *)
  | Some (VkUsers []) => Raise IndexError
  | Some (VkUsers (u :: _)) => Ok u
  | Some (VkStatus _) => Raise KeyError       (* a dict indexed by 0 *)
  | Some (VkPhotos _) => Raise KeyError
  end.

Definition status_info (user_id : str) : M (str * option Z) :=
  let params := dict_update get_common_params [(lit "user_ids", PStr user_id)] in
  let url := API_BASE_URL ++ lit "users.get" in
  r <- requests GET url [] params ;;
  response <- lift (response_json r) ;;
  u1 <- lift (first_user response) ;;
  let first_name := first_name u1 in
  u2 <- lift (first_user response) ;;
  let last_name := last_name u2 in
  u3 <- lift (first_user response) ;;
  let user_id_info := user_id_info u3 in
  ret (fmt_opt first_name ++ lit " " ++ fmt_opt last_name, user_id_info).

(** [response.json().get('response', {}).get('text')], line 87. *)
Definition status_text (body : option vk_payload) : result (option str) :=
  match body with
  | None => Ok None
  | Some (VkStatus text) => Ok text
  | Some (VkPhotos _) => Ok None
  | Some (VkUsers _) => Raise AttributeError  (* a list has no .get *)
  end.

Definition get_status (user_id : str) : M (option str) :=
  let params := get_common_params in
  let params := dict_update params [(lit "user_ids", PStr user_id)] in
  let url := API_BASE_URL ++ lit "status.get" in
  response <- requests GET url [] params ;;
  body <- lift (response_json response) ;;
  lift (status_text body).

(** [response.raise_for_status()]: the 4xx and 5xx statuses raise. *)
Definition raise_for_status (r : response) : M unit :=
  if (400 <=? status_code r) && (status_code r <? 600)
  then throw HTTPError else ret tt.

Definition set_status (user_id new_status : str) : M unit :=
  let params := get_common_params in
  let params :=
    dict_update params
      [(lit "user_ids", PStr user_id); (lit "text", PStr new_status)] in
  let url := API_BASE_URL ++ lit "status.set" in
  response <- requests GET url [] params ;;
  raise_for_status response.

Definition replase_status (user_id target replace_string : str) : M unit :=
  status <- get_status user_id ;;
  match status with
  | None => throw AttributeError            (* None has no .replace *)
  | Some status =>
      let new_status := replace status target replace_string in
      set_status user_id new_status
  end.

(** [response.json()['response']['items']], line 159. *)
Definition photos_items (body : option vk_payload) : result (list image_info) :=
  match body with
  | Some (VkPhotos items) => Ok items
  | Some (VkUsers _) => Raise TypeError       (* a list indexed by 'items' *)
  | Some (VkStatus _) => Raise KeyError
  | None => Raise KeyError
  end.

(** The inner loop, lines 161-164. *)
Fixpoint sizes_loop (image : image_info) (sizes : list size_info)
  (profile_photos : list photo) : list photo :=
  match sizes with
  | [] => profile_photos
  | size :: rest =>
      if contains (photo_type self) (size_type size)
      then
        let profile_photo :=
          (image_likes_count image, image_date image, size_url size) in
        sizes_loop image rest (profile_photos ++ [profile_photo])
      else sizes_loop image rest profile_photos
  end.

(** The outer loop, line 160. *)
Fixpoint images_loop (image_list : list image_info)
  (profile_photos : list photo) : list photo :=
  match image_list with
  | [] => profile_photos
  | image :: rest =>
      images_loop rest (sizes_loop image (image_sizes image) profile_photos)
  end.

Definition get_profile_photos (user_id : str) (count : Z) (album_id : str)
  : M (list photo) :=
  let profile_photos := [] in
  let params :=
    dict_update get_common_params
      [(lit "owner_id", PStr user_id); (lit "album_id", PStr album_id);
       (lit "extended", PInt 1); (lit "photo_sizes", PInt 1);
       (lit "count", PInt count)] in
  let url := API_BASE_URL ++ lit "photos.get" in
  response <- requests GET url [] params ;;
  body <- lift (response_json response) ;;
  image_list <- lift (photos_items body) ;;
  ret (images_loop image_list profile_photos).

Definition YANDEX_RESOURCES : str :=
  lit "https://cloud-api.yandex.net/v1/disk/resources".

(** The manifest entry [{'file_name': image_name, 'size': self.photo_type}]. *)
Definition manifest_entry (image_name : str) : json :=
  JDict [(lit "file_name", JStr image_name); (lit "size", JStr (photo_type self))].

(** The loop of [save_photos_to_yandex_disk], lines 194-206. *)
Fixpoint yandex_loop (headers : dict str) (folder_path : str)
  (likes_counts : list Z) (photos : list photo) (photo_info_json : list json)
  : M (list json) :=
  match photos with
  | [] => ret photo_info_json
  | (likes, date, photo_url) :: rest =>
      let url := YANDEX_RESOURCES ++ lit "/upload" in
      image_name <- lift (image_name_yandex utcoffset likes_counts likes date) ;;
      let params :=
        [(lit "path", PStr (folder_path ++ lit "/" ++ image_name));
         (lit "url", PStr photo_url);
         (lit "disable_redirects", PStr (lit "true"))] in
      response <- requests POST url headers params ;;
      let photo_info_json := photo_info_json ++ [manifest_entry image_name] in
      yandex_loop headers folder_path likes_counts rest photo_info_json
  end.

Definition save_photos_to_yandex_disk (album_id_vk : str) (count_photos : Z)
  (album_id : str) : M unit :=
  photos <- get_profile_photos album_id_vk count_photos album_id ;;
  let headers := [(lit "Authorization", lit "OAuth " ++ TOKEN_YA_DISK)] in
  let folder_path := lit "backup_photos" in
  let photo_info_json := [] in
  response <-
    requests GET YANDEX_RESOURCES headers [(lit "path", PStr folder_path)] ;;
  response <-
    (if status_code response =? 404
     then requests PUT YANDEX_RESOURCES headers [(lit "path", PStr folder_path)]
     else ret response) ;;
  let likes_counts := likes_counts photos in
  photo_info_json <-
    yandex_loop headers folder_path likes_counts photos photo_info_json ;;
  write_file (lit "photo_info_ya_disk.json") (json_dumps (JList photo_info_json)).

(** The loop of [save_photos_to_google_drive], lines 262-286. *)
Fixpoint google_loop (folder_id : option str) (likes_counts : list Z)
  (photos : list photo) (photo_info_json : list json) : M (list json) :=
  match photos with
  | [] => ret photo_info_json
  | (likes, date, photo_url) :: rest =>
      image_name <- lift (image_name_google utcoffset likes_counts likes date) ;;
      let file_metadata :=
        mkMetadata image_name (Some [folder_id]) (lit "image/jpeg") in
      response <- requests GET photo_url [] [] ;;
      let media := Some (content response) in
      created_file <- files_create file_metadata media (lit "id") ;;
      let photo_info_json := photo_info_json ++ [manifest_entry image_name] in
      google_loop folder_id likes_counts rest photo_info_json
  end.

Definition save_photos_to_google_drive (album_id_vk : str) (count_photos : Z)
  (album_id : str) : M unit :=
  photos <- get_profile_photos album_id_vk count_photos album_id ;;
  (* creds: None, or the [valid] flag of the stored credentials *)
  exists_ <- os_path_exists (lit "token.json") ;;
  creds <-
    (if exists_ : bool
     then valid <- from_authorized_user_file (lit "token.json") ;; ret (Some valid)
     else ret None) ;;
  match creds with
  | Some true => ret tt
  | _ => run_local_server (lit "credentials.json")
  end ;;;
  let folder_name := lit "backup_photos" in
  let query :=
    lit "name='" ++ folder_name
    ++ lit "' and mimeType='application/vnd.google-apps.folder' and 'root' in parents and trashed=false" in
  folders <- files_list query (lit "files(id)") ;;
  folder_id <-
    match folders with
    | id :: _ => ret (Some id)
    | [] =>
        let folder_metadata :=
          mkMetadata folder_name None (lit "application/vnd.google-apps.folder") in
        files_create folder_metadata None (lit "id")
    end ;;
  let photo_info_json := [] in
  let likes_counts := likes_counts photos in
  photo_info_json <- google_loop folder_id likes_counts photos photo_info_json ;;
  write_file (lit "photo_info_g_drive.json") (json_dumps (JList photo_info_json)).

End Methods.

(** ** The module level, lines 292-308 *)

(** A file opened in text mode: every line ending reads as ["\n"]. *)
Fixpoint universal_newlines (s : str) : str :=
  match s with
  | [] => []
  | c :: s' =>
      if c =? 13 then
        10 :: match s' with
              | c' :: s'' =>
                  if c' =? 10 then universal_newlines s''
                  else universal_newlines s'
              | [] => []
              end
      else c :: universal_newlines s'
  end.

(** [f.readline()]: the text up to and including the first ["\n"], and
    what is left of the stream. *)
Fixpoint readline (s : str) : str * str :=
  match s with
  | [] => ([], [])
  | c :: s' =>
      if c =? 10 then ([10], s')
      else let '(line, rest) := readline s' in (c :: line, rest)
  end.

(** [TOKEN_VK], [USER_ID] and [TOKEN_YA_DISK] from the text of [api.txt]. *)
Definition load_secrets (text : str) : str * str * str :=
  let token := universal_newlines text in
  let '(TOKEN_VK, token) := readline token in
  let '(USER_ID, token) := readline token in
  let '(TOKEN_YA_DISK, token) := readline token in
  (TOKEN_VK, USER_ID, TOKEN_YA_DISK).

(** The script: the two [print] calls leave no trace in the world. *)
Definition main (utcoffset : Z -> Z) : M unit :=
  text <- read_file (lit "api.txt") ;;
  let '(TOKEN_VK, USER_ID, TOKEN_YA_DISK) := load_secrets text in
  let vk_client := mkClient TOKEN_VK (lit "z") in
  label <- status_info vk_client USER_ID ;;
  save_photos_to_yandex_disk vk_client TOKEN_YA_DISK utcoffset USER_ID 5
    (lit "profile") ;;;
  save_photos_to_google_drive vk_client utcoffset USER_ID 10 (lit "wall").


(** ** Vocabulary of the statements *)

(** The fields of a [datetime] that [fromtimestamp] returns. *)
Definition datetime_ok (dt : datetime) : Prop :=
  1 <= year dt <= 9999 /\ 1 <= month dt <= 12 /\ 1 <= day dt <= 31 /\
  0 <= hour dt <= 23 /\ 0 <= minute dt <= 59 /\ 0 <= second dt <= 59.

(** The local second a [datetime] stands for. *)
Definition datetime_seconds (dt : datetime) : Z :=
  days_from_civil (year dt) (month dt) (day dt) * 86400
  + hour dt * 3600 + minute dt * 60 + second dt.

(** The names the loop of each pipeline computes, photo by photo. *)
Definition resolve_names_yandex (utcoffset : Z -> Z) (photos : list photo)
  : list (result str) :=
  map (fun p =>
         image_name_yandex utcoffset (likes_counts photos)
           (photo_likes p) (photo_date p)) photos.

Definition resolve_names_google (utcoffset : Z -> Z) (photos : list photo)
  : list (result str) :=
  map (fun p =>
         image_name_google utcoffset (likes_counts photos)
           (photo_likes p) (photo_date p)) photos.

(** The two forms of a file name. *)
Definition plain_name (likes : Z) : str := str_of_int likes ++ lit "_likes.jpg".

Definition stamped_name (likes : Z) (dt : datetime) : str :=
  str_of_int likes ++ lit "_likes__" ++ strftime dt ++ lit ".jpg".

(** Moscow time around 26 October 2014, when the clocks went from UTC+4
    back to UTC+3 at 22:00 UTC of the 25th. *)
Definition moscow_2014 (t : Z) : Z :=
  if t <? 1414274400 then 14400 else 10800.

(** Two photos with ten likes each, uploaded an hour apart across that
    change. *)
Definition tie_photos : list photo :=
  [(10, 1414272600, lit "urlA"); (10, 1414276200, lit "urlB")].

(** A size variant whose type tag contains the configured tag. *)
Definition matching (self : VkApiClient) (size : size_info) : bool :=
  contains (photo_type self) (size_type size).

Definition matching_sizes (self : VkApiClient) (image : image_info)
  : list size_info :=
  filter (matching self) (image_sizes image).

Definition has_match (self : VkApiClient) (image : image_info) : bool :=
  existsb (matching self) (image_sizes image).

(** The records of one photo: one for each matching size variant. *)
Definition records_of (self : VkApiClient) (image : image_info) : list photo :=
  map (fun size => (image_likes_count image, image_date image, size_url size))
    (matching_sizes self image).

(** The requests the methods send to VK. *)
Definition photos_get_request (self : VkApiClient) (user_id : str) (count : Z)
  (album_id : str) : request :=
  mkRequest GET (API_BASE_URL ++ lit "photos.get") []
    [(lit "access_token", PStr (token self)); (lit "v", PStr (lit "5.131"));
     (lit "owner_id", PStr user_id); (lit "album_id", PStr album_id);
     (lit "extended", PInt 1); (lit "photo_sizes", PInt 1);
     (lit "count", PInt count)].

Definition users_get_request (self : VkApiClient) (user_id : str) : request :=
  mkRequest GET (API_BASE_URL ++ lit "users.get") []
    [(lit "access_token", PStr (token self)); (lit "v", PStr (lit "5.131"));
     (lit "user_ids", PStr user_id)].

Definition status_get_request (self : VkApiClient) (user_id : str) : request :=
  mkRequest GET (API_BASE_URL ++ lit "status.get") []
    [(lit "access_token", PStr (token self)); (lit "v", PStr (lit "5.131"));
     (lit "user_ids", PStr user_id)].

Definition status_set_request (self : VkApiClient) (user_id text : str)
  : request :=
  mkRequest GET (API_BASE_URL ++ lit "status.set") []
    [(lit "access_token", PStr (token self)); (lit "v", PStr (lit "5.131"));
     (lit "user_ids", PStr user_id); (lit "text", PStr text)].

(** An outside that answers every HTTP request with [r], has no stored
    credentials, lets the authorization flow succeed and finds the backup
    folder on Drive. *)
Definition constant_env (r : response) : environment :=
  mkEnvironment
    (fun _ _ => Ok r)
    (fun _ _ => false)
    (fun _ _ => Raise GoogleError)
    (fun _ _ => Ok tt)
    (fun _ _ _ => Ok [lit "folder"])
    (fun _ _ _ _ => Ok (Some (lit "file"))).

Definition vk_answer (body : option vk_payload) : response :=
  mkResponse 200 [] (Ok body).

Definition empty_world : world := mkWorld [] [].

(** The default client, [VkApiClient(token)] with [photo_type='z']. *)
Definition default_client : VkApiClient := mkClient (lit "tok") (lit "z").

(** A photo listed with two size variants of type [z]. *)
Definition two_z_image : image_info :=
  mkImage 5 100 [mkSize (lit "z") (lit "u1"); mkSize (lit "z") (lit "u2")].

(** The requests of the Yandex pipeline. *)
Definition yandex_headers (TOKEN_YA_DISK : str) : dict str :=
  [(lit "Authorization", lit "OAuth " ++ TOKEN_YA_DISK)].

Definition probe_request (TOKEN_YA_DISK : str) : request :=
  mkRequest GET YANDEX_RESOURCES (yandex_headers TOKEN_YA_DISK)
    [(lit "path", PStr (lit "backup_photos"))].

Definition create_folder_request (TOKEN_YA_DISK : str) : request :=
  mkRequest PUT YANDEX_RESOURCES (yandex_headers TOKEN_YA_DISK)
    [(lit "path", PStr (lit "backup_photos"))].

Definition upload_request (TOKEN_YA_DISK image_name photo_url : str) : request :=
  mkRequest POST (YANDEX_RESOURCES ++ lit "/upload")
    (yandex_headers TOKEN_YA_DISK)
    [(lit "path", PStr (lit "backup_photos" ++ lit "/" ++ image_name));
     (lit "url", PStr photo_url);
     (lit "disable_redirects", PStr (lit "true"))].

(** What [save_photos_to_yandex_disk] does after the folder step: the
    uploads, lines 193-206, and the manifest, lines 208-209. *)
Definition yandex_uploads (self : VkApiClient) (TOKEN_YA_DISK : str)
  (utcoffset : Z -> Z) (photos : list photo) : M unit :=
  photo_info_json <-
    yandex_loop self utcoffset (yandex_headers TOKEN_YA_DISK)
      (lit "backup_photos") (likes_counts photos) photos [] ;;
  write_file (lit "photo_info_ya_disk.json") (json_dumps (JList photo_info_json)).

(** The world after the calls [cs] have been made. *)
Definition after_calls (w : world) (cs : list call) : world :=
  mkWorld (calls w ++ cs) (files w).

(** The calls a run added to those of [w]. *)
Definition new_calls (w w' : world) : list call :=
  skipn (List.length (calls w)) (calls w').

(** [names] are the names the Yandex, or Google, loop gives to [photos]. *)
Definition yandex_names (utcoffset : Z -> Z) (photos : list photo)
  (names : list str) : Prop :=
  Forall2 (fun p n =>
             image_name_yandex utcoffset (likes_counts photos)
               (photo_likes p) (photo_date p) = Ok n) photos names.

Definition google_names (utcoffset : Z -> Z) (photos : list photo)
  (names : list str) : Prop :=
  Forall2 (fun p n =>
             image_name_google utcoffset (likes_counts photos)
               (photo_likes p) (photo_date p) = Ok n) photos names.

(** The manifest of a run: one entry for each name, in order. *)
Definition manifest (self : VkApiClient) (names : list str) : json :=
  JList (map (manifest_entry self) names).

(** The requests of the Google pipeline. *)
Definition download_request (photo_url : str) : request :=
  mkRequest GET photo_url [] [].

Definition photo_metadata (folder_id : option str) (image_name : str)
  : file_metadata :=
  mkMetadata image_name (Some [folder_id]) (lit "image/jpeg").


(** The answer 500 to every request, with a listing of two photos that
    have ten likes each. *)
Definition server_error_listing : response :=
  mkResponse 500 []
    (Ok (Some (VkPhotos
       [mkImage 10 1414272600 [mkSize (lit "z") (lit "urlA")];
        mkImage 10 1414276200 [mkSize (lit "z") (lit "urlB")]]))).

(** The surrogate code points, and the code points of Unicode. *)
Definition is_high_surrogate (c : Z) : bool := (55296 <=? c) && (c <=? 56319).
Definition is_low_surrogate (c : Z) : bool := (56320 <=? c) && (c <=? 57343).
Definition is_code_point (c : Z) : bool := (0 <=? c) && (c <? 1114112).

(** No high surrogate of [s] is followed at once by a low surrogate. *)
Fixpoint no_surrogate_pair (s : str) : bool :=
  match s with
  | [] => true
  | a :: t =>
      negb (is_high_surrogate a
            && match t with b :: _ => is_low_surrogate b | [] => false end)
      && no_surrogate_pair t
  end.

(** A string that [json.load] gives back as it was written. *)
Definition wf_str (s : str) : bool :=
  forallb is_code_point s && no_surrogate_pair s.

(** A manifest entry [{'file_name': name, 'size': size}] as a value, and a
    manifest as the list of its entries. *)
Definition entry_json (name size : str) : json :=
  JDict [(lit "file_name", JStr name); (lit "size", JStr size)].

Definition entries_json (entries : list (str * str)) : list json :=
  map (fun e => entry_json (fst e) (snd e)) entries.

Definition wf_entry (e : str * str) : bool := wf_str (fst e) && wf_str (snd e).

(** The text after an escape [\uXXXX] of [uni] does not make a surrogate
    pair with it. *)
Definition no_pair_ahead (uni : Z) (t : str) : Prop :=
  is_high_surrogate uni = false
  \/ t = []
  \/ (exists b t', t = b :: t' /\ b <> 92)
  \/ (exists e t', t = 92 :: e :: t' /\ e <> 117)
  \/ (exists u t', t = 92 :: 117 :: hex4 u ++ t' /\ 0 <= u < 65536
                   /\ is_low_surrogate u = false).

(** The text of one member of an object, after the opening quote of its
    key; of one manifest entry; of the entries of a manifest, after the
    first indentation. *)
Definition member_text (key value : str) (rest : str) : str :=
  flat_map escape_char key ++ 34 :: 58 :: 32 :: 34 ::
  flat_map escape_char value ++ 34 :: rest.

Definition entry_text (name size rest : str) : str :=
  123 :: newline_indent 2 ++ 34 ::
  member_text (lit "file_name") name
    (44 :: newline_indent 2 ++ 34 ::
     member_text (lit "size") size (newline_indent 1 ++ 125 :: rest)).

Fixpoint items_text (entries : list (str * str)) (rest : str) : str :=
  match entries with
  | [] => rest
  | [(name, size)] => entry_text name size (newline_indent 0 ++ 93 :: rest)
  | (name, size) :: entries' =>
      entry_text name size (44 :: newline_indent 1 ++ items_text entries' rest)
  end.

(** A string of characters below 256. *)
Definition latin (s : str) : Prop := Forall (fun c => 0 <= c < 256) s.

(** The upload requests of the Yandex pipeline for named photos. *)
Definition upload_calls (TOKEN_YA_DISK : str) (names : list str)
  (photos : list photo) : list call :=
  map (fun np => Http (upload_request TOKEN_YA_DISK (fst np) (photo_url (snd np))))
    (combine names photos).

(** The two calls of the Google pipeline for one photo: the download of
    its bytes and the creation of the file that holds them. *)
Definition transfer_calls (folder_id : option str) (t : str * photo * list Z)
  : list call :=
  [Http (download_request (photo_url (snd (fst t))));
   DriveCreate (photo_metadata folder_id (fst (fst t))) (Some (snd t)) (lit "id")].

(** What [save_photos_to_google_drive] does once the folder is known: the
    transfers, lines 260-286, and the manifest, lines 288-289. *)
Definition google_uploads (self : VkApiClient) (utcoffset : Z -> Z)
  (folder_id : option str) (photos : list photo) : M unit :=
  photo_info_json <-
    google_loop self utcoffset folder_id (likes_counts photos) photos [] ;;
  write_file (lit "photo_info_g_drive.json") (json_dumps (JList photo_info_json)).

(** The query for the backup folder, lines 244-245, and the metadata of
    the folder, lines 253-256. *)
Definition folder_query : str :=
  lit "name='backup_photos' and mimeType='application/vnd.google-apps.folder' and 'root' in parents and trashed=false".

Definition folder_metadata : file_metadata :=
  mkMetadata (lit "backup_photos") None (lit "application/vnd.google-apps.folder").

(** A call that starts the interactive authorization. *)
Definition is_auth_flow (c : call) : bool :=
  match c with
  | RunAuthFlow _ => true
  | _ => false
  end.

(** A call that creates a folder on Drive: a creation whose metadata has
    the MIME type of a folder, whatever its name, parents and content. *)
Definition FOLDER_MIME_TYPE : str := lit "application/vnd.google-apps.folder".

Definition is_folder_creation (c : call) : bool :=
  match c with
  | DriveCreate body _ _ => str_eqb (meta_mimeType body) FOLDER_MIME_TYPE
  | _ => false
  end.

(** A computation that leaves the local files as they are, and one that
    at most sets the file [name], as its last step, when it returns. *)
Definition keeps_files {A} (m : M A) : Prop :=
  forall env w, files (snd (m env w)) = files w.

Definition writes_last (name : str) (m : M unit) : Prop :=
  forall env w,
    match m env w with
    | (Ok _, w') => exists text, files w' = dict_set (files w) name text
    | (Raise _, w') => files w' = files w
    end.

(** What [save_photos_to_google_drive] does once it is authorized: the
    lookup or creation of the folder, lines 241-258, then the transfers and
    the manifest. *)
Definition google_storage (self : VkApiClient) (utcoffset : Z -> Z)
  (photos : list photo) : M unit :=
  folders <- files_list folder_query (lit "files(id)") ;;
  folder_id <-
    match folders with
    | id :: _ => ret (Some id)
    | [] => files_create folder_metadata None (lit "id")
    end ;;
  google_uploads self utcoffset folder_id photos.

(** The calls by which a Google run gets its credentials, lines 229-237:
    the check for the token file, then the loading of the stored
    credentials, the interactive flow, or the one after the other. *)
Definition authorization_calls : list (list call) :=
  [[PathExists (lit "token.json"); LoadCredentials (lit "token.json")];
   [PathExists (lit "token.json"); LoadCredentials (lit "token.json");
    RunAuthFlow (lit "credentials.json")];
   [PathExists (lit "token.json"); RunAuthFlow (lit "credentials.json")]].

(** The folder of a Google run, lines 241-258, from the calls [h] made so
    far: the run makes the calls [cs] and goes on with [folder_id], which
    is the first id Drive lists in answer to the query or, when Drive
    lists none, what Drive answers the creation of the folder with. *)
Inductive folder_lookup (env : environment) (h : list call)
  : list call -> option str -> Prop :=
| folder_found id ids :
    drive_list env h folder_query (lit "files(id)") = Ok (id :: ids) ->
    folder_lookup env h [DriveList folder_query (lit "files(id)")] (Some id)
| folder_created folder_id :
    drive_list env h folder_query (lit "files(id)") = Ok [] ->
    drive_create env (h ++ [DriveList folder_query (lit "files(id)")])
      folder_metadata None (lit "id") = Ok folder_id ->
    folder_lookup env h
      [DriveList folder_query (lit "files(id)");
       DriveCreate folder_metadata None (lit "id")]
      folder_id.

(** The transfers of a Google run into the folder [folder_id], from the
    calls [h] made so far: the content of each photo is the content of the
    answer to its download, asked for after the calls of the photos before
    it, and Drive answers the creation of the file that holds it. *)
Inductive fetched (env : environment) (folder_id : option str)
  : list call -> list photo -> list str -> list (list Z) -> Prop :=
| fetched_nil h : fetched env folder_id h [] [] []
| fetched_cons h p photos name names r created contents :
    http env h (download_request (photo_url p)) = Ok r ->
    drive_create env (h ++ [Http (download_request (photo_url p))])
      (photo_metadata folder_id name) (Some (content r)) (lit "id")
    = Ok created ->
    fetched env folder_id
      (h ++ transfer_calls folder_id (name, p, content r))
      photos names contents ->
    fetched env folder_id h (p :: photos) (name :: names)
      (content r :: contents).

(** A computation that only adds calls to those already made. *)
Definition extends_calls {A} (m : M A) : Prop :=
  forall env w, exists cs, calls (snd (m env w)) = calls w ++ cs.

(** The client the script builds from the secrets, line 298. *)
Definition script_client (TOKEN_VK : str) : VkApiClient :=
  mkClient TOKEN_VK (lit "z").

(** A line of text: no line ending inside. *)
Definition is_line (l : str) : Prop := ~ In 10 l /\ ~ In 13 l.

(** What [readline] can return: a line, ended by a new line or, at the end
    of the text, not ended. *)
Definition is_read_line (s : str) : Prop :=
  exists l, is_line l /\ (s = l \/ s = l ++ [10]).

(** A text of ASCII characters, which every encoding of a text file can
    write. *)
Definition ascii_text (s : str) : Prop := Forall (fun c => 0 <= c < 128) s.


(** A character of a decoded text: a code point that is no surrogate. *)
Definition scalar (c : Z) : Prop := 0 <= c < 55296 \/ 57344 <= c < 1114112.

(** The string [r] does not start with a low surrogate. *)
Definition first_not_low (r : str) : Prop :=
  match r with
  | b :: _ => is_low_surrogate b = false
  | [] => True
  end.

(** The text [s] does not start with the escape of a low surrogate. *)
Definition no_low_escape (s : str) : Prop :=
  match s with
  | b :: u :: g1 :: g2 :: g3 :: g4 :: _ =>
      b = 92 -> u = 117 ->
      match hex4val g1 g2 g3 g4 with
      | Some uni => is_low_surrogate uni = false
      | None => True
      end
  | _ => True
  end.

(** The size types of a listing are strings as [response.json()] gives
    them: sequences of code points in which no high surrogate is followed
    at once by a low surrogate (the parser joins the two escapes of such a
    pair into one character, and the decoded body holds no surrogate of
    its own: [scanstring_wf] below). *)
Definition parsed_types (items : list image_info) : Prop :=
  Forall (fun image =>
            Forall (fun size => wf_str (size_type size) = true)
              (image_sizes image)) items.

(** A listing of one photo whose size type holds a Cyrillic letter and a
    character beyond the basic plane, and a client that asks for the
    sizes with that character. *)
Definition emoji_items : list image_info :=
  [mkImage 3 1414272600 [mkSize [1103; 128512] (lit "urlA")]].

Definition emoji_listing : response :=
  mkResponse 200 [] (Ok (Some (VkPhotos emoji_items))).

Definition emoji_client : VkApiClient := mkClient (lit "tok") [128512].

(** * Properties *)

Lemma list_count_nonneg l x : 0 <= list_count l x.
Proof.
  induction l as [|y l IH]; simpl; [lia|].
  destruct (y =? x); lia.
Qed.

Lemma list_count_In l x : In x l -> 1 <= list_count l x.
Proof.
  induction l as [|y l IH]; simpl; [tauto|].
  intros [->|H].
  - rewrite Z.eqb_refl. pose proof (list_count_nonneg l x). lia.
  - specialize (IH H). destruct (y =? x); lia.
Qed.

Lemma list_count_notin l x : ~ In x l -> list_count l x = 0.
Proof.
  induction l as [|y l IH]; simpl; [reflexivity|].
  intros H. destruct (Z.eqb_spec y x) as [->|Hne].
  - exfalso. apply H. now left.
  - rewrite IH; [reflexivity|]. intros Hin. apply H. now right.
Qed.

Lemma list_count_NoDup l x : NoDup l -> In x l -> list_count l x = 1.
Proof.
  induction 1 as [|y l Hy Hnd IH]; simpl; [tauto|].
  intros [->|Hin].
  - rewrite Z.eqb_refl, list_count_notin by assumption. reflexivity.
  - destruct (Z.eqb_spec y x) as [->|Hne]; [contradiction|].
    rewrite IH by assumption. reflexivity.
Qed.

(** ** The calendar *)

(** [civil_from_days] is inverted by [days_from_civil], and gives a month
    and a day of the month. *)
Lemma civil_from_days_spec z :
  let '(y, m, d) := civil_from_days z in
  days_from_civil y m d = z /\ 1 <= m <= 12 /\ 1 <= d <= 31.
Proof.
  unfold civil_from_days, days_from_civil.
  set (z' := z + 719468).
  set (era := z' / 146097).
  set (doe := z' - era * 146097).
  assert (Hdoe : 0 <= doe < 146097)
    by (subst doe era; Z.div_mod_to_equations; lia).
  set (yoe := (doe - doe / 1460 + doe / 36524 - doe / 146096) / 365).
  set (doy := doe - (365 * yoe + yoe / 4 - yoe / 100)).
  assert (Hy : 0 <= yoe < 400 /\ 0 <= doy < 366)
    by (subst doy yoe; Z.div_mod_to_equations; lia).
  set (mp := (5 * doy + 2) / 153).
  assert (Hmp : 0 <= mp <= 11) by (subst mp; Z.div_mod_to_equations; lia).
  set (d := doy - (153 * mp + 2) / 5 + 1).
  assert (Hd : 1 <= d <= 31) by (subst d mp; Z.div_mod_to_equations; lia).
  destruct (Z.ltb_spec mp 10) as [Hlt|Hge].
  - replace (mp + 3 <=? 2) with false by (symmetry; apply Z.leb_gt; lia).
    replace (2 <? mp + 3) with true by (symmetry; apply Z.ltb_lt; lia).
    replace (mp + 3 - 3) with mp by lia.
    replace ((yoe + era * 400) / 400) with era
      by (Z.div_mod_to_equations; lia).
    replace (yoe + era * 400 - era * 400) with yoe by lia.
    split; [|lia]. subst d doy doe z'. lia.
  - replace (mp - 9 <=? 2) with true by (symmetry; apply Z.leb_le; lia).
    replace (2 <? mp - 9) with false by (symmetry; apply Z.ltb_ge; lia).
    replace (mp - 9 + 9) with mp by lia.
    replace (yoe + era * 400 + 1 - 1) with (yoe + era * 400) by lia.
    replace ((yoe + era * 400) / 400) with era
      by (Z.div_mod_to_equations; lia).
    replace (yoe + era * 400 - era * 400) with yoe by lia.
    split; [|lia]. subst d doy doe z'. lia.
Qed.

(** Between 0001-01-01 and 9999-12-31 the year has at most four digits. *)
Lemma civil_year_range z :
  -719162 <= z < 2932897 ->
  1 <= fst (fst (civil_from_days z)) <= 9999.
Proof.
  intros H. unfold civil_from_days. cbv zeta.
  set (z' := z + 719468).
  set (era := z' / 146097).
  set (doe := z' - era * 146097).
  assert (Hdoe : 0 <= doe < 146097)
    by (subst doe era; Z.div_mod_to_equations; lia).
  set (yoe := (doe - doe / 1460 + doe / 36524 - doe / 146096) / 365).
  set (doy := doe - (365 * yoe + yoe / 4 - yoe / 100)).
  assert (Hy : 0 <= yoe < 400 /\ 0 <= doy < 366)
    by (subst doy yoe; Z.div_mod_to_equations; lia).
  set (mp := (5 * doy + 2) / 153).
  assert (Hmp : 0 <= mp <= 11) by (subst mp; Z.div_mod_to_equations; lia).
  simpl fst.
  assert (Hera : 0 <= era <= 24)
    by (subst era z'; Z.div_mod_to_equations; lia).
  destruct (Z.ltb_spec mp 10) as [Hlt|Hge].
  - replace (mp + 3 <=? 2) with false by (symmetry; apply Z.leb_gt; lia).
    subst mp doy yoe doe era z'; Z.div_mod_to_equations; lia.
  - replace (mp - 9 <=? 2) with true by (symmetry; apply Z.leb_le; lia).
    subst mp doy yoe doe era z'; Z.div_mod_to_equations; lia.
Qed.

Lemma fromtimestamp_Ok utcoffset t dt :
  fromtimestamp utcoffset t = Ok dt ->
  datetime_ok dt /\ datetime_seconds dt = local_seconds utcoffset t.
Proof.
  unfold fromtimestamp. cbv zeta.
  set (l := local_seconds utcoffset t).
  destruct (Z.leb_spec MIN_LOCAL l) as [Hlo|]; [|discriminate].
  destruct (Z.ltb_spec l MAX_LOCAL) as [Hhi|]; [|discriminate].
  simpl andb. cbv iota.
  unfold MIN_LOCAL, MAX_LOCAL in *.
  assert (Hdays : -719162 <= l / 86400 < 2932897)
    by (Z.div_mod_to_equations; lia).
  pose proof (civil_from_days_spec (l / 86400)) as Hc.
  pose proof (civil_year_range (l / 86400) Hdays) as Hyr.
  destruct (civil_from_days (l / 86400)) as [[y m] d].
  simpl in Hyr. destruct Hc as (Hinv & Hm & Hd).
  intros [= <-]. unfold datetime_ok, datetime_seconds. simpl.
  rewrite Hinv. repeat split; try lia; Z.div_mod_to_equations; lia.
Qed.

Lemma fromtimestamp_in_range utcoffset t :
  MIN_LOCAL <= local_seconds utcoffset t < MAX_LOCAL ->
  exists dt, fromtimestamp utcoffset t = Ok dt.
Proof.
  intros [Hlo Hhi]. unfold fromtimestamp. cbv zeta.
  destruct (Z.leb_spec MIN_LOCAL (local_seconds utcoffset t)); [|lia].
  destruct (Z.ltb_spec (local_seconds utcoffset t) MAX_LOCAL); [|lia].
  cbn [andb].
  destruct (civil_from_days (local_seconds utcoffset t / 86400)) as [[y m] d].
  eauto.
Qed.

Lemma fromtimestamp_out_of_range utcoffset t :
  ~ (MIN_LOCAL <= local_seconds utcoffset t < MAX_LOCAL) ->
  fromtimestamp utcoffset t = Raise ValueError.
Proof.
  intros H. unfold fromtimestamp. cbv zeta.
  destruct (Z.leb_spec MIN_LOCAL (local_seconds utcoffset t));
    destruct (Z.ltb_spec (local_seconds utcoffset t) MAX_LOCAL);
    simpl; try reflexivity; lia.
Qed.

(** ** The formatted time *)

Lemma strftime_length dt : List.length (strftime dt) = 19%nat.
Proof. reflexivity. Qed.

Lemma digit_inj a b : digit a = digit b -> a = b.
Proof. unfold digit. lia. Qed.

Lemma pad2_inj a b :
  0 <= a <= 99 -> 0 <= b <= 99 -> pad2 a = pad2 b -> a = b.
Proof.
  unfold pad2. intros Ha Hb H. injection H as H1 H2.
  apply digit_inj in H1, H2. Z.div_mod_to_equations; lia.
Qed.

Lemma pad4_inj a b :
  0 <= a <= 9999 -> 0 <= b <= 9999 -> pad4 a = pad4 b -> a = b.
Proof.
  unfold pad4. intros Ha Hb H. injection H as H1 H2 H3 H4.
  apply digit_inj in H1, H2, H3, H4. Z.div_mod_to_equations; lia.
Qed.

(** Two well-formed dates that print alike are the same date. *)
Lemma strftime_inj dt1 dt2 :
  datetime_ok dt1 -> datetime_ok dt2 ->
  strftime dt1 = strftime dt2 -> dt1 = dt2.
Proof.
  destruct dt1 as [y1 m1 d1 h1 i1 s1], dt2 as [y2 m2 d2 h2 i2 s2].
  unfold datetime_ok, strftime. simpl.
  intros (Hy1 & Hm1 & Hd1 & Hh1 & Hi1 & Hs1) (Hy2 & Hm2 & Hd2 & Hh2 & Hi2 & Hs2).
  intros [= Y1 Y2 Y3 Y4 M1 M2 D1 D2 H1 H2 I1 I2 S1 S2].
  assert (y1 = y2) by (apply pad4_inj; unfold pad4; try lia; congruence).
  assert (m1 = m2) by (apply pad2_inj; unfold pad2; try lia; congruence).
  assert (d1 = d2) by (apply pad2_inj; unfold pad2; try lia; congruence).
  assert (h1 = h2) by (apply pad2_inj; unfold pad2; try lia; congruence).
  assert (i1 = i2) by (apply pad2_inj; unfold pad2; try lia; congruence).
  assert (s1 = s2) by (apply pad2_inj; unfold pad2; try lia; congruence).
  congruence.
Qed.

(** Two instants whose formatted local times agree have the same local
    second. *)
Lemma formatted_time_inj utcoffset t1 t2 dt1 dt2 :
  fromtimestamp utcoffset t1 = Ok dt1 ->
  fromtimestamp utcoffset t2 = Ok dt2 ->
  strftime dt1 = strftime dt2 ->
  local_seconds utcoffset t1 = local_seconds utcoffset t2.
Proof.
  intros H1 H2 Heq.
  apply fromtimestamp_Ok in H1, H2.
  destruct H1 as [Hok1 <-], H2 as [Hok2 <-].
  f_equal. apply strftime_inj; assumption.
Qed.

(** ** File names *)

Lemma app_inj_length {A} (a b c d : list A) :
  List.length a = List.length c -> a ++ b = c ++ d -> a = c /\ b = d.
Proof.
  revert c. induction a as [|x a IH]; intros [|y c] Hlen Heq;
    simpl in *; try discriminate.
  - split; [reflexivity|assumption].
  - injection Heq as -> Heq. destruct (IH c) as [-> ->]; [lia|assumption|].
    split; reflexivity.
Qed.

(** The time stamp can be read back from a suffixed name. *)
Lemma suffixed_name_inj l1 l2 (f1 f2 : str) :
  List.length f1 = List.length f2 ->
  l1 ++ lit "_likes__" ++ f1 ++ lit ".jpg"
  = l2 ++ lit "_likes__" ++ f2 ++ lit ".jpg" ->
  f1 = f2.
Proof.
  intros Hlen Heq.
  assert (Hl : List.length l1 = List.length l2).
  { apply (f_equal (@List.length Z)) in Heq.
    rewrite !length_app in Heq. lia. }
  apply app_inj_length in Heq; [|assumption].
  destruct Heq as [_ Heq].
  apply app_inv_head in Heq.
  apply app_inv_tail in Heq. assumption.
Qed.

(** ** The Duplicate-Name Resolver *)

Lemma image_name_yandex_once utcoffset counts likes date :
  list_count counts likes = 1 ->
  image_name_yandex utcoffset counts likes date = Ok (plain_name likes).
Proof. intros H. unfold image_name_yandex. rewrite H. reflexivity. Qed.

Lemma image_name_google_once utcoffset counts likes date :
  list_count counts likes = 1 ->
  image_name_google utcoffset counts likes date = Ok (plain_name likes).
Proof. intros H. unfold image_name_google. rewrite H. reflexivity. Qed.

Lemma image_name_yandex_tied utcoffset counts likes date :
  1 < list_count counts likes ->
  image_name_yandex utcoffset counts likes date
  = suffixed_name utcoffset likes date.
Proof.
  intros H. unfold image_name_yandex.
  destruct (Z.eqb_spec (list_count counts likes) 1); [lia|reflexivity].
Qed.

Lemma image_name_google_tied utcoffset counts likes date :
  1 < list_count counts likes ->
  image_name_google utcoffset counts likes date
  = suffixed_name utcoffset likes date.
Proof.
  intros H. unfold image_name_google.
  destruct (Z.ltb_spec 1 (list_count counts likes)); [reflexivity|lia].
Qed.

Lemma suffixed_name_Ok utcoffset likes date dt :
  fromtimestamp utcoffset date = Ok dt ->
  suffixed_name utcoffset likes date = Ok (stamped_name likes dt).
Proof. intros H. unfold suffixed_name. rewrite H. reflexivity. Qed.

(** On a like count of the set the two tests agree. *)
Lemma image_name_variants_agree utcoffset counts likes date :
  In likes counts ->
  image_name_yandex utcoffset counts likes date
  = image_name_google utcoffset counts likes date.
Proof.
  intros Hin. apply list_count_In in Hin.
  unfold image_name_yandex, image_name_google.
  destruct (Z.eqb_spec (list_count counts likes) 1) as [E|E];
    destruct (Z.ltb_spec 1 (list_count counts likes)); simpl;
    try reflexivity; lia.
Qed.

Lemma photo_likes_In p photos :
  In p photos -> In (photo_likes p) (likes_counts photos).
Proof. intros H. unfold likes_counts. apply in_map. assumption. Qed.

(** Two stamped names differ when the local seconds of their times do. *)
Lemma stamped_names_differ utcoffset likes1 likes2 t1 t2 dt1 dt2 :
  fromtimestamp utcoffset t1 = Ok dt1 ->
  fromtimestamp utcoffset t2 = Ok dt2 ->
  local_seconds utcoffset t1 <> local_seconds utcoffset t2 ->
  stamped_name likes1 dt1 <> stamped_name likes2 dt2.
Proof.
  intros H1 H2 Hne Heq. apply Hne.
  apply (formatted_time_inj utcoffset _ _ dt1 dt2 H1 H2).
  unfold stamped_name in Heq.
  apply suffixed_name_inj in Heq; [assumption|].
  rewrite !strftime_length. reflexivity.
Qed.

(** C1: when the like counts of a photo set are pairwise distinct, the
    resolver of the Yandex pipeline and the resolver of the Google pipeline
    both give every photo the plain name [<likes>_likes.jpg], without a
    time stamp. *)
Theorem distinct_likes_plain_names utcoffset photos :
  NoDup (likes_counts photos) ->
  resolve_names_yandex utcoffset photos
  = map (fun p => Ok (plain_name (photo_likes p))) photos
  /\ resolve_names_google utcoffset photos
     = map (fun p => Ok (plain_name (photo_likes p))) photos.
Proof.
  intros Hnd. unfold resolve_names_yandex, resolve_names_google.
  split; apply map_ext_in; intros p Hp.
  - apply image_name_yandex_once, list_count_NoDup;
      [assumption | apply photo_likes_In; assumption].
  - apply image_name_google_once, list_count_NoDup;
      [assumption | apply photo_likes_In; assumption].
Qed.

Lemma distinct_likes_plain_names_witness :
  resolve_names_yandex moscow_2014
    [(10, 1414272600, lit "urlA"); (3, 1414276200, lit "urlC")]
  = [Ok (lit "10_likes.jpg"); Ok (lit "3_likes.jpg")]
  /\ resolve_names_google moscow_2014
       [(10, 1414272600, lit "urlA"); (3, 1414276200, lit "urlC")]
     = [Ok (lit "10_likes.jpg"); Ok (lit "3_likes.jpg")].
Proof.
  apply (distinct_likes_plain_names moscow_2014
           [(10, 1414272600, lit "urlA"); (3, 1414276200, lit "urlC")]).
  repeat constructor; simpl; intuition discriminate.
Defined.

(** C2, as the code has it: a photo whose like count occurs at least twice
    in the set is named [<likes>_likes__<YYYY-MM-DD_HH-MM-SS>.jpg] from its
    own upload time, in both pipelines, provided the local time of the
    upload lies in the years 1000 to 9999 (where [%Y] prints four digits
    on every platform); and two such photos get distinct names as soon as
    their local wall-clock times differ. *)
Theorem tied_likes_stamped_names utcoffset photos p q dtp dtq :
  1 < list_count (likes_counts photos) (photo_likes p) ->
  1 < list_count (likes_counts photos) (photo_likes q) ->
  fromtimestamp utcoffset (photo_date p) = Ok dtp ->
  fromtimestamp utcoffset (photo_date q) = Ok dtq ->
  1000 <= year dtp -> 1000 <= year dtq ->
  image_name_yandex utcoffset (likes_counts photos) (photo_likes p) (photo_date p)
  = Ok (stamped_name (photo_likes p) dtp)
  /\ image_name_google utcoffset (likes_counts photos) (photo_likes p) (photo_date p)
     = Ok (stamped_name (photo_likes p) dtp)
  /\ image_name_yandex utcoffset (likes_counts photos) (photo_likes q) (photo_date q)
     = Ok (stamped_name (photo_likes q) dtq)
  /\ image_name_google utcoffset (likes_counts photos) (photo_likes q) (photo_date q)
     = Ok (stamped_name (photo_likes q) dtq)
  /\ (local_seconds utcoffset (photo_date p)
      <> local_seconds utcoffset (photo_date q) ->
      stamped_name (photo_likes p) dtp <> stamped_name (photo_likes q) dtq).
Proof.
  intros Hp Hq Hdp Hdq _ _.
  rewrite !image_name_yandex_tied, !image_name_google_tied by assumption.
  rewrite (suffixed_name_Ok _ _ _ _ Hdp), (suffixed_name_Ok _ _ _ _ Hdq).
  repeat split.
  apply stamped_names_differ; assumption.
Qed.

Lemma tied_likes_stamped_names_witness :
  image_name_yandex (fun _ => 10800)
    (likes_counts tie_photos) 10 1414272600
  = Ok (stamped_name 10 (mkDatetime 2014 10 26 0 30 0))
  /\ image_name_google (fun _ => 10800)
       (likes_counts tie_photos) 10 1414272600
     = Ok (stamped_name 10 (mkDatetime 2014 10 26 0 30 0))
  /\ image_name_yandex (fun _ => 10800)
       (likes_counts tie_photos) 10 1414276200
     = Ok (stamped_name 10 (mkDatetime 2014 10 26 1 30 0))
  /\ image_name_google (fun _ => 10800)
       (likes_counts tie_photos) 10 1414276200
     = Ok (stamped_name 10 (mkDatetime 2014 10 26 1 30 0))
  /\ (local_seconds (fun _ => 10800) 1414272600
      <> local_seconds (fun _ => 10800) 1414276200 ->
      stamped_name 10 (mkDatetime 2014 10 26 0 30 0)
      <> stamped_name 10 (mkDatetime 2014 10 26 1 30 0)).
Proof.
  apply (tied_likes_stamped_names (fun _ => 10800) tie_photos
           (10, 1414272600, lit "urlA") (10, 1414276200, lit "urlB")
           (mkDatetime 2014 10 26 0 30 0) (mkDatetime 2014 10 26 1 30 0));
    try (vm_compute; reflexivity); simpl; lia.
Defined.

(** Under one offset from UTC, distinct upload times give distinct
    names. *)
Lemma same_offset_distinct_names utcoffset likes1 likes2 t1 t2 dt1 dt2 :
  fromtimestamp utcoffset t1 = Ok dt1 ->
  fromtimestamp utcoffset t2 = Ok dt2 ->
  utcoffset t1 = utcoffset t2 -> t1 <> t2 ->
  stamped_name likes1 dt1 <> stamped_name likes2 dt2.
Proof.
  intros H1 H2 Hoff Hne. apply (stamped_names_differ utcoffset _ _ t1 t2);
    try assumption.
  unfold local_seconds. lia.
Qed.

(** C2 as stated fails: in Moscow time the two photos of [tie_photos]
    share a like count and have distinct upload times, and both pipelines
    give both of them the same name. *)
Lemma tied_likes_same_name_across_clock_shift :
  list_count (likes_counts tie_photos) 10 = 2
  /\ 1414272600 <> 1414276200
  /\ resolve_names_yandex moscow_2014 tie_photos
     = [Ok (lit "10_likes__2014-10-26_01-30-00.jpg");
        Ok (lit "10_likes__2014-10-26_01-30-00.jpg")]
  /\ resolve_names_google moscow_2014 tie_photos
     = [Ok (lit "10_likes__2014-10-26_01-30-00.jpg");
        Ok (lit "10_likes__2014-10-26_01-30-00.jpg")].
Proof. repeat split; try reflexivity; discriminate. Qed.

(** C3: on every photo set the resolver of the Yandex pipeline (suffix
    when the frequency is not one) and the resolver of the Google pipeline
    (suffix when it is above one) give every photo the same name, since the
    like count of a photo of the set occurs in it at least once. *)
Theorem resolvers_agree utcoffset photos :
  resolve_names_yandex utcoffset photos = resolve_names_google utcoffset photos.
Proof.
  unfold resolve_names_yandex, resolve_names_google.
  apply map_ext_in. intros p Hp.
  apply image_name_variants_agree, photo_likes_In, Hp.
Qed.

(** Off the set the two tests part: a like count that occurs nowhere is
    suffixed by the first and not by the second. *)
Lemma image_name_variants_differ_off_set :
  image_name_yandex (fun _ => 0) [] 7 0
  = Ok (lit "7_likes__1970-01-01_00-00-00.jpg")
  /\ image_name_google (fun _ => 0) [] 7 0 = Ok (lit "7_likes.jpg").
Proof. split; reflexivity. Qed.

(** ** [get_profile_photos] *)

Lemma sizes_loop_app self image sizes acc :
  sizes_loop self image sizes acc
  = acc ++ map (fun size =>
                  (image_likes_count image, image_date image, size_url size))
             (filter (matching self) sizes).
Proof.
  revert acc. induction sizes as [|size rest IH]; intros acc; simpl.
  - rewrite app_nil_r. reflexivity.
  - unfold matching at 1. destruct (contains _ _); rewrite IH.
    + rewrite <- app_assoc. reflexivity.
    + reflexivity.
Qed.

Lemma images_loop_app self image_list acc :
  images_loop self image_list acc = acc ++ flat_map (records_of self) image_list.
Proof.
  revert acc. induction image_list as [|image rest IH]; intros acc; simpl.
  - rewrite app_nil_r. reflexivity.
  - rewrite IH, sizes_loop_app, <- app_assoc. reflexivity.
Qed.

Lemma get_profile_photos_request self user_id count album_id env w :
  snd (get_profile_photos self user_id count album_id env w)
  = record_call (Http (photos_get_request self user_id count album_id)) w.
Proof.
  unfold get_profile_photos, bind, requests, lift, ret.
  change (mkRequest GET (API_BASE_URL ++ lit "photos.get") [] _)
    with (photos_get_request self user_id count album_id).
  destruct (http env (calls w) _) as [r|e]; [|reflexivity].
  destruct (response_json r) as [body|e]; [|reflexivity].
  destruct (photos_items body); reflexivity.
Qed.

Lemma get_profile_photos_Ok self user_id count album_id env w r items :
  http env (calls w) (photos_get_request self user_id count album_id) = Ok r ->
  response_json r = Ok (Some (VkPhotos items)) ->
  get_profile_photos self user_id count album_id env w
  = (Ok (flat_map (records_of self) items),
     record_call (Http (photos_get_request self user_id count album_id)) w).
Proof.
  intros Hr Hj.
  unfold get_profile_photos, bind, requests, lift, ret.
  change (mkRequest GET (API_BASE_URL ++ lit "photos.get") [] _)
    with (photos_get_request self user_id count album_id).
  rewrite Hr, Hj. simpl. rewrite images_loop_app. reflexivity.
Qed.

Lemma length_flat_map_le_one {A B} (f : A -> list B) (keep : A -> bool) l :
  Forall (fun a => (List.length (f a) <= 1)%nat) l ->
  (forall a, keep a = true <-> f a <> []) ->
  List.length (flat_map f l) = List.length (filter keep l).
Proof.
  intros Hall Hkeep. induction Hall as [|a l Ha Hall IH]; simpl.
  - reflexivity.
  - rewrite length_app, IH.
    destruct (keep a) eqn:E.
    + apply Hkeep in E. destruct (f a) as [|b [|c t]]; simpl in *;
        [exfalso; apply E; reflexivity|reflexivity|lia].
    + destruct (f a) as [|b t] eqn:F; [reflexivity|].
      assert (keep a = true) by (apply Hkeep; rewrite F; discriminate).
      congruence.
Qed.

Lemma has_match_matching_sizes self image :
  has_match self image = true <-> records_of self image <> [].
Proof.
  unfold has_match, records_of, matching_sizes.
  induction (image_sizes image) as [|size rest IH]; simpl.
  - split; [discriminate|intros H; exfalso; apply H; reflexivity].
  - destruct (matching self size); simpl.
    + split; [discriminate|reflexivity].
    + exact IH.
Qed.

(** C4, as the code has it: [get_profile_photos] returns one record
    [(likes, date, url)] for each size variant whose type tag contains the
    configured tag, photo after photo; a photo without such a variant gives
    no record and no error.  The length of the result is the number of
    photos with a matching variant when no photo has two of them. *)
Theorem get_profile_photos_records self user_id count album_id env w r items :
  http env (calls w) (photos_get_request self user_id count album_id) = Ok r ->
  response_json r = Ok (Some (VkPhotos items)) ->
  fst (get_profile_photos self user_id count album_id env w)
  = Ok (flat_map (records_of self) items)
  /\ (forall image, has_match self image = false -> records_of self image = [])
  /\ (Forall (fun image =>
                (List.length (matching_sizes self image) <= 1)%nat) items ->
      List.length (flat_map (records_of self) items)
      = List.length (filter (has_match self) items)).
Proof.
  intros Hr Hj.
  rewrite (get_profile_photos_Ok _ _ _ _ _ _ _ _ Hr Hj).
  split; [reflexivity|]. split.
  - intros image H. destruct (records_of self image) eqn:E; [reflexivity|].
    assert (has_match self image = true)
      by (apply has_match_matching_sizes; rewrite E; discriminate).
    congruence.
  - intros Hall. apply length_flat_map_le_one.
    + eapply Forall_impl; [|exact Hall]. intros image H.
      unfold records_of. rewrite length_map. exact H.
    + intros image. apply has_match_matching_sizes.
Qed.

Lemma get_profile_photos_records_witness :
  fst (get_profile_photos default_client (lit "1") 5 (lit "profile")
         (constant_env (vk_answer (Some (VkPhotos
            [mkImage 7 100 [mkSize (lit "x") (lit "u0"); mkSize (lit "z") (lit "u1")];
             mkImage 8 200 [mkSize (lit "x") (lit "u2")]]))))
         empty_world)
  = Ok (flat_map (records_of default_client)
          [mkImage 7 100 [mkSize (lit "x") (lit "u0"); mkSize (lit "z") (lit "u1")];
           mkImage 8 200 [mkSize (lit "x") (lit "u2")]])
  /\ (forall image,
        has_match default_client image = false ->
        records_of default_client image = [])
  /\ (Forall (fun image =>
                (List.length (matching_sizes default_client image) <= 1)%nat)
        [mkImage 7 100 [mkSize (lit "x") (lit "u0"); mkSize (lit "z") (lit "u1")];
         mkImage 8 200 [mkSize (lit "x") (lit "u2")]] ->
      List.length (flat_map (records_of default_client)
        [mkImage 7 100 [mkSize (lit "x") (lit "u0"); mkSize (lit "z") (lit "u1")];
         mkImage 8 200 [mkSize (lit "x") (lit "u2")]])
      = List.length (filter (has_match default_client)
        [mkImage 7 100 [mkSize (lit "x") (lit "u0"); mkSize (lit "z") (lit "u1")];
         mkImage 8 200 [mkSize (lit "x") (lit "u2")]])).
Proof.
  apply (get_profile_photos_records default_client (lit "1") 5 (lit "profile")
           (constant_env (vk_answer (Some (VkPhotos
             [mkImage 7 100 [mkSize (lit "x") (lit "u0"); mkSize (lit "z") (lit "u1")];
              mkImage 8 200 [mkSize (lit "x") (lit "u2")]]))))
           empty_world
           (vk_answer (Some (VkPhotos
             [mkImage 7 100 [mkSize (lit "x") (lit "u0"); mkSize (lit "z") (lit "u1")];
              mkImage 8 200 [mkSize (lit "x") (lit "u2")]])))
           [mkImage 7 100 [mkSize (lit "x") (lit "u0"); mkSize (lit "z") (lit "u1")];
            mkImage 8 200 [mkSize (lit "x") (lit "u2")]]);
    reflexivity.
Defined.

(** C4 as stated fails: a photo listed with two size variants of the
    configured type gives two records, so the result is longer than the
    number of photos with a matching variant. *)
Lemma two_matching_variants_two_records :
  fst (get_profile_photos default_client (lit "1") 5 (lit "profile")
         (constant_env (vk_answer (Some (VkPhotos [two_z_image]))))
         empty_world)
  = Ok [(5, 100, lit "u1"); (5, 100, lit "u2")]
  /\ List.length (filter (has_match default_client) [two_z_image]) = 1%nat.
Proof. split; reflexivity. Qed.

(** ** [status_info] *)

Lemma status_info_run self user_id env w :
  status_info self user_id env w
  = (rbind (http env (calls w) (users_get_request self user_id)) (fun r =>
     rbind (response_json r) (fun body =>
     rbind (first_user body) (fun u =>
     Ok (fmt_opt (first_name u) ++ lit " " ++ fmt_opt (last_name u),
         user_id_info u)))),
     record_call (Http (users_get_request self user_id)) w).
Proof.
  unfold status_info, bind, requests, lift, ret.
  change (mkRequest GET (API_BASE_URL ++ lit "users.get") [] _)
    with (users_get_request self user_id).
  destruct (http env (calls w) _) as [r|e]; simpl; [|reflexivity].
  destruct (response_json r) as [body|e]; simpl; [|reflexivity].
  destruct (first_user body); reflexivity.
Qed.

(** C5, as the code has it: when the answer of [users.get] has an empty
    result list, or no result list at all, [status_info] raises the
    [IndexError] of [[][0]]; the program has no "user not found" error. *)
Theorem status_info_empty_raises_IndexError self user_id env w r :
  http env (calls w) (users_get_request self user_id) = Ok r ->
  response_json r = Ok (Some (VkUsers [])) \/ response_json r = Ok None ->
  status_info self user_id env w
  = (Raise IndexError, record_call (Http (users_get_request self user_id)) w).
Proof.
  intros Hr Hj. rewrite status_info_run, Hr. simpl.
  destruct Hj as [-> | ->]; reflexivity.
Qed.

Lemma status_info_empty_raises_IndexError_witness :
  status_info default_client (lit "123")
    (constant_env (vk_answer (Some (VkUsers [])))) empty_world
  = (Raise IndexError,
     record_call (Http (users_get_request default_client (lit "123")))
       empty_world).
Proof.
  apply (status_info_empty_raises_IndexError default_client (lit "123")
           (constant_env (vk_answer (Some (VkUsers [])))) empty_world
           (vk_answer (Some (VkUsers []))));
    [reflexivity | left; reflexivity].
Defined.

(** C5 as stated fails: on an empty result list the error of [status_info]
    is the raw index error. *)
Lemma status_info_empty_is_index_error :
  fst (status_info default_client (lit "123")
         (constant_env (vk_answer (Some (VkUsers [])))) empty_world)
  = Raise IndexError.
Proof. reflexivity. Qed.

(** With a user in the list the label is built from its names. *)
Lemma status_info_first_user :
  fst (status_info default_client (lit "123")
         (constant_env (vk_answer (Some (VkUsers
            [mkUser (Some (lit "Ivan")) (Some (lit "Petrov")) (Some 123)]))))
         empty_world)
  = Ok (lit "Ivan Petrov", Some 123).
Proof. reflexivity. Qed.

(** ** [replase_status] *)

Lemma startswith_spec t s :
  startswith t s = true <-> exists b, s = t ++ b.
Proof.
  revert s. induction t as [|a t IH]; intros s; simpl.
  - split; [intros _; exists s; reflexivity | reflexivity].
  - destruct s as [|c s].
    + split; [discriminate | intros [b H]; discriminate].
    + rewrite andb_true_iff, Z.eqb_eq, IH. split.
      * intros [-> [b ->]]. exists b. reflexivity.
      * intros [b H]. injection H as -> ->. split; [reflexivity|].
        exists b. reflexivity.
Qed.

(** [contains t s] says that [t] occurs in [s] as a substring. *)
Lemma contains_spec t s :
  contains t s = true <-> exists a b, s = a ++ t ++ b.
Proof.
  induction s as [|c s IH].
  - simpl. rewrite orb_false_r, startswith_spec. split.
    + intros [b H]. exists [], b. exact H.
    + intros [a [b H]]. destruct a; [exists b; exact H | discriminate].
  - cbn [contains]. rewrite orb_true_iff, startswith_spec, IH. split.
    + intros [[b H] | [a [b H]]].
      * exists [], b. exact H.
      * exists (c :: a), b. rewrite H. reflexivity.
    + intros [a [b H]]. destruct a as [|x a].
      * left. exists b. exact H.
      * right. injection H as -> H. exists a, b. exact H.
Qed.

Lemma contains_false_cons t c s :
  contains t (c :: s) = false ->
  startswith t (c :: s) = false /\ contains t s = false.
Proof. cbn [contains]. apply orb_false_iff. Qed.

Lemma replace_from_absent target rep s :
  contains target s = false -> replace_from target rep O s = s.
Proof.
  induction s as [|c s IH]; intros H; [reflexivity|].
  apply contains_false_cons in H. destruct H as [Hs Hc].
  cbn [replace_from]. rewrite Hs, IH by assumption. reflexivity.
Qed.

(** [s.replace(target, rep)] is [s] when [target] does not occur in [s]. *)
Lemma replace_absent s target rep :
  contains target s = false -> replace s target rep = s.
Proof.
  intros H. destruct target as [|a t].
  - destruct s; discriminate.
  - apply replace_from_absent. assumption.
Qed.

Lemma get_status_run self user_id env w :
  get_status self user_id env w
  = (rbind (http env (calls w) (status_get_request self user_id)) (fun r =>
     rbind (response_json r) status_text),
     record_call (Http (status_get_request self user_id)) w).
Proof.
  unfold get_status, bind, requests, lift.
  change (mkRequest GET (API_BASE_URL ++ lit "status.get") [] _)
    with (status_get_request self user_id).
  destruct (http env (calls w) _) as [r|e]; simpl; [|reflexivity].
  destruct (response_json r) as [body|e]; reflexivity.
Qed.

Lemma set_status_calls self user_id new_status env w :
  calls (snd (set_status self user_id new_status env w))
  = calls w ++ [Http (status_set_request self user_id new_status)].
Proof.
  unfold set_status, bind, requests, raise_for_status.
  change (mkRequest GET (API_BASE_URL ++ lit "status.set") [] _)
    with (status_set_request self user_id new_status).
  destruct (http env (calls w) _) as [r|e]; [|reflexivity].
  destruct ((400 <=? status_code r) && (status_code r <? 600)); reflexivity.
Qed.

(** C8: when the current status text is [s] and [target] does not occur in
    [s], [replase_status] reads the status and writes [s] back unchanged:
    its two requests are [status.get] and [status.set] with [text = s]. *)
Theorem replase_status_absent_target
  self user_id target replace_string env w r s :
  http env (calls w) (status_get_request self user_id) = Ok r ->
  response_json r = Ok (Some (VkStatus (Some s))) ->
  contains target s = false ->
  replace s target replace_string = s
  /\ calls (snd (replase_status self user_id target replace_string env w))
     = calls w ++ [Http (status_get_request self user_id);
                   Http (status_set_request self user_id s)].
Proof.
  intros Hr Hj Habs.
  split; [apply replace_absent; assumption|].
  unfold replase_status, bind.
  rewrite get_status_run, Hr. simpl. rewrite Hj. simpl.
  rewrite replace_absent by assumption.
  rewrite set_status_calls. simpl. rewrite <- app_assoc. reflexivity.
Qed.

Lemma replase_status_absent_target_witness :
  replace (lit "Reading books") (lit "Studying") (lit "Learning")
  = lit "Reading books"
  /\ calls (snd (replase_status default_client (lit "123")
                   (lit "Studying") (lit "Learning")
                   (constant_env
                      (vk_answer (Some (VkStatus (Some (lit "Reading books"))))))
                   empty_world))
     = calls empty_world
       ++ [Http (status_get_request default_client (lit "123"));
           Http (status_set_request default_client (lit "123")
                   (lit "Reading books"))].
Proof.
  apply (replase_status_absent_target default_client (lit "123")
           (lit "Studying") (lit "Learning")
           (constant_env
              (vk_answer (Some (VkStatus (Some (lit "Reading books"))))))
           empty_world
           (vk_answer (Some (VkStatus (Some (lit "Reading books")))))
           (lit "Reading books"));
    reflexivity.
Defined.

(** When [target] occurs, the text changes. *)
Lemma replace_present_example :
  replace (lit "Studying Rocq") (lit "Studying") (lit "Learning")
  = lit "Learning Rocq".
Proof. reflexivity. Qed.

(** ** Loading the secrets *)

Lemma universal_newlines_id s :
  ~ In 13 s -> universal_newlines s = s.
Proof.
  induction s as [|c s IH]; intros H; [reflexivity|].
  cbn [universal_newlines].
  destruct (Z.eqb_spec c 13) as [->|Hne].
  - exfalso. apply H. now left.
  - rewrite IH; [reflexivity|]. intros Hin. apply H. now right.
Qed.

Lemma readline_line l rest :
  ~ In 10 l -> readline (l ++ 10 :: rest) = (l ++ [10], rest).
Proof.
  induction l as [|c l IH]; intros H; [reflexivity|].
  cbn [readline app].
  destruct (Z.eqb_spec c 10) as [->|Hne].
  - exfalso. apply H. now left.
  - rewrite IH; [reflexivity|]. intros Hin. apply H. now right.
Qed.

(** C9: from a secrets file of three lines, each ended by a new line,
    the loading step takes as user identifier the second line with its
    new-line character; nothing is trimmed. *)
Theorem load_secrets_keeps_newline l1 l2 l3 :
  ~ In 10 (l1 ++ l2 ++ l3) -> ~ In 13 (l1 ++ l2 ++ l3) ->
  load_secrets (l1 ++ [10] ++ l2 ++ [10] ++ l3 ++ [10])
  = (l1 ++ [10], l2 ++ [10], l3 ++ [10]).
Proof.
  intros Hn Hr. unfold load_secrets.
  rewrite universal_newlines_id.
  - cbn [app].
    rewrite (readline_line l1) by (intros H; apply Hn; rewrite in_app_iff; auto).
    rewrite (readline_line l2)
      by (intros H; apply Hn; rewrite !in_app_iff; auto).
    rewrite (readline_line l3)
      by (intros H; apply Hn; rewrite !in_app_iff; auto).
    reflexivity.
  - rewrite !in_app_iff in *. simpl. intros H.
    repeat destruct H as [H|H]; try discriminate; tauto.
Qed.

Lemma load_secrets_keeps_newline_witness :
  load_secrets (lit "tok" ++ [10] ++ lit "123" ++ [10] ++ lit "ytok" ++ [10])
  = (lit "tok" ++ [10], lit "123" ++ [10], lit "ytok" ++ [10]).
Proof.
  apply (load_secrets_keeps_newline (lit "tok") (lit "123") (lit "ytok"));
    simpl; intuition discriminate.
Defined.

(** The script hands the untrimmed lines on: its first request carries
    the token and the user identifier with their new-line characters. *)
Lemma main_sends_untrimmed_user_id :
  nth_error
    (calls (snd (main (fun _ => 10800)
                   (constant_env (vk_answer (Some (VkUsers []))))
                   (mkWorld []
                      [(lit "api.txt",
                        lit "tok" ++ [10] ++ lit "123" ++ [10]
                        ++ lit "ytok" ++ [10])])))) 0
  = Some (Http (users_get_request (mkClient (lit "tok" ++ [10]) (lit "z"))
                  (lit "123" ++ [10]))).
Proof. vm_compute. reflexivity. Qed.

(** ** Running the methods *)

Lemma bind_Ok_inv {A B} (m : M A) (k : A -> M B) env w b w' :
  bind m k env w = (Ok b, w') ->
  exists a w1, m env w = (Ok a, w1) /\ k a env w1 = (Ok b, w').
Proof.
  unfold bind. destruct (m env w) as [[a|e] w1]; intros H.
  - exists a, w1. split; [reflexivity|assumption].
  - discriminate.
Qed.

Lemma bind_Ok {A B} (m : M A) (k : A -> M B) env w a w1 :
  m env w = (Ok a, w1) -> bind m k env w = k a env w1.
Proof. intros H. unfold bind. rewrite H. reflexivity. Qed.

Lemma record_call_after w c : record_call c w = after_calls w [c].
Proof. reflexivity. Qed.

Lemma after_calls_after w cs ds :
  after_calls (after_calls w cs) ds = after_calls w (cs ++ ds).
Proof. unfold after_calls. simpl. rewrite <- app_assoc. reflexivity. Qed.

Lemma new_calls_after w cs : new_calls w (after_calls w cs) = cs.
Proof.
  unfold new_calls, after_calls. simpl.
  rewrite skipn_app, skipn_all, Nat.sub_diag. reflexivity.
Qed.

(** ** The Yandex pipeline *)

Lemma yandex_loop_cons self utcoffset TOKEN counts likes date photo_url rest acc env w :
  yandex_loop self utcoffset (yandex_headers TOKEN) (lit "backup_photos")
    counts ((likes, date, photo_url) :: rest) acc env w
  = match image_name_yandex utcoffset counts likes date with
    | Raise e => (Raise e, w)
    | Ok image_name =>
        match http env (calls w) (upload_request TOKEN image_name photo_url) with
        | Raise e =>
            (Raise e, after_calls w [Http (upload_request TOKEN image_name photo_url)])
        | Ok _ =>
            yandex_loop self utcoffset (yandex_headers TOKEN)
              (lit "backup_photos") counts rest
              (acc ++ [manifest_entry self image_name]) env
              (after_calls w [Http (upload_request TOKEN image_name photo_url)])
        end
    end.
Proof.
  cbn [yandex_loop]. unfold bind at 1, lift at 1.
  destruct (image_name_yandex utcoffset counts likes date) as [name|e];
    [|reflexivity].
  unfold bind, requests.
  change (mkRequest POST _ _ _) with (upload_request TOKEN name photo_url).
  rewrite record_call_after.
  destruct (http env (calls w) _); reflexivity.
Qed.

(** The loop only sends upload requests and touches no file. *)
Lemma yandex_loop_calls self utcoffset TOKEN counts photos acc env w :
  exists posts,
    snd (yandex_loop self utcoffset (yandex_headers TOKEN)
           (lit "backup_photos") counts photos acc env w)
    = after_calls w (map Http posts)
    /\ Forall (fun q => req_method q = POST) posts.
Proof.
  revert acc w. induction photos as [|[[likes date] photo_url] rest IH];
    intros acc w.
  - exists []. split; [|constructor].
    destruct w; unfold after_calls; simpl. rewrite app_nil_r. reflexivity.
  - rewrite yandex_loop_cons.
    destruct (image_name_yandex utcoffset counts likes date) as [name|e].
    + destruct (http env (calls w) _) as [r|e].
      * destruct (IH (acc ++ [manifest_entry self name])
                    (after_calls w [Http (upload_request TOKEN name photo_url)]))
          as (posts & Hw & Hp).
        exists (upload_request TOKEN name photo_url :: posts).
        split; [|constructor; [reflexivity|assumption]].
        rewrite Hw, after_calls_after. reflexivity.
      * exists [upload_request TOKEN name photo_url].
        split; [reflexivity|repeat constructor].
    + exists []. split; [|constructor].
      destruct w; unfold after_calls; simpl. rewrite app_nil_r. reflexivity.
Qed.

(** A loop that returns has named every photo and made one entry for each
    name. *)
Lemma yandex_loop_Ok_inv self utcoffset TOKEN counts photos acc env w l w' :
  yandex_loop self utcoffset (yandex_headers TOKEN) (lit "backup_photos")
    counts photos acc env w = (Ok l, w') ->
  exists names,
    Forall2 (fun p n =>
               image_name_yandex utcoffset counts (photo_likes p) (photo_date p)
               = Ok n) photos names
    /\ l = acc ++ map (manifest_entry self) names.
Proof.
  revert acc w. induction photos as [|[[likes date] photo_url] rest IH];
    intros acc w H.
  - injection H as <- _. exists []. split; [constructor|].
    rewrite app_nil_r. reflexivity.
  - rewrite yandex_loop_cons in H.
    destruct (image_name_yandex utcoffset counts likes date) as [name|e] eqn:E;
      [|discriminate].
    destruct (http env (calls w) _) as [r|e]; [|discriminate].
    apply IH in H. destruct H as (names & Hn & ->).
    exists (name :: names). split; [constructor; assumption|].
    rewrite <- app_assoc. reflexivity.
Qed.


(** The pipeline up to the folder probe. *)
Lemma save_photos_to_yandex_disk_run
  self TOKEN utcoffset album_id_vk count_photos album_id env w photos probe :
  fst (get_profile_photos self album_id_vk count_photos album_id env w)
  = Ok photos ->
  http env
    (calls w ++ [Http (photos_get_request self album_id_vk count_photos album_id)])
    (probe_request TOKEN) = Ok probe ->
  save_photos_to_yandex_disk self TOKEN utcoffset album_id_vk count_photos
    album_id env w
  = if status_code probe =? 404 then
      match http env
              (calls w
               ++ [Http (photos_get_request self album_id_vk count_photos album_id);
                   Http (probe_request TOKEN)])
              (create_folder_request TOKEN) with
      | Ok _ =>
          yandex_uploads self TOKEN utcoffset photos env
            (after_calls w
               [Http (photos_get_request self album_id_vk count_photos album_id);
                Http (probe_request TOKEN);
                Http (create_folder_request TOKEN)])
      | Raise e =>
          (Raise e,
           after_calls w
             [Http (photos_get_request self album_id_vk count_photos album_id);
              Http (probe_request TOKEN);
              Http (create_folder_request TOKEN)])
      end
    else
      yandex_uploads self TOKEN utcoffset photos env
        (after_calls w
           [Http (photos_get_request self album_id_vk count_photos album_id);
            Http (probe_request TOKEN)]).
Proof.
  intros Hp Hprobe.
  pose proof (get_profile_photos_request self album_id_vk count_photos
                album_id env w) as Hw.
  destruct (get_profile_photos self album_id_vk count_photos album_id env w)
    as [res w1] eqn:Hg.
  simpl in Hp, Hw. subst res w1.
  unfold save_photos_to_yandex_disk.
  rewrite (bind_Ok _ _ _ _ _ _ Hg).
  unfold bind at 1, requests at 1.
  change (mkRequest GET YANDEX_RESOURCES _ _) with (probe_request TOKEN).
  simpl calls. rewrite Hprobe.
  rewrite !record_call_after, after_calls_after. simpl app.
  destruct (status_code probe =? 404).
  - unfold bind at 1, requests at 1.
    change (mkRequest PUT YANDEX_RESOURCES _ _) with (create_folder_request TOKEN).
    simpl calls.
    destruct (http env _ (create_folder_request TOKEN)) as [r|e].
    + rewrite record_call_after, after_calls_after. reflexivity.
    + rewrite record_call_after, after_calls_after. reflexivity.
  - reflexivity.
Qed.

Lemma yandex_uploads_calls self TOKEN utcoffset photos env w :
  exists posts,
    calls (snd (yandex_uploads self TOKEN utcoffset photos env w))
    = calls w ++ map Http posts
    /\ Forall (fun q => req_method q = POST) posts.
Proof.
  unfold yandex_uploads, bind.
  destruct (yandex_loop_calls self utcoffset TOKEN (likes_counts photos)
              photos [] env w) as (posts & Hw & Hp).
  exists posts. split; [|assumption].
  destruct (yandex_loop _ _ _ _ _ _ _ env w) as [[l|e] w1];
    simpl in Hw; subst w1; reflexivity.
Qed.

Lemma new_calls_app w w' cs : calls w' = calls w ++ cs -> new_calls w w' = cs.
Proof.
  intros H. unfold new_calls. rewrite H, skipn_app, skipn_all, Nat.sub_diag.
  reflexivity.
Qed.

(** C10: after the probe of the backup folder, the Yandex pipeline sends
    the request that creates the folder when the status is 404; on any
    other status (401 and 500 included) it goes on with the uploads in the
    world where only the listing and the probe were sent, and none of its
    requests is a [PUT]. *)
Theorem yandex_folder_created_only_on_404
  self TOKEN utcoffset album_id_vk count_photos album_id env w photos probe :
  fst (get_profile_photos self album_id_vk count_photos album_id env w)
  = Ok photos ->
  http env
    (calls w ++ [Http (photos_get_request self album_id_vk count_photos album_id)])
    (probe_request TOKEN) = Ok probe ->
  (status_code probe = 404 ->
   nth_error
     (new_calls w
        (snd (save_photos_to_yandex_disk self TOKEN utcoffset album_id_vk
                count_photos album_id env w))) 2
   = Some (Http (create_folder_request TOKEN)))
  /\ (status_code probe <> 404 ->
      save_photos_to_yandex_disk self TOKEN utcoffset album_id_vk count_photos
        album_id env w
      = yandex_uploads self TOKEN utcoffset photos env
          (after_calls w
             [Http (photos_get_request self album_id_vk count_photos album_id);
              Http (probe_request TOKEN)])
      /\ forall q,
           In (Http q)
             (new_calls w
                (snd (save_photos_to_yandex_disk self TOKEN utcoffset
                        album_id_vk count_photos album_id env w))) ->
           req_method q <> PUT).
Proof.
  intros Hp Hprobe.
  rewrite (save_photos_to_yandex_disk_run _ _ _ _ _ _ _ _ _ _ Hp Hprobe).
  split.
  - intros H404. rewrite H404. simpl Z.eqb. cbv iota.
    destruct (http env _ (create_folder_request TOKEN)) as [r|e].
    + match goal with
      | |- context [yandex_uploads ?a ?b ?c ?d ?e ?f] =>
          destruct (yandex_uploads_calls a b c d e f) as (posts & Hc & _)
      end.
      erewrite new_calls_app.
      2:{ rewrite Hc. simpl calls. rewrite <- app_assoc. reflexivity. }
      reflexivity.
    + cbn [snd]. rewrite new_calls_after. reflexivity.
  - intros Hne.
    destruct (Z.eqb_spec (status_code probe) 404) as [E|_]; [contradiction|].
    split; [reflexivity|].
    intros q Hq.
    match type of Hq with
    | context [yandex_uploads ?a ?b ?c ?d ?e ?f] =>
        destruct (yandex_uploads_calls a b c d e f) as (posts & Hc & Hposts)
    end.
    erewrite new_calls_app in Hq.
    2:{ rewrite Hc. simpl calls. rewrite <- app_assoc. reflexivity. }
    simpl in Hq. destruct Hq as [Hq|[Hq|Hq]].
    + injection Hq as <-. discriminate.
    + injection Hq as <-. discriminate.
    + apply in_map_iff in Hq. destruct Hq as (q' & Heq & Hin).
      injection Heq as ->.
      rewrite Forall_forall in Hposts. rewrite (Hposts q Hin). discriminate.
Qed.

Lemma yandex_folder_created_only_on_404_witness :
  (status_code server_error_listing = 404 ->
   nth_error
     (new_calls empty_world
        (snd (save_photos_to_yandex_disk default_client (lit "ytok")
                (fun _ => 10800) (lit "1") 5 (lit "profile")
                (constant_env server_error_listing) empty_world))) 2
   = Some (Http (create_folder_request (lit "ytok"))))
  /\ (status_code server_error_listing <> 404 ->
      save_photos_to_yandex_disk default_client (lit "ytok") (fun _ => 10800)
        (lit "1") 5 (lit "profile") (constant_env server_error_listing)
        empty_world
      = yandex_uploads default_client (lit "ytok") (fun _ => 10800)
          tie_photos (constant_env server_error_listing)
          (after_calls empty_world
             [Http (photos_get_request default_client (lit "1") 5 (lit "profile"));
              Http (probe_request (lit "ytok"))])
      /\ forall q,
           In (Http q)
             (new_calls empty_world
                (snd (save_photos_to_yandex_disk default_client (lit "ytok")
                        (fun _ => 10800) (lit "1") 5 (lit "profile")
                        (constant_env server_error_listing) empty_world))) ->
           req_method q <> PUT).
Proof.
  apply (yandex_folder_created_only_on_404 default_client (lit "ytok")
           (fun _ => 10800) (lit "1") 5 (lit "profile")
           (constant_env server_error_listing) empty_world tie_photos
           server_error_listing);
    reflexivity.
Defined.

(** A run in which every answer has status 500: no folder is created, the
    two uploads are requested, the run returns. *)
Lemma yandex_run_on_server_errors :
  fst (save_photos_to_yandex_disk default_client (lit "ytok") (fun _ => 10800)
         (lit "1") 5 (lit "profile") (constant_env server_error_listing)
         empty_world)
  = Ok tt
  /\ calls (snd (save_photos_to_yandex_disk default_client (lit "ytok")
                   (fun _ => 10800) (lit "1") 5 (lit "profile")
                   (constant_env server_error_listing) empty_world))
     = [Http (photos_get_request default_client (lit "1") 5 (lit "profile"));
        Http (probe_request (lit "ytok"));
        Http (upload_request (lit "ytok")
                (lit "10_likes__2014-10-26_00-30-00.jpg") (lit "urlA"));
        Http (upload_request (lit "ytok")
                (lit "10_likes__2014-10-26_01-30-00.jpg") (lit "urlB"))].
Proof. split; vm_compute; reflexivity. Qed.

(** On the status 404 the folder is created before the uploads. *)
Lemma yandex_run_on_missing_folder :
  calls (snd (save_photos_to_yandex_disk default_client (lit "ytok")
                (fun _ => 10800) (lit "1") 5 (lit "profile")
                (constant_env
                   (mkResponse 404 []
                      (Ok (Some (VkPhotos
                         [mkImage 3 0 [mkSize (lit "z") (lit "urlC")]])))))
                empty_world))
  = [Http (photos_get_request default_client (lit "1") 5 (lit "profile"));
     Http (probe_request (lit "ytok"));
     Http (create_folder_request (lit "ytok"));
     Http (upload_request (lit "ytok") (lit "3_likes.jpg") (lit "urlC"))].
Proof. vm_compute; reflexivity. Qed.

(** ** The Google pipeline *)

Lemma google_loop_cons self utcoffset folder_id counts likes date photo_url rest acc env w :
  google_loop self utcoffset folder_id counts
    ((likes, date, photo_url) :: rest) acc env w
  = match image_name_google utcoffset counts likes date with
    | Raise e => (Raise e, w)
    | Ok image_name =>
        match http env (calls w) (download_request photo_url) with
        | Raise e => (Raise e, after_calls w [Http (download_request photo_url)])
        | Ok response =>
            match drive_create env
                    (calls w ++ [Http (download_request photo_url)])
                    (photo_metadata folder_id image_name)
                    (Some (content response)) (lit "id") with
            | Raise e =>
                (Raise e,
                 after_calls w
                   [Http (download_request photo_url);
                    DriveCreate (photo_metadata folder_id image_name)
                      (Some (content response)) (lit "id")])
            | Ok _ =>
                google_loop self utcoffset folder_id counts rest
                  (acc ++ [manifest_entry self image_name]) env
                  (after_calls w
                     [Http (download_request photo_url);
                      DriveCreate (photo_metadata folder_id image_name)
                        (Some (content response)) (lit "id")])
            end
        end
    end.
Proof.
  cbn [google_loop]. unfold bind at 1, lift at 1.
  destruct (image_name_google utcoffset counts likes date) as [name|e];
    [|reflexivity].
  unfold bind at 1, requests at 1.
  change (mkRequest GET photo_url [] []) with (download_request photo_url).
  destruct (http env (calls w) _) as [r|e]; [|reflexivity].
  unfold bind at 1, files_create at 1.
  change (mkMetadata name (Some [folder_id]) (lit "image/jpeg"))
    with (photo_metadata folder_id name).
  simpl calls.
  rewrite !record_call_after, after_calls_after. simpl app.
  destruct (drive_create env _ _ _ _); reflexivity.
Qed.

Lemma google_loop_Ok_inv self utcoffset folder_id counts photos acc env w l w' :
  google_loop self utcoffset folder_id counts photos acc env w = (Ok l, w') ->
  exists names,
    Forall2 (fun p n =>
               image_name_google utcoffset counts (photo_likes p) (photo_date p)
               = Ok n) photos names
    /\ l = acc ++ map (manifest_entry self) names.
Proof.
  revert acc w. induction photos as [|[[likes date] photo_url] rest IH];
    intros acc w H.
  - injection H as <- _. exists []. split; [constructor|].
    rewrite app_nil_r. reflexivity.
  - rewrite google_loop_cons in H.
    destruct (image_name_google utcoffset counts likes date) as [name|e] eqn:E;
      [|discriminate].
    destruct (http env (calls w) _) as [r|e]; [|discriminate].
    destruct (drive_create env _ _ _ _) as [id|e]; [|discriminate].
    apply IH in H. destruct H as (names & Hn & ->).
    exists (name :: names). split; [constructor; assumption|].
    rewrite <- app_assoc. reflexivity.
Qed.


(** ** The manifest *)

Lemma str_eqb_refl a : str_eqb a a = true.
Proof. unfold str_eqb. destruct (list_eq_dec Z.eq_dec a a); congruence. Qed.

Lemma dict_get_set {V} (d : dict V) k v : dict_get (dict_set d k v) k = Some v.
Proof.
  induction d as [|[k' v'] d IH]; simpl.
  - rewrite str_eqb_refl. reflexivity.
  - destruct (str_eqb k' k) eqn:E; simpl; rewrite E; [reflexivity|exact IH].
Qed.




Lemma yandex_run_Ok_inv
  self TOKEN utcoffset album_id_vk count_photos album_id env w w' :
  save_photos_to_yandex_disk self TOKEN utcoffset album_id_vk count_photos
    album_id env w = (Ok tt, w') ->
  exists photos names,
    fst (get_profile_photos self album_id_vk count_photos album_id env w)
    = Ok photos
    /\ yandex_names utcoffset photos names
    /\ dict_get (files w') (lit "photo_info_ya_disk.json")
       = Some (json_dumps (manifest self names)).
Proof.
  intros H. unfold save_photos_to_yandex_disk in H.
  apply bind_Ok_inv in H. destruct H as (photos & w1 & Hg & H).
  apply bind_Ok_inv in H. destruct H as (probe & w2 & _ & H).
  apply bind_Ok_inv in H. destruct H as (r & w3 & _ & H).
  apply bind_Ok_inv in H. destruct H as (l & w4 & Hloop & H).
  apply yandex_loop_Ok_inv in Hloop. destruct Hloop as (names & Hn & ->).
  exists photos, names. rewrite Hg. split; [reflexivity|].
  split; [exact Hn|].
  unfold write_file in H. injection H as <-. simpl files.
  apply dict_get_set.
Qed.

Lemma google_run_Ok_inv
  self utcoffset album_id_vk count_photos album_id env w w' :
  save_photos_to_google_drive self utcoffset album_id_vk count_photos
    album_id env w = (Ok tt, w') ->
  exists photos names,
    fst (get_profile_photos self album_id_vk count_photos album_id env w)
    = Ok photos
    /\ google_names utcoffset photos names
    /\ dict_get (files w') (lit "photo_info_g_drive.json")
       = Some (json_dumps (manifest self names)).
Proof.
  intros H. unfold save_photos_to_google_drive in H.
  apply bind_Ok_inv in H. destruct H as (photos & w1 & Hg & H).
  apply bind_Ok_inv in H. destruct H as (ex & w2 & _ & H).
  apply bind_Ok_inv in H. destruct H as (creds & w3 & _ & H).
  apply bind_Ok_inv in H. destruct H as (u & w4 & _ & H).
  apply bind_Ok_inv in H. destruct H as (folders & w5 & _ & H).
  apply bind_Ok_inv in H. destruct H as (folder_id & w6 & _ & H).
  apply bind_Ok_inv in H. destruct H as (l & w7 & Hloop & H).
  apply google_loop_Ok_inv in Hloop. destruct Hloop as (names & Hn & ->).
  exists photos, names. rewrite Hg. split; [reflexivity|].
  split; [exact Hn|].
  unfold write_file in H. injection H as <-. simpl files.
  apply dict_get_set.
Qed.



(** The manifest of the run of [yandex_run_on_server_errors], as text. *)
Lemma manifest_on_server_errors :
  dict_get
    (files (snd (save_photos_to_yandex_disk default_client (lit "ytok")
                   (fun _ => 10800) (lit "1") 5 (lit "profile")
                   (constant_env server_error_listing) empty_world)))
    (lit "photo_info_ya_disk.json")
  = Some (json_dumps
            (JList
               [JDict [(lit "file_name",
                        JStr (lit "10_likes__2014-10-26_00-30-00.jpg"));
                       (lit "size", JStr (lit "z"))];
                JDict [(lit "file_name",
                        JStr (lit "10_likes__2014-10-26_01-30-00.jpg"));
                       (lit "size", JStr (lit "z"))]])).
Proof. vm_compute. reflexivity. Qed.

(** A Google run in which an upload raises persists no manifest. *)
Lemma google_run_aborts_on_upload_error :
  save_photos_to_google_drive default_client (fun _ => 10800) (lit "1") 5
    (lit "profile")
    (mkEnvironment
       (fun _ _ => Ok server_error_listing)
       (fun _ _ => false)
       (fun _ _ => Raise GoogleError)
       (fun _ _ => Ok tt)
       (fun _ _ _ => Ok [lit "folder"])
       (fun _ _ _ _ => Raise GoogleError))
    empty_world
  = (Raise GoogleError,
     mkWorld
       [Http (photos_get_request default_client (lit "1") 5 (lit "profile"));
        PathExists (lit "token.json");
        RunAuthFlow (lit "credentials.json");
        DriveList
          (lit "name='backup_photos' and mimeType='application/vnd.google-apps.folder' and 'root' in parents and trashed=false")
          (lit "files(id)");
        Http (download_request (lit "urlA"));
        DriveCreate
          (photo_metadata (Some (lit "folder"))
             (lit "10_likes__2014-10-26_00-30-00.jpg"))
          (Some []) (lit "id")]
       []).
Proof. vm_compute. reflexivity. Qed.

(** ** [json.dump] and [json.load] *)

Lemma hexval_hexdigit d : 0 <= d < 16 -> hexval (hexdigit d) = Some d.
Proof.
  intros H. 
  assert (d = 0 \/ d = 1 \/ d = 2 \/ d = 3 \/ d = 4 \/ d = 5 \/ d = 6 \/ d = 7 \/
          d = 8 \/ d = 9 \/ d = 10 \/ d = 11 \/ d = 12 \/ d = 13 \/ d = 14 \/ d = 15) as C by lia.
  repeat (destruct C as [->|C]; [reflexivity|]). subst. reflexivity.
Qed.

Lemma hex4val_hex4 n :
  0 <= n < 65536 ->
  hex4val (hexdigit (n / 4096 mod 16)) (hexdigit (n / 256 mod 16))
          (hexdigit (n / 16 mod 16)) (hexdigit (n mod 16)) = Some n.
Proof.
  intros H. unfold hex4val.
  rewrite !hexval_hexdigit by (apply Z.mod_pos_bound; lia).
  f_equal. Z.div_mod_to_equations. lia.
Qed.

Lemma land_shifted_low a x :
  0 <= x < 1024 -> Z.land (Z.shiftl a 10) x = 0.
Proof.
  intros H. apply Z.bits_inj'. intros k Hk.
  rewrite Z.land_spec, Z.bits_0.
  destruct (Z.ltb_spec k 10).
  - rewrite Z.shiftl_spec_low by lia. reflexivity.
  - rewrite (Z.bits_above_log2 x k); [apply andb_false_r|lia|].
    destruct (Z.eq_dec x 0) as [->|]; [simpl; lia|].
    apply Z.lt_le_trans with 10; [|lia]. apply Z.log2_lt_pow2; lia.
Qed.

Lemma lor_shifted_low a x :
  0 <= x < 1024 -> Z.lor (Z.shiftl a 10) x = a * 1024 + x.
Proof.
  intros H. rewrite <- Z.lxor_lor by (apply land_shifted_low; assumption).
  rewrite <- Z.add_nocarry_lxor by (apply land_shifted_low; assumption).
  rewrite Z.shiftl_mul_pow2 by lia. reflexivity.
Qed.

Lemma surrogates_of c :
  65536 <= c < 1114112 ->
  Z.lor 55296 (Z.land (Z.shiftr (c - 65536) 10) 1023) = 55296 + (c - 65536) / 1024
  /\ Z.lor 56320 (Z.land (c - 65536) 1023) = 56320 + (c - 65536) mod 1024.
Proof.
  intros H.
  change 1023 with (Z.ones 10). rewrite !Z.land_ones by lia.
  rewrite Z.shiftr_div_pow2 by lia. change (2 ^ 10) with 1024.
  change 55296 with (Z.shiftl 54 10) at 1.
  change 56320 with (Z.shiftl 55 10) at 1.
  rewrite !lor_shifted_low by (apply Z.mod_pos_bound; lia).
  split; Z.div_mod_to_equations; lia.
Qed.

Lemma join_surrogates c :
  65536 <= c < 1114112 ->
  65536 + Z.lor (Z.shiftl (55296 + (c - 65536) / 1024 - 55296) 10)
            (56320 + (c - 65536) mod 1024 - 56320) = c.
Proof.
  intros H.
  rewrite lor_shifted_low by (Z.div_mod_to_equations; lia).
  Z.div_mod_to_equations; lia.
Qed.

Lemma scanstring_escape_u uni t :
  0 <= uni < 65536 -> no_pair_ahead uni t ->
  scanstring (92 :: 117 :: hex4 uni ++ t) = cons_chunk uni (scanstring t).
Proof.
  intros Hu Hn.
  unfold hex4. cbn [app scanstring]. 
  change (92 =? 34) with false. change (92 =? 92) with true.
  change (117 =? 117) with true. cbv iota.
  rewrite hex4val_hex4 by assumption.
  destruct Hn as [Hh | [-> | [(b & t' & -> & Hb) | [(e & t' & -> & He)
                 | (u & t' & -> & Hu' & Hl)]]]].
  - fold (is_high_surrogate uni). rewrite Hh. destruct t as [|b [|u t']]; reflexivity.
  - reflexivity.
  - destruct t' as [|u t']; [reflexivity|].
    destruct (Z.eqb_spec b 92) as [->|_]; [contradiction|].
    rewrite andb_false_r. reflexivity.
  - destruct (Z.eqb_spec e 117) as [->|_]; [contradiction|].
    rewrite andb_false_r. reflexivity.
  - unfold hex4. cbn [app].
    rewrite hex4val_hex4 by assumption.
    fold (is_low_surrogate u). rewrite Hl.
    destruct (_ && _); reflexivity.
Qed.

Lemma escape_char_cases c :
  is_code_point c = true ->
  (escape_char c = [c] /\ 32 <= c <= 126 /\ c <> 34 /\ c <> 92)
  \/ (exists e, escape_char c = [92; e] /\ e <> 117 /\ BACKSLASH e = Some c)
  \/ (escape_char c = 92 :: 117 :: hex4 c /\ 0 <= c < 65536)
  \/ (escape_char c
      = 92 :: 117 :: hex4 (55296 + (c - 65536) / 1024)
        ++ 92 :: 117 :: hex4 (56320 + (c - 65536) mod 1024)
      /\ 65536 <= c < 1114112).
Proof.
  unfold is_code_point. rewrite andb_true_iff, Z.leb_le, Z.ltb_lt. intros Hc.
  unfold escape_char.
  destruct (Z.eqb_spec c 92) as [->|N1];
    [right; left; exists 92; repeat split; discriminate|].
  destruct (Z.eqb_spec c 34) as [->|N2];
    [right; left; exists 34; repeat split; discriminate|].
  destruct (Z.eqb_spec c 8) as [->|N3];
    [right; left; exists 98; repeat split; discriminate|].
  destruct (Z.eqb_spec c 12) as [->|N4];
    [right; left; exists 102; repeat split; discriminate|].
  destruct (Z.eqb_spec c 10) as [->|N5];
    [right; left; exists 110; repeat split; discriminate|].
  destruct (Z.eqb_spec c 13) as [->|N6];
    [right; left; exists 114; repeat split; discriminate|].
  destruct (Z.eqb_spec c 9) as [->|N7];
    [right; left; exists 116; repeat split; discriminate|].
  destruct (Z.leb_spec 32 c); destruct (Z.leb_spec c 126); cbn [andb].
  1: left; repeat split; assumption.
  all: destruct (Z.ltb_spec c 65536).
  all: try (right; right; left; split; [reflexivity|lia]).
  all: right; right; right; split; [|lia].
  all: destruct (surrogates_of c) as [-> ->]; [lia|reflexivity].
Qed.

Lemma no_pair_ahead_escaped c s rest :
  forallb is_code_point s = true ->
  negb (is_high_surrogate c
        && match s with b :: _ => is_low_surrogate b | [] => false end) = true ->
  no_pair_ahead c (flat_map escape_char s ++ 34 :: rest).
Proof.
  intros Hs Hp. unfold no_pair_ahead.
  destruct (is_high_surrogate c); [|left; reflexivity]. right. right.
  destruct s as [|c' s']; cbn [flat_map app].
  - left. exists 34, rest. split; [reflexivity|discriminate].
  - cbn [forallb] in Hs. apply andb_true_iff in Hs. destruct Hs as [Hc' _].
    cbn [andb] in Hp. apply negb_true_iff in Hp.
    destruct (escape_char_cases c' Hc')
      as [(-> & _ & _ & N) | [(e & -> & He & _) | [(-> & Hr) | (-> & Hr)]]].
    + left. eexists; eexists. split; [reflexivity|assumption].
    + right. left. eexists; eexists. split; [reflexivity|assumption].
    + right. right. exists c'. eexists. split; [|split; assumption].
      cbn [app]. rewrite <- app_assoc. reflexivity.
    + right. right. exists (55296 + (c' - 65536) / 1024). eexists.
      split; [|split].
      * cbn [app]. rewrite <- !app_assoc. reflexivity.
      * Z.div_mod_to_equations; lia.
      * unfold is_low_surrogate.
        destruct (Z.leb_spec 56320 (55296 + (c' - 65536) / 1024));
          [Z.div_mod_to_equations; lia|reflexivity].
Qed.

Lemma scanstring_escaped s rest :
  forallb is_code_point s = true ->
  no_surrogate_pair s = true ->
  scanstring (flat_map escape_char s ++ 34 :: rest) = Ok (s, rest).
Proof.
  induction s as [|c s IH]; intros Hs Hp; [reflexivity|].
  cbn [forallb] in Hs. apply andb_true_iff in Hs. destruct Hs as [Hc Hs].
  cbn [no_surrogate_pair] in Hp. apply andb_true_iff in Hp.
  destruct Hp as [Hpair Hp].
  specialize (IH Hs Hp).
  pose proof (no_pair_ahead_escaped c s rest Hs Hpair) as Hahead.
  cbn [flat_map]. rewrite <- app_assoc.
  set (t := flat_map escape_char s ++ 34 :: rest) in *.
  destruct (escape_char_cases c Hc)
    as [(-> & Hr & N1 & N2) | [(e & -> & He & Hb) | [(-> & Hr) | (-> & Hr)]]].
  - cbn [app scanstring].
    destruct (Z.eqb_spec c 34); [contradiction|].
    destruct (Z.eqb_spec c 92); [contradiction|].
    destruct (Z.ltb_spec c 32); [lia|].
    rewrite IH. reflexivity.
  - cbn [app scanstring]. change (92 =? 34) with false.
    change (92 =? 92) with true. cbv iota.
    destruct (Z.eqb_spec e 117); [contradiction|].
    rewrite Hb, IH. reflexivity.
  - cbn [app]. rewrite scanstring_escape_u, IH by assumption. reflexivity.
  - cbn [app]. rewrite <- app_assoc. cbn [app].
    unfold hex4 at 1. cbn [app scanstring].
    change (92 =? 34) with false. change (92 =? 92) with true.
    change (117 =? 117) with true. cbv iota.
    rewrite hex4val_hex4 by (Z.div_mod_to_equations; lia).
    unfold hex4 at 1. cbn [app].
    rewrite hex4val_hex4 by (Z.div_mod_to_equations; lia).
    replace ((55296 <=? 55296 + (c - 65536) / 1024)
             && (55296 + (c - 65536) / 1024 <=? 56319)) with true.
    2:{ symmetry. apply andb_true_iff. split; apply Z.leb_le;
        Z.div_mod_to_equations; lia. }
    replace ((56320 <=? 56320 + (c - 65536) mod 1024)
             && (56320 + (c - 65536) mod 1024 <=? 57343)) with true.
    2:{ symmetry. apply andb_true_iff. split; apply Z.leb_le;
        Z.div_mod_to_equations; lia. }
    cbn [andb]. rewrite join_surrogates by assumption.
    rewrite IH. reflexivity.
Qed.

Lemma skip_ws_spaces n c t :
  is_ws c = false -> skip_ws (repeat 32 n ++ c :: t) = c :: t.
Proof.
  intros H. induction n as [|n IH]; cbn [repeat app skip_ws].
  - rewrite H. reflexivity.
  - change (is_ws 32) with true. cbv iota. exact IH.
Qed.

Lemma skip_ws_newline_indent level c t :
  is_ws c = false -> skip_ws (newline_indent level ++ c :: t) = c :: t.
Proof.
  intros H. unfold newline_indent. cbn [app skip_ws].
  change (is_ws 10) with true. cbv iota. apply skip_ws_spaces. exact H.
Qed.

Lemma scanstring_encoded s rest :
  wf_str s = true ->
  scanstring (flat_map escape_char s ++ 34 :: rest) = Ok (s, rest).
Proof.
  unfold wf_str. rewrite andb_true_iff. intros [H1 H2].
  apply scanstring_escaped; assumption.
Qed.

Lemma object_members_more fuel key value level rest pairs :
  wf_str key = true -> wf_str value = true ->
  object_members (S (S fuel))
    (member_text key value (44 :: newline_indent level ++ 34 :: rest)) pairs
  = object_members (S fuel) rest (pairs ++ [(key, JStr value)]).
Proof.
  intros Hk Hv. unfold member_text.
  cbn [object_members]. rewrite scanstring_encoded by assumption.
  cbn [rbind fst snd skip_ws]. change (is_ws 58) with false. cbv iota.
  change (58 =? 58) with true. cbv iota.
  cbn [skip_ws]. change (is_ws 32) with true. cbv iota.
  cbn [skip_ws]. change (is_ws 34) with false. cbv iota.
  cbn [scan_once]. change (34 =? 34) with true. cbv iota.
  rewrite scanstring_encoded by assumption.
  cbn [rbind fst snd skip_ws]. change (is_ws 44) with false. cbv iota.
  change (44 =? 125) with false. change (44 =? 44) with true. cbv iota.
  rewrite skip_ws_newline_indent by reflexivity.
  change (34 =? 34) with true. cbv iota. reflexivity.
Qed.

Lemma object_members_last fuel key value level rest pairs :
  wf_str key = true -> wf_str value = true ->
  object_members (S (S fuel))
    (member_text key value (newline_indent level ++ 125 :: rest)) pairs
  = Ok (JDict (dict_of_pairs (pairs ++ [(key, JStr value)])), rest).
Proof.
  intros Hk Hv. unfold member_text.
  cbn [object_members]. rewrite scanstring_encoded by assumption.
  cbn [rbind fst snd skip_ws]. change (is_ws 58) with false. cbv iota.
  change (58 =? 58) with true. cbv iota.
  cbn [skip_ws]. change (is_ws 32) with true. cbv iota.
  cbn [skip_ws]. change (is_ws 34) with false. cbv iota.
  cbn [scan_once]. change (34 =? 34) with true. cbv iota.
  rewrite scanstring_encoded by assumption.
  cbn [rbind fst snd]. rewrite skip_ws_newline_indent by reflexivity.
  change (125 =? 125) with true. cbv iota. reflexivity.
Qed.

Lemma iterencode_entry name size rest :
  iterencode 1 (entry_json name size) ++ rest = entry_text name size rest.
Proof.
  unfold entry_json, entry_text, member_text.
  cbn [iterencode map join]. unfold encode_basestring_ascii.
  repeat (rewrite <- app_assoc; cbn [app]).
  reflexivity.
Qed.

Lemma scan_once_entry fuel name size rest :
  wf_str name = true -> wf_str size = true -> (4 <= fuel)%nat ->
  scan_once fuel (entry_text name size rest)
  = Ok (entry_json name size, rest).
Proof.
  intros Hn Hs Hf. destruct fuel as [|[|[|[|fuel]]]]; try lia.
  unfold entry_text.
  cbn [scan_once]. change (123 =? 34) with false. change (123 =? 123) with true.
  cbv iota. rewrite skip_ws_newline_indent by reflexivity.
  change (34 =? 125) with false. change (34 =? 34) with true. cbv iota.
  rewrite object_members_more by (assumption || reflexivity).
  rewrite object_members_last by (assumption || reflexivity).
  reflexivity.
Qed.

Lemma join_cons_cons sep (x y : str) l :
  join sep (x :: y :: l) = x ++ sep ++ join sep (y :: l).
Proof. reflexivity. Qed.

Lemma items_text_cons_cons name size e entries rest :
  items_text ((name, size) :: e :: entries) rest
  = entry_text name size
      (44 :: newline_indent 1 ++ items_text (e :: entries) rest).
Proof. destruct e. reflexivity. Qed.

Lemma join_items_text entries rest :
  entries <> [] ->
  join (lit "," ++ newline_indent 1) (map (iterencode 1) (entries_json entries))
  ++ newline_indent 0 ++ 93 :: rest
  = items_text entries rest.
Proof.
  induction entries as [|[name size] entries IH]; intros H; [contradiction|].
  destruct entries as [|e entries].
  - cbn [entries_json map join items_text fst snd]. apply iterencode_entry.
  - rewrite items_text_cons_cons, <- IH by discriminate.
    change (entries_json ((name, size) :: e :: entries))
      with (entry_json name size :: entry_json (fst e) (snd e)
            :: entries_json entries).
    change (entries_json (e :: entries))
      with (entry_json (fst e) (snd e) :: entries_json entries).
    cbn [map]. rewrite join_cons_cons.
    rewrite <- !app_assoc, iterencode_entry. reflexivity.
Qed.

Lemma items_text_head entries rest :
  entries <> [] -> exists t, items_text entries rest = 123 :: t.
Proof.
  destruct entries as [|[name size] [|e entries]]; intros H;
    [contradiction| |]; eexists; reflexivity.
Qed.

Lemma array_items_entries entries : forall fuel values rest,
  entries <> [] ->
  forallb wf_entry entries = true ->
  (List.length entries + 4 <= fuel)%nat ->
  array_items fuel (items_text entries rest) values
  = Ok (JList (values ++ entries_json entries), rest).
Proof.
  induction entries as [|[name size] entries IH]; intros fuel values rest H Hwf Hf;
    [contradiction|].
  cbn [forallb] in Hwf. apply andb_true_iff in Hwf. destruct Hwf as [He Hwf].
  unfold wf_entry in He. cbn [fst snd] in He. apply andb_true_iff in He.
  destruct He as [Hn Hs].
  destruct fuel as [|fuel]; cbn [List.length] in Hf; [lia|].
  destruct entries as [|e entries].
  - cbn [items_text array_items].
    rewrite scan_once_entry by (assumption || cbn [List.length] in Hf; lia).
    cbn [rbind fst snd]. rewrite skip_ws_newline_indent by reflexivity.
    change (93 =? 93) with true. cbv iota. reflexivity.
  - rewrite items_text_cons_cons. cbn [array_items].
    rewrite scan_once_entry by (assumption || cbn [List.length] in Hf; lia).
    cbn [rbind fst snd skip_ws]. change (is_ws 44) with false. cbv iota.
    change (44 =? 93) with false. change (44 =? 44) with true. cbv iota.
    destruct (items_text_head (e :: entries) rest) as [t Ht]; [discriminate|].
    rewrite Ht, skip_ws_newline_indent by reflexivity. rewrite <- Ht.
    rewrite IH; [|discriminate|assumption|cbn [List.length] in *; lia].
    change (entries_json ((name, size) :: e :: entries))
      with (entry_json name size :: entries_json (e :: entries)).
    rewrite <- app_assoc. reflexivity.
Qed.

Lemma length_entry_text name size rest :
  (List.length rest < List.length (entry_text name size rest))%nat.
Proof.
  unfold entry_text, member_text.
  repeat (cbn [List.length]; rewrite ?length_app). lia.
Qed.

Lemma length_items_text entries rest :
  (List.length entries + List.length rest
   <= List.length (items_text entries rest))%nat.
Proof.
  induction entries as [|[name size] entries IH]; [reflexivity|].
  destruct entries as [|e entries].
  - cbn [items_text]. pose proof (length_entry_text name size
                                    (newline_indent 0 ++ 93 :: rest)) as H.
    rewrite length_app in H. cbn [List.length] in *. lia.
  - rewrite items_text_cons_cons.
    pose proof (length_entry_text name size
                  (44 :: newline_indent 1 ++ items_text (e :: entries) rest)) as H.
    cbn [List.length] in H. rewrite length_app in H.
    cbn [List.length] in *. lia.
Qed.

(** Writing then reading a manifest of well-formed strings. *)
Lemma loads_dumps_entries entries :
  forallb wf_entry entries = true ->
  json_loads (json_dumps (JList (entries_json entries)))
  = Ok (JList (entries_json entries)).
Proof.
  intros Hwf. destruct entries as [|e entries]; [reflexivity|].
  assert (Htext : json_dumps (JList (entries_json (e :: entries)))
                  = 91 :: newline_indent 1 ++ items_text (e :: entries) []).
  { rewrite <- join_items_text by discriminate.
    unfold json_dumps.
    change (entries_json (e :: entries))
      with (entry_json (fst e) (snd e) :: entries_json entries).
    cbn [iterencode]. cbn [lit list_ascii_of_string map app].
    change (Z.of_N (N_of_ascii "[")) with 91.
    change (Z.of_N (N_of_ascii "]")) with 93.
    change (Z.of_N (N_of_ascii ",")) with 44.
    f_equal. }
  rewrite Htext. unfold json_loads.
  cbn [startswith]. change (65279 =? 91) with false. cbn [andb]. cbv iota.
  cbn [skip_ws]. change (is_ws 91) with false. cbv iota.
  cbn [scan_once]. change (91 =? 34) with false. change (91 =? 123) with false.
  change (91 =? 91) with true. cbv iota.
  destruct (items_text_head (e :: entries) []) as [t Ht]; [discriminate|].
  rewrite Ht, skip_ws_newline_indent by reflexivity.
  change (123 =? 93) with false. cbv iota. rewrite <- Ht.
  rewrite array_items_entries; [reflexivity|discriminate|assumption|].
  pose proof (length_items_text (e :: entries) []) as Hl.
  cbn [List.length] in *. rewrite length_app.
  change (List.length (newline_indent 1)) with 5%nat. lia.
Qed.

(** The condition is needed: a string made of a high surrogate followed by
    a low surrogate is written as two escapes and read back as the one
    character U+1F600.  No entry of a run holds such a string. *)
Lemma surrogate_pair_not_read_back :
  json_loads
    (json_dumps (JList (entries_json [(lit "3_likes.jpg", [55357; 56832])])))
  = Ok (JList (entries_json [(lit "3_likes.jpg", [128512])]))
  /\ JList (entries_json [(lit "3_likes.jpg", [128512])])
     <> JList (entries_json [(lit "3_likes.jpg", [55357; 56832])]).
Proof. split; [vm_compute; reflexivity|discriminate]. Qed.

(** The names of the pipelines are made of characters below 256, so the
    manifest of a run is read back as written as soon as the rendition tag
    is. *)
Lemma latin_wf s : latin s -> wf_str s = true.
Proof.
  unfold wf_str. induction 1 as [|c s Hc Hs IH]; [reflexivity|].
  apply andb_true_iff in IH. destruct IH as [IH1 IH2].
  cbn [forallb no_surrogate_pair]. rewrite IH1, IH2, !andb_true_r.
  apply andb_true_iff. split.
  - unfold is_code_point. apply andb_true_iff.
    split; [apply Z.leb_le|apply Z.ltb_lt]; lia.
  - unfold is_high_surrogate.
    destruct (Z.leb_spec 55296 c); [lia|reflexivity].
Qed.

Lemma latin_lit s : latin (lit s).
Proof.
  unfold latin, lit. apply Forall_map, Forall_forall. intros a _.
  pose proof (N_ascii_bounded a). lia.
Qed.

Lemma latin_app a b : latin a -> latin b -> latin (a ++ b).
Proof. unfold latin. intros Ha Hb. apply Forall_app. split; assumption. Qed.

Lemma latin_strftime dt : latin (strftime dt).
Proof.
  assert (Hd : forall n, 0 <= digit (n mod 10) < 256)
    by (intros n; unfold digit; Z.div_mod_to_equations; lia).
  assert (H2 : forall n, latin (pad2 n)) by (intros n; repeat constructor; apply Hd).
  assert (H4 : forall n, latin (pad4 n)) by (intros n; repeat constructor; apply Hd).
  unfold strftime. repeat apply latin_app; auto using latin_lit.
Qed.

Lemma stamped_name_latin likes dt : latin (stamped_name likes dt).
Proof.
  unfold stamped_name, str_of_int.
  apply latin_app; [apply latin_lit|].
  apply latin_app; [apply latin_lit|].
  apply latin_app; [apply latin_strftime|apply latin_lit].
Qed.

Lemma plain_name_latin likes : latin (plain_name likes).
Proof. unfold plain_name, str_of_int. apply latin_app; apply latin_lit. Qed.

Lemma suffixed_name_latin utcoffset likes date n :
  suffixed_name utcoffset likes date = Ok n -> latin n.
Proof.
  destruct (fromtimestamp utcoffset date) as [dt|e] eqn:E.
  - rewrite (suffixed_name_Ok _ _ _ _ E). intros H.
    assert (Hn : n = stamped_name likes dt) by congruence.
    rewrite Hn. apply stamped_name_latin.
  - unfold suffixed_name. rewrite E. discriminate.
Qed.

Lemma image_name_yandex_latin utcoffset counts likes date n :
  image_name_yandex utcoffset counts likes date = Ok n -> latin n.
Proof.
  unfold image_name_yandex. destruct (negb _).
  - apply suffixed_name_latin.
  - fold (plain_name likes). intros H.
    assert (Hn : n = plain_name likes) by congruence.
    rewrite Hn. apply plain_name_latin.
Qed.

Lemma image_name_google_latin utcoffset counts likes date n :
  image_name_google utcoffset counts likes date = Ok n -> latin n.
Proof.
  unfold image_name_google. destruct (_ <? _).
  - apply suffixed_name_latin.
  - fold (plain_name likes). intros H.
    assert (Hn : n = plain_name likes) by congruence.
    rewrite Hn. apply plain_name_latin.
Qed.

Lemma manifest_entries_json self names :
  manifest self names
  = JList (entries_json (map (fun n => (n, photo_type self)) names)).
Proof.
  unfold manifest, entries_json. rewrite map_map. reflexivity.
Qed.

Lemma resolved_names_latin (name_of : photo -> result str) photos names :
  (forall p n, name_of p = Ok n -> latin n) ->
  Forall2 (fun p n => name_of p = Ok n) photos names ->
  Forall latin names.
Proof.
  intros Hl H. induction H as [|p n photos names Hpn H IH]; constructor.
  - apply (Hl p n Hpn).
  - exact IH.
Qed.

Lemma pipeline_manifest_read_back self utcoffset photos names :
  wf_str (photo_type self) = true ->
  yandex_names utcoffset photos names \/ google_names utcoffset photos names ->
  json_loads (json_dumps (manifest self names)) = Ok (manifest self names).
Proof.
  intros Htag Hnames. rewrite manifest_entries_json.
  apply loads_dumps_entries.
  assert (Hl : Forall latin names).
  { destruct Hnames as [H|H].
    - apply (resolved_names_latin _ photos names) in H; [exact H|].
      intros p n. apply image_name_yandex_latin.
    - apply (resolved_names_latin _ photos names) in H; [exact H|].
      intros p n. apply image_name_google_latin. }
  clear Hnames.
  induction Hl as [|n names Hn Hl IH]; [reflexivity|].
  cbn [map forallb]. rewrite IH, andb_true_r.
  unfold wf_entry. cbn [fst snd]. rewrite Htag, andb_true_r.
  apply latin_wf. assumption.
Qed.

(** * Further properties of the methods *)

(** ** [str.replace] in [replase_status] *)

Lemma replace_from_skip target rep x b :
  replace_from target rep (List.length x) (x ++ b)
  = replace_from target rep O b.
Proof.
  induction x as [|c x IH]; [reflexivity|].
  cbn [List.length app replace_from]. exact IH.
Qed.

Lemma startswith_refl_app t b : startswith t (t ++ b) = true.
Proof. apply startswith_spec. exists b. reflexivity. Qed.

Lemma startswith_within t u v :
  (List.length t <= List.length u)%nat ->
  startswith t (u ++ v) = true -> startswith t u = true.
Proof.
  revert u. induction t as [|a t IH]; intros u Hlen H; [reflexivity|].
  destruct u as [|c u]; cbn [List.length] in Hlen; [lia|].
  cbn [app startswith] in *. apply andb_true_iff in H. destruct H as [-> H].
  cbn [andb]. apply IH; [lia|exact H].
Qed.

Lemma length_removelast {A} (l : list A) :
  List.length (removelast l) = Nat.pred (List.length l).
Proof.
  induction l as [|a [|b l] IH]; [reflexivity|reflexivity|].
  change (removelast (a :: b :: l)) with (a :: removelast (b :: l)).
  cbn [List.length] in *. rewrite IH. reflexivity.
Qed.

Lemma split_before_last {A} (d : A) (a t b : list A) :
  t <> [] -> (a ++ removelast t) ++ [last t d] ++ b = a ++ t ++ b.
Proof.
  intros H. rewrite <- app_assoc. f_equal. rewrite app_assoc.
  rewrite <- app_removelast_last by assumption. reflexivity.
Qed.

(** The scan passes over a prefix in which no occurrence starts, replaces
    the occurrence it meets, and goes on after it. *)
Lemma replace_leftmost a target rep b :
  target <> [] ->
  contains target (a ++ removelast target) = false ->
  replace (a ++ target ++ b) target rep = a ++ rep ++ replace b target rep.
Proof.
  intros Hne Habs. destruct target as [|c t]; [contradiction|].
  unfold replace. induction a as [|x a IH].
  - cbn [app]. change (c :: t ++ b) with ((c :: t) ++ b).
    cbn [replace_from app].
    change (c :: t ++ b) with ((c :: t) ++ b).
    rewrite startswith_refl_app.
    cbn [List.length Nat.pred]. rewrite replace_from_skip. reflexivity.
  - change ((x :: a) ++ removelast (c :: t))
      with (x :: (a ++ removelast (c :: t))) in Habs.
    apply contains_false_cons in Habs. destruct Habs as [Hs Hc].
    cbn [app replace_from].
    assert (Hnot : startswith (c :: t) (x :: a ++ c :: t ++ b) = false).
    { destruct (startswith (c :: t) (x :: a ++ c :: t ++ b)) eqn:E;
        [|reflexivity].
      rewrite <- Hs. symmetry.
      apply (startswith_within _ _ ([last (c :: t) 0] ++ b)).
      - cbn [List.length]. rewrite length_app, length_removelast.
        cbn [List.length Nat.pred]. lia.
      - change (startswith (c :: t)
                  (((x :: a) ++ removelast (c :: t))
                   ++ [last (c :: t) 0] ++ b) = true).
        rewrite (split_before_last 0 (x :: a) (c :: t) b) by discriminate.
        exact E. }
    rewrite Hnot. f_equal. apply IH. exact Hc.
Qed.

Lemma replase_status_run self user_id target replace_string env w r s :
  http env (calls w) (status_get_request self user_id) = Ok r ->
  response_json r = Ok (Some (VkStatus (Some s))) ->
  replase_status self user_id target replace_string env w
  = set_status self user_id (replace s target replace_string) env
      (after_calls w [Http (status_get_request self user_id)]).
Proof.
  intros Hr Hj. unfold replase_status, bind.
  rewrite get_status_run, Hr. simpl. rewrite Hj. reflexivity.
Qed.

Lemma set_status_run self user_id new_status env w :
  set_status self user_id new_status env w
  = (rbind (http env (calls w) (status_set_request self user_id new_status))
       (fun r =>
          if (400 <=? status_code r) && (status_code r <? 600)
          then Raise HTTPError else Ok tt),
     after_calls w [Http (status_set_request self user_id new_status)]).
Proof.
  unfold set_status, bind, requests, raise_for_status, throw, ret.
  change (mkRequest GET (API_BASE_URL ++ lit "status.set") [] _)
    with (status_set_request self user_id new_status).
  rewrite record_call_after.
  destruct (http env (calls w) _) as [r|e]; [|reflexivity].
  simpl. destruct ((400 <=? status_code r) && (status_code r <? 600));
    reflexivity.
Qed.

(** X1: when the status text is [a ++ target ++ b] and no occurrence of
    the non-empty [target] starts inside [a], [replase_status] writes back
    [a], the replacement, and [b] with its own occurrences replaced. *)
Theorem replase_status_replaces_leftmost
  self user_id target replace_string env w r a b :
  http env (calls w) (status_get_request self user_id) = Ok r ->
  response_json r = Ok (Some (VkStatus (Some (a ++ target ++ b)))) ->
  target <> [] ->
  contains target (a ++ removelast target) = false ->
  calls (snd (replase_status self user_id target replace_string env w))
  = calls w
    ++ [Http (status_get_request self user_id);
        Http (status_set_request self user_id
                (a ++ replace_string ++ replace b target replace_string))].
Proof.
  intros Hr Hj Hne Habs.
  rewrite (replase_status_run _ _ _ _ _ _ _ _ Hr Hj), set_status_run.
  rewrite replace_leftmost by assumption.
  simpl. rewrite <- app_assoc. reflexivity.
Qed.

Lemma replase_status_replaces_leftmost_witness :
  calls (snd (replase_status default_client (lit "123")
                (lit "aa") (lit "b")
                (constant_env (vk_answer (Some (VkStatus (Some
                   (lit "x" ++ lit "aa" ++ lit "a_aa"))))))
                empty_world))
  = calls empty_world
    ++ [Http (status_get_request default_client (lit "123"));
        Http (status_set_request default_client (lit "123")
                (lit "x" ++ lit "b" ++ replace (lit "a_aa") (lit "aa") (lit "b")))].
Proof.
  apply (replase_status_replaces_leftmost default_client (lit "123")
           (lit "aa") (lit "b")
           (constant_env (vk_answer (Some (VkStatus (Some
              (lit "x" ++ lit "aa" ++ lit "a_aa"))))))
           empty_world
           (vk_answer (Some (VkStatus (Some
              (lit "x" ++ lit "aa" ++ lit "a_aa")))))
           (lit "x") (lit "a_aa"));
    try reflexivity; discriminate.
Defined.

(** X2: when the answer of [status.get] carries no status text (no
    ['response'] key, or no ['text'] in it), [replase_status] raises
    [AttributeError] after that one request and never sends
    [status.set]. *)
Theorem replase_status_without_text
  self user_id target replace_string env w r :
  http env (calls w) (status_get_request self user_id) = Ok r ->
  response_json r = Ok None \/ response_json r = Ok (Some (VkStatus None)) ->
  replase_status self user_id target replace_string env w
  = (Raise AttributeError,
     after_calls w [Http (status_get_request self user_id)]).
Proof.
  intros Hr Hj. unfold replase_status, bind.
  rewrite get_status_run, Hr. simpl.
  destruct Hj as [-> | ->]; reflexivity.
Qed.

Lemma replase_status_without_text_witness :
  replase_status default_client (lit "123") (lit "a") (lit "b")
    (constant_env (vk_answer None)) empty_world
  = (Raise AttributeError,
     after_calls empty_world
       [Http (status_get_request default_client (lit "123"))]).
Proof.
  apply (replase_status_without_text default_client (lit "123") (lit "a")
           (lit "b") (constant_env (vk_answer None)) empty_world
           (vk_answer None));
    [reflexivity | left; reflexivity].
Defined.

(** X3: [replase_status] surfaces an HTTP error of [status.set] and of no
    other request: with a status text read, whatever the HTTP status of
    [status.get], it raises [HTTPError] when [status.set] is answered with
    a status from 400 to 599 and returns otherwise. *)
Theorem replase_status_outcome
  self user_id target replace_string env w r s r' :
  http env (calls w) (status_get_request self user_id) = Ok r ->
  response_json r = Ok (Some (VkStatus (Some s))) ->
  http env (calls w ++ [Http (status_get_request self user_id)])
    (status_set_request self user_id (replace s target replace_string))
  = Ok r' ->
  fst (replase_status self user_id target replace_string env w)
  = if (400 <=? status_code r') && (status_code r' <? 600)
    then Raise HTTPError else Ok tt.
Proof.
  intros Hr Hj Hr'.
  rewrite (replase_status_run _ _ _ _ _ _ _ _ Hr Hj), set_status_run.
  simpl. rewrite Hr'. reflexivity.
Qed.

Lemma replase_status_outcome_witness :
  fst (replase_status default_client (lit "123") (lit "a") (lit "b")
         (constant_env
            (mkResponse 503 [] (Ok (Some (VkStatus (Some (lit "abc")))))))
         empty_world)
  = if (400 <=? 503) && (503 <? 600) then Raise HTTPError else Ok tt.
Proof.
  apply (replase_status_outcome default_client (lit "123") (lit "a") (lit "b")
           (constant_env
              (mkResponse 503 [] (Ok (Some (VkStatus (Some (lit "abc")))))))
           empty_world
           (mkResponse 503 [] (Ok (Some (VkStatus (Some (lit "abc"))))))
           (lit "abc")
           (mkResponse 503 [] (Ok (Some (VkStatus (Some (lit "abc")))))));
    reflexivity.
Defined.

(** ** [status_info] on a found user *)

(** X4: when the answer of [users.get] lists at least one user,
    [status_info] returns the label and the id of the first one after one
    request, whatever follows in the list and whatever the HTTP status; a
    missing first or last name is printed as [None]. *)
Theorem status_info_label self user_id env w r u rest :
  http env (calls w) (users_get_request self user_id) = Ok r ->
  response_json r = Ok (Some (VkUsers (u :: rest))) ->
  status_info self user_id env w
  = (Ok (fmt_opt (first_name u) ++ lit " " ++ fmt_opt (last_name u),
         user_id_info u),
     after_calls w [Http (users_get_request self user_id)]).
Proof.
  intros Hr Hj. rewrite status_info_run, Hr. simpl. rewrite Hj. reflexivity.
Qed.

Lemma status_info_label_witness :
  status_info default_client (lit "123")
    (constant_env
       (mkResponse 500 []
          (Ok (Some (VkUsers [mkUser (Some (lit "Ivan")) None (Some 123);
                              mkUser None None None])))))
    empty_world
  = (Ok (fmt_opt (Some (lit "Ivan")) ++ lit " " ++ fmt_opt None, Some 123),
     after_calls empty_world
       [Http (users_get_request default_client (lit "123"))]).
Proof.
  apply (status_info_label default_client (lit "123")
           (constant_env
              (mkResponse 500 []
                 (Ok (Some (VkUsers [mkUser (Some (lit "Ivan")) None (Some 123);
                                     mkUser None None None])))))
           empty_world
           (mkResponse 500 []
              (Ok (Some (VkUsers [mkUser (Some (lit "Ivan")) None (Some 123);
                                  mkUser None None None]))))
           (mkUser (Some (lit "Ivan")) None (Some 123))
           [mkUser None None None]);
    reflexivity.
Defined.

(** ** What a run leaves in the world *)

Lemma dict_get_set_other {V} (d : dict V) k k' v :
  k <> k' -> dict_get (dict_set d k v) k' = dict_get d k'.
Proof.
  intros Hne.
  assert (Hkk : str_eqb k k' = false).
  { unfold str_eqb. destruct (list_eq_dec Z.eq_dec k k'); congruence. }
  induction d as [|[k1 v1] d IH]; simpl.
  - rewrite Hkk. reflexivity.
  - destruct (str_eqb k1 k) eqn:E; simpl.
    + unfold str_eqb in E. destruct (list_eq_dec Z.eq_dec k1 k); [|discriminate].
      subst k1. rewrite Hkk. reflexivity.
    + destruct (str_eqb k1 k'); [reflexivity|exact IH].
Qed.

Lemma after_calls_nil w : after_calls w [] = w.
Proof. destruct w. unfold after_calls. simpl. rewrite app_nil_r. reflexivity. Qed.

Lemma google_loop_calls self utcoffset folder_id counts photos acc env w :
  exists cs,
    snd (google_loop self utcoffset folder_id counts photos acc env w)
    = after_calls w cs
    /\ forallb (fun c => negb (is_auth_flow c) && negb (is_folder_creation c))
         cs = true.
Proof.
  revert acc w. induction photos as [|[[likes date] photo_url] rest IH];
    intros acc w.
  - exists []. rewrite after_calls_nil. split; reflexivity.
  - rewrite google_loop_cons.
    destruct (image_name_google utcoffset counts likes date) as [name|e].
    2:{ exists []. rewrite after_calls_nil. split; reflexivity. }
    destruct (http env (calls w) _) as [r|e].
    2:{ eexists. split; reflexivity. }
    destruct (drive_create env _ _ _ _) as [id|e].
    2:{ eexists. split; reflexivity. }
    match goal with
    | |- context [google_loop _ _ _ _ _ ?a env ?w1] =>
        destruct (IH a w1) as (cs & Hw & Hcs)
    end.
    eexists. split.
    + rewrite Hw, after_calls_after. reflexivity.
    + cbn [app forallb]. rewrite Hcs. reflexivity.
Qed.

Lemma keeps_files_bind {A B} (m : M A) (k : A -> M B) :
  keeps_files m -> (forall a, keeps_files (k a)) -> keeps_files (bind m k).
Proof.
  intros Hm Hk env w. unfold bind. specialize (Hm env w).
  destruct (m env w) as [[a|e] w1]; simpl in Hm.
  - rewrite Hk. exact Hm.
  - exact Hm.
Qed.

Lemma keeps_files_ret {A} (a : A) : keeps_files (ret a).
Proof. intros env w. reflexivity. Qed.

Lemma keeps_files_lift {A} (r : result A) : keeps_files (lift r).
Proof. intros env w. reflexivity. Qed.

Lemma keeps_files_requests m url headers params :
  keeps_files (requests m url headers params).
Proof. intros env w. reflexivity. Qed.

Lemma keeps_files_get_profile_photos self user_id count album_id :
  keeps_files (get_profile_photos self user_id count album_id).
Proof. intros env w. rewrite get_profile_photos_request. reflexivity. Qed.

Lemma keeps_files_yandex_loop self utcoffset TOKEN counts photos acc :
  keeps_files (yandex_loop self utcoffset (yandex_headers TOKEN)
                 (lit "backup_photos") counts photos acc).
Proof.
  intros env w.
  destruct (yandex_loop_calls self utcoffset TOKEN counts photos acc env w)
    as (posts & Hw & _).
  rewrite Hw. reflexivity.
Qed.

Lemma keeps_files_google_loop self utcoffset folder_id counts photos acc :
  keeps_files (google_loop self utcoffset folder_id counts photos acc).
Proof.
  intros env w.
  destruct (google_loop_calls self utcoffset folder_id counts photos acc env w)
    as (cs & Hw & _).
  rewrite Hw. reflexivity.
Qed.

Lemma writes_last_bind {A} name (m : M A) (k : A -> M unit) :
  keeps_files m -> (forall a, writes_last name (k a)) ->
  writes_last name (bind m k).
Proof.
  intros Hm Hk env w. unfold bind. specialize (Hm env w).
  destruct (m env w) as [[a|e] w1]; simpl in Hm.
  - specialize (Hk a env w1). destruct (k a env w1) as [[u|e] w2].
    + destruct Hk as [text Ht]. exists text. rewrite Ht, Hm. reflexivity.
    + rewrite Hk. exact Hm.
  - exact Hm.
Qed.

Lemma writes_last_write_file name text : writes_last name (write_file name text).
Proof. intros env w. exists text. reflexivity. Qed.

Lemma yandex_run_files
  self TOKEN utcoffset album_id_vk count_photos album_id :
  writes_last (lit "photo_info_ya_disk.json")
    (save_photos_to_yandex_disk self TOKEN utcoffset album_id_vk count_photos
       album_id).
Proof.
  unfold save_photos_to_yandex_disk.
  apply writes_last_bind; [apply keeps_files_get_profile_photos|intros photos].
  apply writes_last_bind; [apply keeps_files_requests|intros probe].
  apply writes_last_bind.
  { destruct (status_code probe =? 404);
      [apply keeps_files_requests|apply keeps_files_ret]. }
  intros r.
  apply writes_last_bind; [apply keeps_files_yandex_loop|intros l].
  apply writes_last_write_file.
Qed.

Lemma google_run_files self utcoffset album_id_vk count_photos album_id :
  writes_last (lit "photo_info_g_drive.json")
    (save_photos_to_google_drive self utcoffset album_id_vk count_photos
       album_id).
Proof.
  unfold save_photos_to_google_drive.
  apply writes_last_bind; [apply keeps_files_get_profile_photos|intros photos].
  apply writes_last_bind; [intros env w; reflexivity|intros ex].
  apply writes_last_bind.
  { destruct ex; [|apply keeps_files_ret].
    apply keeps_files_bind; [intros env w; reflexivity|].
    intros v. apply keeps_files_ret. }
  intros creds.
  apply writes_last_bind.
  { destruct creds as [[|]|]; [apply keeps_files_ret| |];
      intros env w; reflexivity. }
  intros u.
  apply writes_last_bind; [intros env w; reflexivity|intros folders].
  apply writes_last_bind.
  { destruct folders; [intros env w; reflexivity|apply keeps_files_ret]. }
  intros folder_id.
  apply writes_last_bind; [apply keeps_files_google_loop|intros l].
  apply writes_last_write_file.
Qed.

(** X6: a run of the Yandex pipeline changes no local file but
    [photo_info_ya_disk.json], and a run of the Google pipeline none but
    [photo_info_g_drive.json]; so neither run disturbs the manifest of the
    other. *)
Theorem run_touches_only_its_manifest
  self TOKEN utcoffset album_id_vk count_photos album_id env w name :
  (name <> lit "photo_info_ya_disk.json" ->
   dict_get
     (files (snd (save_photos_to_yandex_disk self TOKEN utcoffset album_id_vk
                    count_photos album_id env w))) name
   = dict_get (files w) name)
  /\ (name <> lit "photo_info_g_drive.json" ->
      dict_get
        (files (snd (save_photos_to_google_drive self utcoffset album_id_vk
                       count_photos album_id env w))) name
      = dict_get (files w) name).
Proof.
  split; intros Hne.
  - pose proof (yandex_run_files self TOKEN utcoffset album_id_vk count_photos
                  album_id env w) as Hf.
    destruct (save_photos_to_yandex_disk _ _ _ _ _ _ env w) as [[u|e] w'];
      simpl.
    + destruct Hf as [text ->]. apply dict_get_set_other. congruence.
    + rewrite Hf. reflexivity.
  - pose proof (google_run_files self utcoffset album_id_vk count_photos
                  album_id env w) as Hf.
    destruct (save_photos_to_google_drive _ _ _ _ _ env w) as [[u|e] w'];
      simpl.
    + destruct Hf as [text ->]. apply dict_get_set_other. congruence.
    + rewrite Hf. reflexivity.
Qed.

Lemma run_touches_only_its_manifest_witness :
  (lit "photo_info_g_drive.json" <> lit "photo_info_ya_disk.json" ->
   dict_get
     (files (snd (save_photos_to_yandex_disk default_client (lit "ytok")
                    (fun _ => 10800) (lit "1") 5 (lit "profile")
                    (constant_env server_error_listing)
                    (mkWorld [] [(lit "photo_info_g_drive.json", lit "[]")]))))
     (lit "photo_info_g_drive.json")
   = dict_get (files (mkWorld [] [(lit "photo_info_g_drive.json", lit "[]")]))
       (lit "photo_info_g_drive.json"))
  /\ (lit "photo_info_g_drive.json" <> lit "photo_info_g_drive.json" ->
      dict_get
        (files (snd (save_photos_to_google_drive default_client
                       (fun _ => 10800) (lit "1") 5 (lit "profile")
                       (constant_env server_error_listing)
                       (mkWorld [] [(lit "photo_info_g_drive.json", lit "[]")]))))
        (lit "photo_info_g_drive.json")
      = dict_get (files (mkWorld [] [(lit "photo_info_g_drive.json", lit "[]")]))
          (lit "photo_info_g_drive.json")).
Proof.
  exact (run_touches_only_its_manifest default_client (lit "ytok")
           (fun _ => 10800) (lit "1") 5 (lit "profile")
           (constant_env server_error_listing)
           (mkWorld [] [(lit "photo_info_g_drive.json", lit "[]")])
           (lit "photo_info_g_drive.json")).
Defined.

(** ** A listing that fails or is empty *)

Lemma get_profile_photos_run self user_id count album_id env w :
  get_profile_photos self user_id count album_id env w
  = (rbind (http env (calls w) (photos_get_request self user_id count album_id))
       (fun r =>
        rbind (response_json r) (fun body =>
        rbind (photos_items body) (fun items =>
        Ok (flat_map (records_of self) items)))),
     after_calls w [Http (photos_get_request self user_id count album_id)]).
Proof.
  unfold get_profile_photos, bind, requests, lift, ret.
  change (mkRequest GET (API_BASE_URL ++ lit "photos.get") [] _)
    with (photos_get_request self user_id count album_id).
  rewrite record_call_after.
  destruct (http env (calls w) _) as [r|e]; simpl; [|reflexivity].
  destruct (response_json r) as [body|e]; simpl; [|reflexivity].
  destruct (photos_items body) as [items|e]; simpl; [|reflexivity].
  rewrite images_loop_app. reflexivity.
Qed.

(** X7: when VK answers [photos.get] without a ['response'] key, as it
    does for an error, both pipelines raise [KeyError] after that one
    request: no storage is contacted and no file is written. *)
Theorem listing_error_stops_pipelines
  self TOKEN utcoffset album_id_vk count_photos album_id env w r :
  http env (calls w) (photos_get_request self album_id_vk count_photos album_id)
  = Ok r ->
  response_json r = Ok None ->
  save_photos_to_yandex_disk self TOKEN utcoffset album_id_vk count_photos
    album_id env w
  = (Raise KeyError,
     after_calls w
       [Http (photos_get_request self album_id_vk count_photos album_id)])
  /\ save_photos_to_google_drive self utcoffset album_id_vk count_photos
       album_id env w
     = (Raise KeyError,
        after_calls w
          [Http (photos_get_request self album_id_vk count_photos album_id)]).
Proof.
  intros Hr Hj.
  assert (Hg : get_profile_photos self album_id_vk count_photos album_id env w
               = (Raise KeyError,
                  after_calls w
                    [Http (photos_get_request self album_id_vk count_photos
                             album_id)])).
  { rewrite get_profile_photos_run, Hr. simpl. rewrite Hj. reflexivity. }
  unfold save_photos_to_yandex_disk, save_photos_to_google_drive, bind.
  rewrite Hg. split; reflexivity.
Qed.

Lemma listing_error_stops_pipelines_witness :
  save_photos_to_yandex_disk default_client (lit "ytok") (fun _ => 10800)
    (lit "1") 5 (lit "profile") (constant_env (vk_answer None)) empty_world
  = (Raise KeyError,
     after_calls empty_world
       [Http (photos_get_request default_client (lit "1") 5 (lit "profile"))])
  /\ save_photos_to_google_drive default_client (fun _ => 10800)
       (lit "1") 5 (lit "profile") (constant_env (vk_answer None)) empty_world
     = (Raise KeyError,
        after_calls empty_world
          [Http (photos_get_request default_client (lit "1") 5 (lit "profile"))]).
Proof.
  apply (listing_error_stops_pipelines default_client (lit "ytok")
           (fun _ => 10800) (lit "1") 5 (lit "profile")
           (constant_env (vk_answer None)) empty_world (vk_answer None));
    reflexivity.
Defined.

Lemma records_of_no_match self image :
  has_match self image = false -> records_of self image = [].
Proof.
  intros H. destruct (records_of self image) eqn:E; [reflexivity|].
  assert (has_match self image = true)
    by (apply has_match_matching_sizes; rewrite E; discriminate).
  congruence.
Qed.

(** X8: when no listed photo has a size variant of the configured type,
    the Yandex pipeline still probes the backup folder, requests no
    upload, and writes the empty manifest [[]]. *)
Theorem yandex_run_without_matches
  self TOKEN utcoffset album_id_vk count_photos album_id env w r items probe :
  http env (calls w) (photos_get_request self album_id_vk count_photos album_id)
  = Ok r ->
  response_json r = Ok (Some (VkPhotos items)) ->
  forallb (fun image => negb (has_match self image)) items = true ->
  http env
    (calls w ++ [Http (photos_get_request self album_id_vk count_photos album_id)])
    (probe_request TOKEN) = Ok probe ->
  status_code probe <> 404 ->
  save_photos_to_yandex_disk self TOKEN utcoffset album_id_vk count_photos
    album_id env w
  = (Ok tt,
     mkWorld
       (calls w
        ++ [Http (photos_get_request self album_id_vk count_photos album_id);
            Http (probe_request TOKEN)])
       (dict_set (files w) (lit "photo_info_ya_disk.json") (lit "[]"))).
Proof.
  intros Hr Hj Hnone Hprobe Hne.
  assert (Hphotos : flat_map (records_of self) items = []).
  { clear Hj. induction items as [|image items IH]; [reflexivity|].
    cbn [forallb] in Hnone. apply andb_true_iff in Hnone.
    destruct Hnone as [H1 H2]. apply negb_true_iff in H1.
    cbn [flat_map]. rewrite (records_of_no_match _ _ H1), IH by assumption.
    reflexivity. }
  assert (Hg : fst (get_profile_photos self album_id_vk count_photos album_id
                      env w) = Ok []).
  { rewrite (get_profile_photos_Ok _ _ _ _ _ _ _ _ Hr Hj), Hphotos.
    reflexivity. }
  rewrite (save_photos_to_yandex_disk_run _ _ _ _ _ _ _ _ _ _ Hg Hprobe).
  destruct (Z.eqb_spec (status_code probe) 404); [contradiction|].
  reflexivity.
Qed.

Lemma yandex_run_without_matches_witness :
  save_photos_to_yandex_disk default_client (lit "ytok") (fun _ => 10800)
    (lit "1") 5 (lit "profile")
    (constant_env
       (vk_answer (Some (VkPhotos [mkImage 8 200 [mkSize (lit "x") (lit "u2")]]))))
    empty_world
  = (Ok tt,
     mkWorld
       (calls empty_world
        ++ [Http (photos_get_request default_client (lit "1") 5 (lit "profile"));
            Http (probe_request (lit "ytok"))])
       (dict_set (files empty_world) (lit "photo_info_ya_disk.json") (lit "[]"))).
Proof.
  apply (yandex_run_without_matches default_client (lit "ytok")
           (fun _ => 10800) (lit "1") 5 (lit "profile")
           (constant_env
              (vk_answer (Some (VkPhotos
                 [mkImage 8 200 [mkSize (lit "x") (lit "u2")]]))))
           empty_world
           (vk_answer (Some (VkPhotos
              [mkImage 8 200 [mkSize (lit "x") (lit "u2")]])))
           [mkImage 8 200 [mkSize (lit "x") (lit "u2")]]
           (vk_answer (Some (VkPhotos
              [mkImage 8 200 [mkSize (lit "x") (lit "u2")]]))));
    try reflexivity; discriminate.
Defined.

(** ** The requests of a Yandex run *)

Lemma yandex_loop_Ok_world self utcoffset TOKEN counts photos acc env w l w' :
  yandex_loop self utcoffset (yandex_headers TOKEN) (lit "backup_photos")
    counts photos acc env w = (Ok l, w') ->
  exists names,
    Forall2 (fun p n =>
               image_name_yandex utcoffset counts (photo_likes p) (photo_date p)
               = Ok n) photos names
    /\ l = acc ++ map (manifest_entry self) names
    /\ w' = after_calls w (upload_calls TOKEN names photos).
Proof.
  revert acc w. induction photos as [|[[likes date] photo_url] rest IH];
    intros acc w H.
  - injection H as <- <-. exists []. split; [constructor|].
    rewrite app_nil_r, after_calls_nil. split; reflexivity.
  - rewrite yandex_loop_cons in H.
    destruct (image_name_yandex utcoffset counts likes date) as [name|e] eqn:E;
      [|discriminate].
    destruct (http env (calls w) _) as [r|e]; [|discriminate].
    apply IH in H. destruct H as (names & Hn & -> & ->).
    exists (name :: names). split; [constructor; assumption|].
    rewrite <- app_assoc, after_calls_after. split; reflexivity.
Qed.

(** X9: a run of the Yandex pipeline that returns has sent, after the
    listing and the probe (and the creation of the folder, if any), exactly
    one upload request for each photo of the set, in the order of the set,
    each with the URL of its photo and the path [backup_photos/<name>] of
    the name resolved for it. *)
Theorem yandex_run_requests
  self TOKEN utcoffset album_id_vk count_photos album_id env w w' :
  save_photos_to_yandex_disk self TOKEN utcoffset album_id_vk count_photos
    album_id env w = (Ok tt, w') ->
  exists photos names,
    fst (get_profile_photos self album_id_vk count_photos album_id env w)
    = Ok photos
    /\ yandex_names utcoffset photos names
    /\ (new_calls w w'
        = Http (photos_get_request self album_id_vk count_photos album_id)
          :: Http (probe_request TOKEN)
          :: upload_calls TOKEN names photos
        \/ new_calls w w'
           = Http (photos_get_request self album_id_vk count_photos album_id)
             :: Http (probe_request TOKEN)
             :: Http (create_folder_request TOKEN)
             :: upload_calls TOKEN names photos).
Proof.
  intros H. unfold save_photos_to_yandex_disk in H.
  apply bind_Ok_inv in H. destruct H as (photos & w1 & Hg & H).
  pose proof (get_profile_photos_request self album_id_vk count_photos
                album_id env w) as Hw1.
  rewrite Hg in Hw1. simpl in Hw1. subst w1.
  apply bind_Ok_inv in H. destruct H as (probe & w2 & Hp & H).
  unfold requests in Hp. injection Hp as _ <-.
  apply bind_Ok_inv in H. destruct H as (r & w3 & Hf & H).
  apply bind_Ok_inv in H. destruct H as (l & w4 & Hloop & H).
  change [(lit "Authorization", lit "OAuth " ++ TOKEN)]
    with (yandex_headers TOKEN) in *.
  apply yandex_loop_Ok_world in Hloop.
  destruct Hloop as (names & Hn & -> & ->).
  unfold write_file in H. injection H as <-.
  exists photos, names. rewrite Hg. split; [reflexivity|]. split; [exact Hn|].
  destruct (status_code probe =? 404).
  - unfold requests in Hf. injection Hf as _ <-. right.
    apply new_calls_app. simpl. rewrite <- !app_assoc. reflexivity.
  - unfold ret in Hf. injection Hf as _ <-. left.
    apply new_calls_app. simpl. rewrite <- !app_assoc. reflexivity.
Qed.

Lemma yandex_run_requests_witness :
  exists photos names,
    fst (get_profile_photos default_client (lit "1") 5 (lit "profile")
           (constant_env server_error_listing) empty_world)
    = Ok photos
    /\ yandex_names (fun _ => 10800) photos names
    /\ (new_calls empty_world
          (snd (save_photos_to_yandex_disk default_client (lit "ytok")
                  (fun _ => 10800) (lit "1") 5 (lit "profile")
                  (constant_env server_error_listing) empty_world))
        = Http (photos_get_request default_client (lit "1") 5 (lit "profile"))
          :: Http (probe_request (lit "ytok"))
          :: upload_calls (lit "ytok") names photos
        \/ new_calls empty_world
             (snd (save_photos_to_yandex_disk default_client (lit "ytok")
                     (fun _ => 10800) (lit "1") 5 (lit "profile")
                     (constant_env server_error_listing) empty_world))
           = Http (photos_get_request default_client (lit "1") 5 (lit "profile"))
             :: Http (probe_request (lit "ytok"))
             :: Http (create_folder_request (lit "ytok"))
             :: upload_calls (lit "ytok") names photos).
Proof.
  apply (yandex_run_requests default_client (lit "ytok") (fun _ => 10800)
           (lit "1") 5 (lit "profile") (constant_env server_error_listing)
           empty_world).
  vm_compute. reflexivity.
Defined.

(** X10: the answer to the request that creates the backup folder is not
    inspected: after a probe answered 404, whatever status the creation is
    answered with, the pipeline goes on with the uploads. *)
Theorem yandex_folder_creation_unchecked
  self TOKEN utcoffset album_id_vk count_photos album_id env w photos probe
  created :
  fst (get_profile_photos self album_id_vk count_photos album_id env w)
  = Ok photos ->
  http env
    (calls w ++ [Http (photos_get_request self album_id_vk count_photos album_id)])
    (probe_request TOKEN) = Ok probe ->
  status_code probe = 404 ->
  http env
    (calls w
     ++ [Http (photos_get_request self album_id_vk count_photos album_id);
         Http (probe_request TOKEN)])
    (create_folder_request TOKEN) = Ok created ->
  save_photos_to_yandex_disk self TOKEN utcoffset album_id_vk count_photos
    album_id env w
  = yandex_uploads self TOKEN utcoffset photos env
      (after_calls w
         [Http (photos_get_request self album_id_vk count_photos album_id);
          Http (probe_request TOKEN);
          Http (create_folder_request TOKEN)]).
Proof.
  intros Hg Hprobe H404 Hput.
  rewrite (save_photos_to_yandex_disk_run _ _ _ _ _ _ _ _ _ _ Hg Hprobe).
  rewrite H404, Hput. reflexivity.
Qed.

Lemma yandex_folder_creation_unchecked_witness :
  save_photos_to_yandex_disk default_client (lit "ytok") (fun _ => 10800)
    (lit "1") 5 (lit "profile")
    (constant_env
       (mkResponse 404 []
          (Ok (Some (VkPhotos [mkImage 3 0 [mkSize (lit "z") (lit "urlC")]])))))
    empty_world
  = yandex_uploads default_client (lit "ytok") (fun _ => 10800)
      [(3, 0, lit "urlC")]
      (constant_env
         (mkResponse 404 []
            (Ok (Some (VkPhotos [mkImage 3 0 [mkSize (lit "z") (lit "urlC")]])))))
      (after_calls empty_world
         [Http (photos_get_request default_client (lit "1") 5 (lit "profile"));
          Http (probe_request (lit "ytok"));
          Http (create_folder_request (lit "ytok"))]).
Proof.
  apply (yandex_folder_creation_unchecked default_client (lit "ytok")
           (fun _ => 10800) (lit "1") 5 (lit "profile")
           (constant_env
              (mkResponse 404 []
                 (Ok (Some (VkPhotos
                    [mkImage 3 0 [mkSize (lit "z") (lit "urlC")]])))))
           empty_world [(3, 0, lit "urlC")]
           (mkResponse 404 []
              (Ok (Some (VkPhotos
                 [mkImage 3 0 [mkSize (lit "z") (lit "urlC")]]))))
           (mkResponse 404 []
              (Ok (Some (VkPhotos
                 [mkImage 3 0 [mkSize (lit "z") (lit "urlC")]])))));
    reflexivity.
Defined.

(** ** Names that cannot be resolved, and names in both pipelines *)

Lemma Forall2_In_left {A B} (R : A -> B -> Prop) l l' x :
  Forall2 R l l' -> In x l -> exists y, R x y.
Proof.
  induction 1 as [|a b l l' Hab H IH]; intros Hin; [contradiction|].
  destruct Hin as [<-|Hin]; [exists b; exact Hab|apply IH; exact Hin].
Qed.

Lemma suffixed_name_out_of_range utcoffset likes date :
  ~ (MIN_LOCAL <= local_seconds utcoffset date < MAX_LOCAL) ->
  suffixed_name utcoffset likes date = Raise ValueError.
Proof.
  intros H. unfold suffixed_name.
  rewrite fromtimestamp_out_of_range by assumption. reflexivity.
Qed.

(** X11: when a photo of the set shares its like count with another and
    its upload time, in local time, lies outside the years 1 to 9999,
    neither pipeline returns: the name of that photo cannot be formed, and
    the run raises before any manifest is written. *)
Theorem tied_photo_out_of_range_fails
  self TOKEN utcoffset album_id_vk count_photos album_id env w photos p :
  fst (get_profile_photos self album_id_vk count_photos album_id env w)
  = Ok photos ->
  In p photos ->
  1 < list_count (likes_counts photos) (photo_likes p) ->
  ~ (MIN_LOCAL <= local_seconds utcoffset (photo_date p) < MAX_LOCAL) ->
  fst (save_photos_to_yandex_disk self TOKEN utcoffset album_id_vk
         count_photos album_id env w) <> Ok tt
  /\ fst (save_photos_to_google_drive self utcoffset album_id_vk
            count_photos album_id env w) <> Ok tt.
Proof.
  intros Hg Hin Htied Hout. split; intros Hrun.
  - destruct (save_photos_to_yandex_disk _ _ _ _ _ _ env w) as [res w'] eqn:E.
    simpl in Hrun. subst res.
    apply yandex_run_Ok_inv in E. destruct E as (photos' & names & Hg' & Hn & _).
    rewrite Hg in Hg'. injection Hg' as <-.
    destruct (Forall2_In_left _ _ _ _ Hn Hin) as [n Hname].
    rewrite image_name_yandex_tied, suffixed_name_out_of_range in Hname
      by assumption.
    discriminate.
  - destruct (save_photos_to_google_drive _ _ _ _ _ env w) as [res w'] eqn:E.
    simpl in Hrun. subst res.
    apply google_run_Ok_inv in E. destruct E as (photos' & names & Hg' & Hn & _).
    rewrite Hg in Hg'. injection Hg' as <-.
    destruct (Forall2_In_left _ _ _ _ Hn Hin) as [n Hname].
    rewrite image_name_google_tied, suffixed_name_out_of_range in Hname
      by assumption.
    discriminate.
Qed.

Lemma tied_photo_out_of_range_fails_witness :
  fst (save_photos_to_yandex_disk default_client (lit "ytok") (fun _ => 10800)
         (lit "1") 5 (lit "profile")
         (constant_env
            (vk_answer (Some (VkPhotos
               [mkImage 10 1414272600 [mkSize (lit "z") (lit "urlA")];
                mkImage 10 300000000000 [mkSize (lit "z") (lit "urlB")]]))))
         empty_world) <> Ok tt
  /\ fst (save_photos_to_google_drive default_client (fun _ => 10800)
            (lit "1") 5 (lit "profile")
            (constant_env
               (vk_answer (Some (VkPhotos
                  [mkImage 10 1414272600 [mkSize (lit "z") (lit "urlA")];
                   mkImage 10 300000000000 [mkSize (lit "z") (lit "urlB")]]))))
            empty_world) <> Ok tt.
Proof.
  apply (tied_photo_out_of_range_fails default_client (lit "ytok")
           (fun _ => 10800) (lit "1") 5 (lit "profile")
           (constant_env
              (vk_answer (Some (VkPhotos
                 [mkImage 10 1414272600 [mkSize (lit "z") (lit "urlA")];
                  mkImage 10 300000000000 [mkSize (lit "z") (lit "urlB")]]))))
           empty_world
           [(10, 1414272600, lit "urlA"); (10, 300000000000, lit "urlB")]
           (10, 300000000000, lit "urlB")).
  - reflexivity.
  - right. left. reflexivity.
  - reflexivity.
  - unfold local_seconds, MIN_LOCAL, MAX_LOCAL. simpl. lia.
Defined.

Lemma resolved_names_agree utcoffset counts photos names1 names2 :
  (forall p, In p photos -> In (photo_likes p) counts) ->
  Forall2 (fun p n =>
             image_name_yandex utcoffset counts (photo_likes p) (photo_date p)
             = Ok n) photos names1 ->
  Forall2 (fun p n =>
             image_name_google utcoffset counts (photo_likes p) (photo_date p)
             = Ok n) photos names2 ->
  names1 = names2.
Proof.
  intros Hin H1. revert names2.
  induction H1 as [|p n1 photos names1 Hp H1 IH]; intros names2 H2.
  - inversion H2. reflexivity.
  - inversion H2 as [|p' n2 photos' names2' Hp2 H2']; subst.
    rewrite image_name_variants_agree in Hp by (apply Hin; left; reflexivity).
    rewrite Hp in Hp2. injection Hp2 as <-.
    f_equal. apply IH; [|exact H2'].
    intros q Hq. apply Hin. right. exact Hq.
Qed.

(** X12: when a run of the Yandex pipeline and a run of the Google
    pipeline both return and were given the same photo set, the two
    manifests they write are the same text. *)
Theorem pipelines_write_same_manifest
  self TOKEN utcoffset album_id_vk count_photos album_id env1 w1 w1' env2 w2 w2' :
  save_photos_to_yandex_disk self TOKEN utcoffset album_id_vk count_photos
    album_id env1 w1 = (Ok tt, w1') ->
  save_photos_to_google_drive self utcoffset album_id_vk count_photos
    album_id env2 w2 = (Ok tt, w2') ->
  fst (get_profile_photos self album_id_vk count_photos album_id env1 w1)
  = fst (get_profile_photos self album_id_vk count_photos album_id env2 w2) ->
  dict_get (files w1') (lit "photo_info_ya_disk.json")
  = dict_get (files w2') (lit "photo_info_g_drive.json").
Proof.
  intros Hy Hgo Hsame.
  apply yandex_run_Ok_inv in Hy. destruct Hy as (ph1 & n1 & Hg1 & Hn1 & ->).
  apply google_run_Ok_inv in Hgo. destruct Hgo as (ph2 & n2 & Hg2 & Hn2 & ->).
  rewrite Hg1, Hg2 in Hsame. injection Hsame as <-.
  rewrite (resolved_names_agree utcoffset (likes_counts ph1) ph1 n1 n2);
    [reflexivity| |exact Hn1|exact Hn2].
  intros p. apply photo_likes_In.
Qed.

Lemma pipelines_write_same_manifest_witness :
  dict_get
    (files (snd (save_photos_to_yandex_disk default_client (lit "ytok")
                   (fun _ => 10800) (lit "1") 5 (lit "profile")
                   (constant_env server_error_listing) empty_world)))
    (lit "photo_info_ya_disk.json")
  = dict_get
      (files (snd (save_photos_to_google_drive default_client
                     (fun _ => 10800) (lit "1") 5 (lit "profile")
                     (constant_env server_error_listing) empty_world)))
      (lit "photo_info_g_drive.json").
Proof.
  apply (pipelines_write_same_manifest default_client (lit "ytok")
           (fun _ => 10800) (lit "1") 5 (lit "profile")
           (constant_env server_error_listing) empty_world _
           (constant_env server_error_listing) empty_world _);
    vm_compute; reflexivity.
Defined.

(** ** Authorization and the folder in the Google pipeline *)

Lemma os_path_exists_run path env w :
  os_path_exists path env w
  = (Ok (path_exists env (calls w) path), after_calls w [PathExists path]).
Proof. reflexivity. Qed.

Lemma from_authorized_user_file_run path env w :
  from_authorized_user_file path env w
  = (load_credentials env (calls w) path, after_calls w [LoadCredentials path]).
Proof. reflexivity. Qed.

Lemma run_local_server_run secrets env w :
  run_local_server secrets env w
  = (run_auth_flow env (calls w) secrets, after_calls w [RunAuthFlow secrets]).
Proof. reflexivity. Qed.

Lemma files_list_run q fields env w :
  files_list q fields env w
  = (drive_list env (calls w) q fields, after_calls w [DriveList q fields]).
Proof. reflexivity. Qed.

Lemma files_create_run body media fields env w :
  files_create body media fields env w
  = (drive_create env (calls w) body media fields,
     after_calls w [DriveCreate body media fields]).
Proof. reflexivity. Qed.

Lemma calls_after_calls w cs : calls (after_calls w cs) = calls w ++ cs.
Proof. reflexivity. Qed.

Lemma save_photos_to_google_drive_run
  self utcoffset album_id_vk count_photos album_id env w photos :
  fst (get_profile_photos self album_id_vk count_photos album_id env w)
  = Ok photos ->
  save_photos_to_google_drive self utcoffset album_id_vk count_photos
    album_id env w
  = if path_exists env
         (calls w
          ++ [Http (photos_get_request self album_id_vk count_photos album_id)])
         (lit "token.json")
    then
      match load_credentials env
              (calls w
               ++ [Http (photos_get_request self album_id_vk count_photos album_id);
                   PathExists (lit "token.json")])
              (lit "token.json") with
      | Raise e =>
          (Raise e,
           after_calls w
             [Http (photos_get_request self album_id_vk count_photos album_id);
              PathExists (lit "token.json");
              LoadCredentials (lit "token.json")])
      | Ok true =>
          google_storage self utcoffset photos env
            (after_calls w
               [Http (photos_get_request self album_id_vk count_photos album_id);
                PathExists (lit "token.json");
                LoadCredentials (lit "token.json")])
      | Ok false =>
          match run_auth_flow env
                  (calls w
                   ++ [Http (photos_get_request self album_id_vk count_photos
                               album_id);
                       PathExists (lit "token.json");
                       LoadCredentials (lit "token.json")])
                  (lit "credentials.json") with
          | Ok _ =>
              google_storage self utcoffset photos env
                (after_calls w
                   [Http (photos_get_request self album_id_vk count_photos
                            album_id);
                    PathExists (lit "token.json");
                    LoadCredentials (lit "token.json");
                    RunAuthFlow (lit "credentials.json")])
          | Raise e =>
              (Raise e,
               after_calls w
                 [Http (photos_get_request self album_id_vk count_photos
                          album_id);
                  PathExists (lit "token.json");
                  LoadCredentials (lit "token.json");
                  RunAuthFlow (lit "credentials.json")])
          end
      end
    else
      match run_auth_flow env
              (calls w
               ++ [Http (photos_get_request self album_id_vk count_photos album_id);
                   PathExists (lit "token.json")])
              (lit "credentials.json") with
      | Ok _ =>
          google_storage self utcoffset photos env
            (after_calls w
               [Http (photos_get_request self album_id_vk count_photos album_id);
                PathExists (lit "token.json");
                RunAuthFlow (lit "credentials.json")])
      | Raise e =>
          (Raise e,
           after_calls w
             [Http (photos_get_request self album_id_vk count_photos album_id);
              PathExists (lit "token.json");
              RunAuthFlow (lit "credentials.json")])
      end.
Proof.
  intros Hp.
  pose proof (get_profile_photos_request self album_id_vk count_photos
                album_id env w) as Hw.
  destruct (get_profile_photos self album_id_vk count_photos album_id env w)
    as [res w1] eqn:Hg.
  simpl in Hp, Hw. subst res w1. rewrite record_call_after in Hg.
  unfold save_photos_to_google_drive.
  rewrite (bind_Ok _ _ _ _ _ _ Hg).
  unfold bind at 1. rewrite os_path_exists_run, calls_after_calls.
  cbv beta iota. rewrite after_calls_after. cbn [app].
  destruct (path_exists env _ _).
  - unfold bind at 1. unfold bind at 1.
    rewrite from_authorized_user_file_run, calls_after_calls.
    rewrite after_calls_after. cbn [app].
    destruct (load_credentials env _ _) as [[|]|e].
    + reflexivity.
    + unfold ret at 1. unfold bind at 1.
      rewrite run_local_server_run, calls_after_calls, after_calls_after.
      cbn [app].
      destruct (run_auth_flow env _ _) as [u|e]; reflexivity.
    + reflexivity.
  - unfold bind at 1, ret at 1. unfold bind at 1.
    rewrite run_local_server_run, calls_after_calls, after_calls_after.
    cbn [app].
    destruct (run_auth_flow env _ _) as [u|e]; reflexivity.
Qed.

Lemma google_uploads_calls self utcoffset folder_id photos env w :
  exists cs,
    calls (snd (google_uploads self utcoffset folder_id photos env w))
    = calls w ++ cs
    /\ forallb (fun c => negb (is_auth_flow c) && negb (is_folder_creation c))
         cs = true.
Proof.
  unfold google_uploads, bind.
  destruct (google_loop_calls self utcoffset folder_id (likes_counts photos)
              photos [] env w) as (cs & Hw & Hcs).
  exists cs. split; [|exact Hcs].
  destruct (google_loop _ _ _ _ _ _ env w) as [[l|e] w1];
    simpl in Hw; subst w1; reflexivity.
Qed.

Lemma google_storage_run self utcoffset photos env w :
  google_storage self utcoffset photos env w
  = match drive_list env (calls w) folder_query (lit "files(id)") with
    | Raise e =>
        (Raise e, after_calls w [DriveList folder_query (lit "files(id)")])
    | Ok (id :: _) =>
        google_uploads self utcoffset (Some id) photos env
          (after_calls w [DriveList folder_query (lit "files(id)")])
    | Ok [] =>
        match drive_create env
                (calls w ++ [DriveList folder_query (lit "files(id)")])
                folder_metadata None (lit "id") with
        | Raise e =>
            (Raise e,
             after_calls w
               [DriveList folder_query (lit "files(id)");
                DriveCreate folder_metadata None (lit "id")])
        | Ok folder_id =>
            google_uploads self utcoffset folder_id photos env
              (after_calls w
                 [DriveList folder_query (lit "files(id)");
                  DriveCreate folder_metadata None (lit "id")])
        end
    end.
Proof.
  unfold google_storage. unfold bind at 1. rewrite files_list_run.
  destruct (drive_list env (calls w) folder_query (lit "files(id)"))
    as [[|id ids]|e]; [|reflexivity|reflexivity].
  unfold bind at 1. rewrite files_create_run, calls_after_calls.
  rewrite after_calls_after. cbn [app].
  destruct (drive_create env _ _ _ _); reflexivity.
Qed.

Lemma forallb_no_flow_weaken cs :
  forallb (fun c => negb (is_auth_flow c) && negb (is_folder_creation c)) cs
  = true ->
  forallb (fun c => negb (is_auth_flow c)) cs = true.
Proof.
  rewrite !forallb_forall. intros H c Hc.
  specialize (H c Hc). apply andb_true_iff in H. tauto.
Qed.

Lemma google_storage_calls self utcoffset photos env w :
  exists cs,
    calls (snd (google_storage self utcoffset photos env w)) = calls w ++ cs
    /\ forallb (fun c => negb (is_auth_flow c)) cs = true.
Proof.
  rewrite google_storage_run.
  destruct (drive_list env (calls w) folder_query (lit "files(id)"))
    as [[|id ids]|e].
  - destruct (drive_create env _ _ _ _) as [folder_id|e].
    + match goal with
      | |- context [google_uploads ?a ?b ?c ?d env ?w1] =>
          destruct (google_uploads_calls a b c d env w1) as (cs & Hw & Hcs)
      end.
      eexists. split.
      * rewrite Hw, calls_after_calls, <- app_assoc. reflexivity.
      * cbn [app forallb is_auth_flow negb andb].
        apply forallb_no_flow_weaken, Hcs.
    + eexists. split; reflexivity.
  - match goal with
    | |- context [google_uploads ?a ?b ?c ?d env ?w1] =>
        destruct (google_uploads_calls a b c d env w1) as (cs & Hw & Hcs)
    end.
    eexists. split.
    + rewrite Hw, calls_after_calls, <- app_assoc. reflexivity.
    + cbn [app forallb is_auth_flow negb andb].
      apply forallb_no_flow_weaken, Hcs.
  - eexists. split; reflexivity.
Qed.

(** X13: with a stored token file that holds valid credentials, a run of
    the Google pipeline never starts the interactive authorization
    flow. *)
Theorem google_valid_credentials_no_flow
  self utcoffset album_id_vk count_photos album_id env w :
  (forall h, path_exists env h (lit "token.json") = true) ->
  (forall h, load_credentials env h (lit "token.json") = Ok true) ->
  forallb (fun c => negb (is_auth_flow c))
    (new_calls w
       (snd (save_photos_to_google_drive self utcoffset album_id_vk
               count_photos album_id env w))) = true.
Proof.
  intros Hex Hload.
  destruct (fst (get_profile_photos self album_id_vk count_photos album_id
                   env w)) as [photos|e] eqn:Hg.
  - rewrite (save_photos_to_google_drive_run _ _ _ _ _ _ _ _ Hg).
    rewrite Hex, Hload.
    match goal with
    | |- context [google_storage ?a ?b ?c env ?w1] =>
        destruct (google_storage_calls a b c env w1) as (cs & Hw & Hcs)
    end.
    erewrite new_calls_app.
    2:{ rewrite Hw, calls_after_calls, <- app_assoc. reflexivity. }
    cbn [app forallb is_auth_flow negb andb]. exact Hcs.
  - unfold save_photos_to_google_drive, bind.
    pose proof (get_profile_photos_request self album_id_vk count_photos
                  album_id env w) as Hw.
    destruct (get_profile_photos self album_id_vk count_photos album_id env w)
      as [res w1]. simpl in Hg, Hw. subst res w1.
    cbn [snd]. rewrite record_call_after, new_calls_after. reflexivity.
Qed.

Lemma google_valid_credentials_no_flow_witness :
  forallb (fun c => negb (is_auth_flow c))
    (new_calls empty_world
       (snd (save_photos_to_google_drive default_client (fun _ => 10800)
               (lit "1") 5 (lit "profile")
               (mkEnvironment
                  (fun _ _ => Ok server_error_listing)
                  (fun _ _ => true)
                  (fun _ _ => Ok true)
                  (fun _ _ => Raise GoogleError)
                  (fun _ _ _ => Ok [lit "folder"])
                  (fun _ _ _ _ => Ok (Some (lit "file"))))
               empty_world))) = true.
Proof.
  apply (google_valid_credentials_no_flow default_client (fun _ => 10800)
           (lit "1") 5 (lit "profile")
           (mkEnvironment
              (fun _ _ => Ok server_error_listing)
              (fun _ _ => true)
              (fun _ _ => Ok true)
              (fun _ _ => Raise GoogleError)
              (fun _ _ _ => Ok [lit "folder"])
              (fun _ _ _ _ => Ok (Some (lit "file"))))
           empty_world);
    reflexivity.
Defined.

Lemma firstn_new_calls w w' pre cs :
  calls w' = calls w ++ pre ++ cs ->
  firstn (List.length pre) (new_calls w w') = pre.
Proof.
  intros H. rewrite (new_calls_app w w' (pre ++ cs) H).
  rewrite firstn_app, Nat.sub_diag, firstn_all. simpl. apply app_nil_r.
Qed.

(** X14: a run of the Google pipeline that finds no token file, or finds
    stored credentials that are not valid, starts the interactive
    authorization flow right after that finding. *)
Theorem google_flow_without_valid_credentials
  self utcoffset album_id_vk count_photos album_id env w photos :
  fst (get_profile_photos self album_id_vk count_photos album_id env w)
  = Ok photos ->
  (path_exists env
     (calls w
      ++ [Http (photos_get_request self album_id_vk count_photos album_id)])
     (lit "token.json") = false ->
   firstn 3
     (new_calls w
        (snd (save_photos_to_google_drive self utcoffset album_id_vk
                count_photos album_id env w)))
   = [Http (photos_get_request self album_id_vk count_photos album_id);
      PathExists (lit "token.json");
      RunAuthFlow (lit "credentials.json")])
  /\ (path_exists env
        (calls w
         ++ [Http (photos_get_request self album_id_vk count_photos album_id)])
        (lit "token.json") = true ->
      load_credentials env
        (calls w
         ++ [Http (photos_get_request self album_id_vk count_photos album_id);
             PathExists (lit "token.json")])
        (lit "token.json") = Ok false ->
      firstn 4
        (new_calls w
           (snd (save_photos_to_google_drive self utcoffset album_id_vk
                   count_photos album_id env w)))
      = [Http (photos_get_request self album_id_vk count_photos album_id);
         PathExists (lit "token.json");
         LoadCredentials (lit "token.json");
         RunAuthFlow (lit "credentials.json")]).
Proof.
  intros Hg.
  rewrite (save_photos_to_google_drive_run _ _ _ _ _ _ _ _ Hg).
  split.
  - intros ->.
    destruct (run_auth_flow env _ _) as [u|e].
    + match goal with
      | |- context [google_storage ?a ?b ?c env ?w1] =>
          destruct (google_storage_calls a b c env w1) as (cs & Hw & _)
      end.
      apply (firstn_new_calls w _
               [Http (photos_get_request self album_id_vk count_photos album_id);
                PathExists (lit "token.json");
                RunAuthFlow (lit "credentials.json")] cs).
      rewrite Hw, calls_after_calls, <- app_assoc. reflexivity.
    + cbn [snd]. rewrite new_calls_after. reflexivity.
  - intros -> ->.
    destruct (run_auth_flow env _ _) as [u|e].
    + match goal with
      | |- context [google_storage ?a ?b ?c env ?w1] =>
          destruct (google_storage_calls a b c env w1) as (cs & Hw & _)
      end.
      apply (firstn_new_calls w _
               [Http (photos_get_request self album_id_vk count_photos album_id);
                PathExists (lit "token.json");
                LoadCredentials (lit "token.json");
                RunAuthFlow (lit "credentials.json")] cs).
      rewrite Hw, calls_after_calls, <- app_assoc. reflexivity.
    + cbn [snd]. rewrite new_calls_after. reflexivity.
Qed.

Lemma google_flow_without_valid_credentials_witness :
  firstn 3
    (new_calls empty_world
       (snd (save_photos_to_google_drive default_client (fun _ => 10800)
               (lit "1") 5 (lit "profile")
               (constant_env server_error_listing) empty_world)))
  = [Http (photos_get_request default_client (lit "1") 5 (lit "profile"));
     PathExists (lit "token.json");
     RunAuthFlow (lit "credentials.json")].
Proof.
  apply (proj1 (google_flow_without_valid_credentials default_client
                  (fun _ => 10800) (lit "1") 5 (lit "profile")
                  (constant_env server_error_listing) empty_world
                  tie_photos eq_refl)).
  reflexivity.
Defined.

(** X15: when the token file is there and its credentials cannot be
    loaded, a run of the Google pipeline raises the exception of the
    loading at once: it does not fall back on the interactive flow, and
    contacts no storage. *)
Theorem google_unreadable_credentials_abort
  self utcoffset album_id_vk count_photos album_id env w photos e :
  fst (get_profile_photos self album_id_vk count_photos album_id env w)
  = Ok photos ->
  path_exists env
    (calls w
     ++ [Http (photos_get_request self album_id_vk count_photos album_id)])
    (lit "token.json") = true ->
  load_credentials env
    (calls w
     ++ [Http (photos_get_request self album_id_vk count_photos album_id);
         PathExists (lit "token.json")])
    (lit "token.json") = Raise e ->
  save_photos_to_google_drive self utcoffset album_id_vk count_photos
    album_id env w
  = (Raise e,
     after_calls w
       [Http (photos_get_request self album_id_vk count_photos album_id);
        PathExists (lit "token.json");
        LoadCredentials (lit "token.json")]).
Proof.
  intros Hg Hex Hload.
  rewrite (save_photos_to_google_drive_run _ _ _ _ _ _ _ _ Hg), Hex, Hload.
  reflexivity.
Qed.

Lemma google_unreadable_credentials_abort_witness :
  save_photos_to_google_drive default_client (fun _ => 10800)
    (lit "1") 5 (lit "profile")
    (mkEnvironment
       (fun _ _ => Ok server_error_listing)
       (fun _ _ => true)
       (fun _ _ => Raise ValueError)
       (fun _ _ => Ok tt)
       (fun _ _ _ => Ok [lit "folder"])
       (fun _ _ _ _ => Ok (Some (lit "file"))))
    empty_world
  = (Raise ValueError,
     after_calls empty_world
       [Http (photos_get_request default_client (lit "1") 5 (lit "profile"));
        PathExists (lit "token.json");
        LoadCredentials (lit "token.json")]).
Proof.
  apply (google_unreadable_credentials_abort default_client (fun _ => 10800)
           (lit "1") 5 (lit "profile")
           (mkEnvironment
              (fun _ _ => Ok server_error_listing)
              (fun _ _ => true)
              (fun _ _ => Raise ValueError)
              (fun _ _ => Ok tt)
              (fun _ _ _ => Ok [lit "folder"])
              (fun _ _ _ _ => Ok (Some (lit "file"))))
           empty_world tie_photos ValueError);
    reflexivity.
Defined.

Lemma google_storage_found_calls self utcoffset photos env w :
  (forall h, exists id ids,
     drive_list env h folder_query (lit "files(id)") = Ok (id :: ids)) ->
  exists cs,
    calls (snd (google_storage self utcoffset photos env w)) = calls w ++ cs
    /\ forallb (fun c => negb (is_folder_creation c)) cs = true.
Proof.
  intros Hfound. rewrite google_storage_run.
  destruct (Hfound (calls w)) as (id & ids & ->).
  match goal with
  | |- context [google_uploads ?a ?b ?c ?d env ?w1] =>
      destruct (google_uploads_calls a b c d env w1) as (cs & Hw & Hcs)
  end.
  eexists. split.
  - rewrite Hw, calls_after_calls, <- app_assoc. reflexivity.
  - cbn [app forallb is_folder_creation negb andb].
    rewrite forallb_forall in *. intros c Hc.
    specialize (Hcs c Hc). apply andb_true_iff in Hcs. tauto.
Qed.

(** X16: when Drive lists a backup folder in answer to the query of the
    pipeline, a run of the Google pipeline never asks for the creation of
    a folder: none of its calls creates a file with the MIME type of a
    folder, whatever the name, the parents and the content. *)
Theorem google_found_folder_not_created
  self utcoffset album_id_vk count_photos album_id env w :
  (forall h, exists id ids,
     drive_list env h folder_query (lit "files(id)") = Ok (id :: ids)) ->
  forallb (fun c => negb (is_folder_creation c))
    (new_calls w
       (snd (save_photos_to_google_drive self utcoffset album_id_vk
               count_photos album_id env w))) = true.
Proof.
  intros Hfound.
  destruct (fst (get_profile_photos self album_id_vk count_photos album_id
                   env w)) as [photos|e] eqn:Hg.
  - rewrite (save_photos_to_google_drive_run _ _ _ _ _ _ _ _ Hg).
    repeat match goal with
           | |- context [if ?b then _ else _] => destruct b
           | |- context [match ?r with Ok _ => _ | Raise _ => _ end] =>
               lazymatch r with
               | load_credentials _ _ _ => destruct r as [[|]|?]
               | run_auth_flow _ _ _ => destruct r as [?|?]
               end
           end;
      try (cbn [snd]; rewrite new_calls_after; reflexivity);
      match goal with
      | |- context [google_storage ?a ?b ?c env ?w1] =>
          destruct (google_storage_found_calls a b c env w1 Hfound)
            as (cs & Hw & Hcs)
      end;
      (erewrite new_calls_app;
       [|rewrite Hw, calls_after_calls, <- app_assoc; reflexivity]);
      cbn [app forallb is_folder_creation negb andb]; exact Hcs.
  - unfold save_photos_to_google_drive, bind.
    pose proof (get_profile_photos_request self album_id_vk count_photos
                  album_id env w) as Hw.
    destruct (get_profile_photos self album_id_vk count_photos album_id env w)
      as [res w1]. simpl in Hg, Hw. subst res w1.
    cbn [snd]. rewrite record_call_after, new_calls_after. reflexivity.
Qed.

Lemma google_found_folder_not_created_witness :
  forallb (fun c => negb (is_folder_creation c))
    (new_calls empty_world
       (snd (save_photos_to_google_drive default_client (fun _ => 10800)
               (lit "1") 5 (lit "profile")
               (constant_env server_error_listing) empty_world))) = true.
Proof.
  apply (google_found_folder_not_created default_client (fun _ => 10800)
           (lit "1") 5 (lit "profile")
           (constant_env server_error_listing) empty_world).
  intros h. exists (lit "folder"), []. reflexivity.
Defined.

(** When Drive lists no folder, the run does ask for the creation of one. *)
Lemma google_missing_folder_is_created :
  existsb is_folder_creation
    (new_calls empty_world
       (snd (save_photos_to_google_drive default_client (fun _ => 10800)
               (lit "1") 5 (lit "profile")
               (mkEnvironment
                  (fun _ _ => Ok server_error_listing)
                  (fun _ _ => false)
                  (fun _ _ => Raise GoogleError)
                  (fun _ _ => Ok tt)
                  (fun _ _ _ => Ok [])
                  (fun _ _ _ _ => Ok (Some (lit "file"))))
               empty_world))) = true.
Proof. vm_compute. reflexivity. Qed.

(** ** The transfers of a Google run *)

Lemma google_loop_Ok_world self utcoffset folder_id counts photos acc env w l w' :
  google_loop self utcoffset folder_id counts photos acc env w = (Ok l, w') ->
  exists names contents,
    Forall2 (fun p n =>
               image_name_google utcoffset counts (photo_likes p) (photo_date p)
               = Ok n) photos names
    /\ fetched env folder_id (calls w) photos names contents
    /\ l = acc ++ map (manifest_entry self) names
    /\ w' = after_calls w
              (flat_map (transfer_calls folder_id)
                 (combine (combine names photos) contents)).
Proof.
  revert acc w. induction photos as [|[[likes date] photo_url] rest IH];
    intros acc w H.
  - injection H as <- <-. exists [], []. split; [constructor|].
    split; [constructor|].
    rewrite app_nil_r, after_calls_nil. split; reflexivity.
  - rewrite google_loop_cons in H.
    destruct (image_name_google utcoffset counts likes date) as [name|e] eqn:E;
      [|discriminate].
    destruct (http env (calls w) _) as [r|e] eqn:Hr; [|discriminate].
    destruct (drive_create env _ _ _ _) as [id|e] eqn:Hc; [|discriminate].
    apply IH in H. destruct H as (names & contents & Hn & Hf & -> & ->).
    exists (name :: names), (content r :: contents).
    split; [constructor; assumption|].
    split.
    { apply (fetched_cons env folder_id (calls w) (likes, date, photo_url)
               rest name names r id contents); [exact Hr|exact Hc|exact Hf]. }
    rewrite <- app_assoc, after_calls_after. split; reflexivity.
Qed.

Lemma google_uploads_Ok_world self utcoffset folder_id photos env w w' :
  google_uploads self utcoffset folder_id photos env w = (Ok tt, w') ->
  exists names contents,
    google_names utcoffset photos names
    /\ fetched env folder_id (calls w) photos names contents
    /\ calls w'
       = calls w
         ++ flat_map (transfer_calls folder_id)
              (combine (combine names photos) contents).
Proof.
  intros Hu. unfold google_uploads in Hu.
  apply bind_Ok_inv in Hu. destruct Hu as (l & w4 & Hloop & Hwrite).
  apply google_loop_Ok_world in Hloop.
  destruct Hloop as (names & contents & Hn & Hf & -> & ->).
  unfold write_file in Hwrite. injection Hwrite as <-.
  exists names, contents. split; [exact Hn|]. split; [exact Hf|reflexivity].
Qed.

Lemma google_storage_Ok_world self utcoffset photos env w w' :
  google_storage self utcoffset photos env w = (Ok tt, w') ->
  exists names contents folder_id lookup,
    google_names utcoffset photos names
    /\ folder_lookup env (calls w) lookup folder_id
    /\ fetched env folder_id (calls w ++ lookup) photos names contents
    /\ calls w'
       = calls w ++ lookup
         ++ flat_map (transfer_calls folder_id)
              (combine (combine names photos) contents).
Proof.
  intros Hs. rewrite google_storage_run in Hs.
  destruct (drive_list env (calls w) folder_query (lit "files(id)"))
    as [[|id ids]|e] eqn:Hl; [| |discriminate].
  - destruct (drive_create env _ _ _ _) as [folder_id|e] eqn:Hc; [|discriminate].
    apply google_uploads_Ok_world in Hs.
    destruct Hs as (names & contents & Hn & Hf & Hw).
    exists names, contents, folder_id,
      [DriveList folder_query (lit "files(id)");
       DriveCreate folder_metadata None (lit "id")].
    split; [exact Hn|]. split; [apply folder_created; assumption|].
    rewrite calls_after_calls in Hf, Hw. split; [exact Hf|].
    rewrite Hw, <- app_assoc. reflexivity.
  - apply google_uploads_Ok_world in Hs.
    destruct Hs as (names & contents & Hn & Hf & Hw).
    exists names, contents, (Some id), [DriveList folder_query (lit "files(id)")].
    split; [exact Hn|]. split; [apply (folder_found env (calls w) id ids Hl)|].
    rewrite calls_after_calls in Hf, Hw. split; [exact Hf|].
    rewrite Hw, <- app_assoc. reflexivity.
Qed.

(** The calls of a Google run that returns. *)
Lemma google_run_Ok_trace
  self utcoffset album_id_vk count_photos album_id env w w' :
  save_photos_to_google_drive self utcoffset album_id_vk count_photos
    album_id env w = (Ok tt, w') ->
  exists photos names contents folder_id auth lookup,
    let listing :=
      Http (photos_get_request self album_id_vk count_photos album_id) in
    fst (get_profile_photos self album_id_vk count_photos album_id env w)
    = Ok photos
    /\ google_names utcoffset photos names
    /\ In auth authorization_calls
    /\ folder_lookup env (calls w ++ listing :: auth) lookup folder_id
    /\ fetched env folder_id (calls w ++ listing :: auth ++ lookup)
         photos names contents
    /\ new_calls w w'
       = listing :: auth ++ lookup
         ++ flat_map (transfer_calls folder_id)
              (combine (combine names photos) contents).
Proof.
  intros H.
  assert (Hg : exists photos,
             fst (get_profile_photos self album_id_vk count_photos album_id
                    env w) = Ok photos).
  { unfold save_photos_to_google_drive in H. apply bind_Ok_inv in H.
    destruct H as (photos & w1 & Hg & _). exists photos. rewrite Hg.
    reflexivity. }
  destruct Hg as [photos Hg].
  rewrite (save_photos_to_google_drive_run _ _ _ _ _ _ _ _ Hg) in H.
  set (listing :=
         Http (photos_get_request self album_id_vk count_photos album_id)) in *.
  assert (Hstorage : forall auth,
            In auth authorization_calls ->
            google_storage self utcoffset photos env
              (after_calls w (listing :: auth)) = (Ok tt, w') ->
            exists names contents folder_id auth lookup,
              google_names utcoffset photos names
              /\ In auth authorization_calls
              /\ folder_lookup env (calls w ++ listing :: auth) lookup folder_id
              /\ fetched env folder_id (calls w ++ listing :: auth ++ lookup)
                   photos names contents
              /\ new_calls w w'
                 = listing :: auth ++ lookup
                   ++ flat_map (transfer_calls folder_id)
                        (combine (combine names photos) contents)).
  { intros auth Hauth Hs. apply google_storage_Ok_world in Hs.
    destruct Hs as (names & contents & folder_id & lookup & Hn & Hl & Hf & Hw).
    rewrite calls_after_calls in Hl, Hf, Hw.
    exists names, contents, folder_id, auth, lookup.
    split; [exact Hn|]. split; [exact Hauth|]. split; [exact Hl|].
    split.
    - rewrite <- app_assoc in Hf. exact Hf.
    - apply new_calls_app. rewrite Hw, <- !app_assoc. reflexivity. }
  exists photos.
  destruct (path_exists env _ _).
  - destruct (load_credentials env _ _) as [[|]|e]; [| |discriminate].
    + apply (Hstorage [PathExists (lit "token.json");
                       LoadCredentials (lit "token.json")]) in H;
        [|left; reflexivity].
      destruct H as (names & contents & folder_id & auth & lookup & H).
      exists names, contents, folder_id, auth, lookup. split; [exact Hg|exact H].
    + destruct (run_auth_flow env _ _) as [u|e]; [|discriminate].
      apply (Hstorage [PathExists (lit "token.json");
                       LoadCredentials (lit "token.json");
                       RunAuthFlow (lit "credentials.json")]) in H;
        [|right; left; reflexivity].
      destruct H as (names & contents & folder_id & auth & lookup & H).
      exists names, contents, folder_id, auth, lookup. split; [exact Hg|exact H].
  - destruct (run_auth_flow env _ _) as [u|e]; [|discriminate].
    apply (Hstorage [PathExists (lit "token.json");
                     RunAuthFlow (lit "credentials.json")]) in H;
      [|right; right; left; reflexivity].
    destruct H as (names & contents & folder_id & auth & lookup & H).
    exists names, contents, folder_id, auth, lookup. split; [exact Hg|exact H].
Qed.

(** X17: a run of the Google pipeline that returns has made exactly these
    calls, in this order: the listing of the photos; the calls for its
    credentials; the query for the backup folder and, when Drive lists no
    folder, the creation of one; then two calls for each photo of the set,
    in the order of the set: the download of the photo's URL and the
    creation of a JPEG file that has the name resolved for the photo, holds
    the bytes that very download answered, and has for its only parent the
    folder of the run, which is the first folder Drive listed or else the
    one Drive created.  The status of the download is not inspected. *)
Theorem google_run_transfers
  self utcoffset album_id_vk count_photos album_id env w w' :
  save_photos_to_google_drive self utcoffset album_id_vk count_photos
    album_id env w = (Ok tt, w') ->
  exists photos names contents folder_id auth lookup,
    let listing :=
      Http (photos_get_request self album_id_vk count_photos album_id) in
    fst (get_profile_photos self album_id_vk count_photos album_id env w)
    = Ok photos
    /\ google_names utcoffset photos names
    /\ In auth authorization_calls
    /\ folder_lookup env (calls w ++ listing :: auth) lookup folder_id
    /\ fetched env folder_id (calls w ++ listing :: auth ++ lookup)
         photos names contents
    /\ new_calls w w'
       = listing :: auth ++ lookup
         ++ flat_map (transfer_calls folder_id)
              (combine (combine names photos) contents).
Proof. apply google_run_Ok_trace. Qed.

Lemma google_run_transfers_witness :
  exists photos names contents folder_id auth lookup,
    let listing :=
      Http (photos_get_request default_client (lit "1") 5 (lit "profile")) in
    fst (get_profile_photos default_client (lit "1") 5 (lit "profile")
           (constant_env server_error_listing) empty_world)
    = Ok photos
    /\ google_names (fun _ => 10800) photos names
    /\ In auth authorization_calls
    /\ folder_lookup (constant_env server_error_listing)
         (calls empty_world ++ listing :: auth) lookup folder_id
    /\ fetched (constant_env server_error_listing) folder_id
         (calls empty_world ++ listing :: auth ++ lookup) photos names contents
    /\ new_calls empty_world
         (snd (save_photos_to_google_drive default_client (fun _ => 10800)
                 (lit "1") 5 (lit "profile")
                 (constant_env server_error_listing) empty_world))
       = listing :: auth ++ lookup
         ++ flat_map (transfer_calls folder_id)
              (combine (combine names photos) contents).
Proof.
  apply (google_run_transfers default_client (fun _ => 10800) (lit "1") 5
           (lit "profile") (constant_env server_error_listing) empty_world).
  vm_compute. reflexivity.
Defined.

(** ** The script *)

Lemma extends_calls_bind {A B} (m : M A) (k : A -> M B) :
  extends_calls m -> (forall a, extends_calls (k a)) -> extends_calls (bind m k).
Proof.
  intros Hm Hk env w. unfold bind. destruct (Hm env w) as (cs & Hcs).
  destruct (m env w) as [[a|e] w1]; simpl in Hcs.
  - destruct (Hk a env w1) as (cs' & Hcs'). exists (cs ++ cs').
    rewrite Hcs', Hcs, app_assoc. reflexivity.
  - exists cs. exact Hcs.
Qed.

Lemma extends_calls_keeps {A} (m : M A) :
  (forall env w, exists cs, snd (m env w) = after_calls w cs) ->
  extends_calls m.
Proof.
  intros H env w. destruct (H env w) as (cs & ->). exists cs. reflexivity.
Qed.

Lemma extends_calls_yandex self TOKEN utcoffset album_id_vk count_photos album_id :
  extends_calls (save_photos_to_yandex_disk self TOKEN utcoffset album_id_vk
                   count_photos album_id).
Proof.
  unfold save_photos_to_yandex_disk.
  apply extends_calls_bind.
  { intros env w. rewrite get_profile_photos_request. eexists. reflexivity. }
  intros photos. apply extends_calls_bind.
  { intros env w. eexists. reflexivity. }
  intros probe. apply extends_calls_bind.
  { destruct (status_code probe =? 404); intros env w.
    - eexists. reflexivity.
    - exists []. simpl. rewrite app_nil_r. reflexivity. }
  intros r. apply extends_calls_bind.
  { apply extends_calls_keeps. intros env w.
    destruct (yandex_loop_calls self utcoffset TOKEN (likes_counts photos)
                photos [] env w) as (posts & Hw & _).
    eexists. exact Hw. }
  intros l env w. exists []. simpl. rewrite app_nil_r. reflexivity.
Qed.

Lemma extends_calls_google self utcoffset album_id_vk count_photos album_id :
  extends_calls (save_photos_to_google_drive self utcoffset album_id_vk
                   count_photos album_id).
Proof.
  intros env w.
  destruct (fst (get_profile_photos self album_id_vk count_photos album_id
                   env w)) as [photos|e] eqn:Hg.
  - rewrite (save_photos_to_google_drive_run _ _ _ _ _ _ _ _ Hg).
    repeat match goal with
           | |- context [if ?b then _ else _] => destruct b
           | |- context [match ?r with Ok _ => _ | Raise _ => _ end] =>
               lazymatch r with
               | load_credentials _ _ _ => destruct r as [[|]|?]
               | run_auth_flow _ _ _ => destruct r as [?|?]
               end
           end;
      try (eexists; reflexivity);
      match goal with
      | |- context [google_storage ?a ?b ?c env ?w1] =>
          destruct (google_storage_calls a b c env w1) as (cs & Hw & _)
      end;
      eexists; rewrite Hw, calls_after_calls, <- app_assoc; reflexivity.
  - unfold save_photos_to_google_drive, bind.
    pose proof (get_profile_photos_request self album_id_vk count_photos
                  album_id env w) as Hw.
    destruct (get_profile_photos self album_id_vk count_photos album_id env w)
      as [res w1]. simpl in Hg, Hw. subst res w1.
    eexists. reflexivity.
Qed.

(** The script after the secrets have been read. *)
Lemma main_run utcoffset env w text :
  dict_get (files w) (lit "api.txt") = Some text ->
  main utcoffset env w
  = bind (status_info (script_client (fst (fst (load_secrets text))))
            (snd (fst (load_secrets text))))
      (fun _ =>
         bind (save_photos_to_yandex_disk
                 (script_client (fst (fst (load_secrets text))))
                 (snd (load_secrets text)) utcoffset
                 (snd (fst (load_secrets text))) 5 (lit "profile"))
           (fun _ =>
              save_photos_to_google_drive
                (script_client (fst (fst (load_secrets text)))) utcoffset
                (snd (fst (load_secrets text))) 10 (lit "wall")))
      env w.
Proof.
  intros Hf. unfold main. unfold bind at 1, read_file. rewrite Hf.
  destruct (load_secrets text) as [[T U] Y]. reflexivity.
Qed.

(** X18: the script hands the secrets on as it read them: when [api.txt]
    holds three lines, its first request is [users.get] with the first
    line as access token and the second as user id, each with its new-line
    character. *)
Theorem main_sends_untrimmed_secrets utcoffset env w l1 l2 l3 :
  ~ In 10 (l1 ++ l2 ++ l3) -> ~ In 13 (l1 ++ l2 ++ l3) ->
  dict_get (files w) (lit "api.txt")
  = Some (l1 ++ [10] ++ l2 ++ [10] ++ l3 ++ [10]) ->
  nth_error (new_calls w (snd (main utcoffset env w))) 0
  = Some (Http (users_get_request (script_client (l1 ++ [10])) (l2 ++ [10]))).
Proof.
  intros Hn Hr Hf. rewrite (main_run _ _ _ _ Hf).
  assert (Hs : load_secrets (l1 ++ [10] ++ l2 ++ [10] ++ l3 ++ [10])
               = (l1 ++ [10], l2 ++ [10], l3 ++ [10])).
  { unfold load_secrets. rewrite universal_newlines_id.
    - cbn [app].
      rewrite (readline_line l1)
        by (intros H; apply Hn; rewrite in_app_iff; auto).
      rewrite (readline_line l2)
        by (intros H; apply Hn; rewrite !in_app_iff; auto).
      rewrite (readline_line l3)
        by (intros H; apply Hn; rewrite !in_app_iff; auto).
      reflexivity.
    - rewrite !in_app_iff in *. simpl. intros H.
      repeat destruct H as [H|H]; try discriminate; tauto. }
  rewrite Hs. cbn [fst snd].
  unfold bind at 1. rewrite status_info_run.
  match goal with
  | |- context [rbind ?r ?f] => destruct (rbind r f) as [lbl|e]
  end.
  - match goal with
    | |- context [bind ?m ?k env ?w1] =>
        assert (Hext : extends_calls (bind m k))
    end.
    { apply extends_calls_bind; [apply extends_calls_yandex|].
      intros u. apply extends_calls_google. }
    match goal with
    | |- context [bind ?m ?k env ?w1] =>
        destruct (Hext env w1) as (cs & Hcs)
    end.
    erewrite new_calls_app.
    2:{ rewrite Hcs. simpl calls. rewrite <- app_assoc. reflexivity. }
    reflexivity.
  - cbn [snd]. rewrite record_call_after, new_calls_after. reflexivity.
Qed.

Lemma main_sends_untrimmed_secrets_witness :
  nth_error
    (new_calls
       (mkWorld []
          [(lit "api.txt",
            lit "tok" ++ [10] ++ lit "123" ++ [10] ++ lit "ytok" ++ [10])])
       (snd (main (fun _ => 10800) (constant_env server_error_listing)
               (mkWorld []
                  [(lit "api.txt",
                    lit "tok" ++ [10] ++ lit "123" ++ [10] ++ lit "ytok"
                    ++ [10])])))) 0
  = Some (Http (users_get_request (script_client (lit "tok" ++ [10]))
                  (lit "123" ++ [10]))).
Proof.
  apply (main_sends_untrimmed_secrets (fun _ => 10800)
           (constant_env server_error_listing)
           (mkWorld []
              [(lit "api.txt",
                lit "tok" ++ [10] ++ lit "123" ++ [10] ++ lit "ytok" ++ [10])])
           (lit "tok") (lit "123") (lit "ytok"));
    [simpl; intuition discriminate | simpl; intuition discriminate | reflexivity].
Defined.

(** X19: when the user lookup of the script finds no user (an empty or
    absent result list), the script raises [IndexError] after that one
    request: no backup is started and no file is written. *)
Theorem main_stops_on_failed_lookup utcoffset env w text r :
  dict_get (files w) (lit "api.txt") = Some text ->
  http env (calls w)
    (users_get_request (script_client (fst (fst (load_secrets text))))
       (snd (fst (load_secrets text)))) = Ok r ->
  response_json r = Ok (Some (VkUsers [])) \/ response_json r = Ok None ->
  main utcoffset env w
  = (Raise IndexError,
     after_calls w
       [Http (users_get_request (script_client (fst (fst (load_secrets text))))
                (snd (fst (load_secrets text))))]).
Proof.
  intros Hf Hr Hj. rewrite (main_run _ _ _ _ Hf).
  unfold bind at 1. rewrite status_info_run, Hr. cbn [rbind].
  destruct Hj as [-> | ->]; reflexivity.
Qed.

Lemma main_stops_on_failed_lookup_witness :
  main (fun _ => 10800) (constant_env (vk_answer (Some (VkUsers []))))
    (mkWorld [] [(lit "api.txt", lit "tok" ++ [10] ++ lit "123" ++ [10])])
  = (Raise IndexError,
     after_calls
       (mkWorld [] [(lit "api.txt", lit "tok" ++ [10] ++ lit "123" ++ [10])])
       [Http (users_get_request
                (script_client
                   (fst (fst (load_secrets
                                (lit "tok" ++ [10] ++ lit "123" ++ [10])))))
                (snd (fst (load_secrets
                             (lit "tok" ++ [10] ++ lit "123" ++ [10])))))]).
Proof.
  apply (main_stops_on_failed_lookup (fun _ => 10800)
           (constant_env (vk_answer (Some (VkUsers []))))
           (mkWorld [] [(lit "api.txt", lit "tok" ++ [10] ++ lit "123" ++ [10])])
           (lit "tok" ++ [10] ++ lit "123" ++ [10])
           (vk_answer (Some (VkUsers []))));
    [reflexivity | reflexivity | left; reflexivity].
Defined.

Lemma writes_last_other name (m : M unit) env w other :
  writes_last name m -> other <> name ->
  dict_get (files (snd (m env w))) other = dict_get (files w) other.
Proof.
  intros Hm Hne. specialize (Hm env w).
  destruct (m env w) as [[u|e] w']; simpl.
  - destruct Hm as [text ->]. apply dict_get_set_other. congruence.
  - rewrite Hm. reflexivity.
Qed.

(** X20: the script changes no local file but the two manifests: every
    other file, the secrets file [api.txt] among them, is after a run what
    it was before, however the run ends. *)
Theorem main_touches_only_manifests utcoffset env w name :
  name <> lit "photo_info_ya_disk.json" ->
  name <> lit "photo_info_g_drive.json" ->
  dict_get (files (snd (main utcoffset env w))) name = dict_get (files w) name.
Proof.
  intros Hy Hgd.
  destruct (dict_get (files w) (lit "api.txt")) as [text|] eqn:Hf.
  - rewrite (main_run _ _ _ _ Hf). unfold bind at 1.
    rewrite status_info_run.
    match goal with
    | |- context [rbind ?r ?f] => destruct (rbind r f) as [lbl|e]
    end; [|reflexivity].
    unfold bind.
    match goal with
    | |- context [save_photos_to_yandex_disk ?a ?b ?c ?d ?e ?f env ?w1] =>
        pose proof (writes_last_other _ _ env w1 name
                      (yandex_run_files a b c d e f) Hy) as H1;
        destruct (save_photos_to_yandex_disk a b c d e f env w1)
          as [[u|e1] w2]
    end.
    + simpl in H1.
      match goal with
      | |- context [save_photos_to_google_drive ?a ?c ?d ?e ?f env w2] =>
          rewrite (writes_last_other _ _ env w2 name
                     (google_run_files a c d e f) Hgd)
      end.
      exact H1.
    + exact H1.
  - unfold main, bind, read_file. rewrite Hf. reflexivity.
Qed.

Lemma main_touches_only_manifests_witness :
  dict_get
    (files (snd (main (fun _ => 10800) (constant_env server_error_listing)
                   (mkWorld []
                      [(lit "api.txt",
                        lit "tok" ++ [10] ++ lit "123" ++ [10] ++ lit "ytok"
                        ++ [10])]))))
    (lit "api.txt")
  = dict_get
      (files (mkWorld []
                [(lit "api.txt",
                  lit "tok" ++ [10] ++ lit "123" ++ [10] ++ lit "ytok" ++ [10])]))
      (lit "api.txt").
Proof.
  apply (main_touches_only_manifests (fun _ => 10800)
           (constant_env server_error_listing)
           (mkWorld []
              [(lit "api.txt",
                lit "tok" ++ [10] ++ lit "123" ++ [10] ++ lit "ytok" ++ [10])])
           (lit "api.txt"));
    discriminate.
Defined.

(** ** Reading the secrets file *)

Lemma universal_newlines_no_cr s : ~ In 13 (universal_newlines s).
Proof.
  assert (H : forall n s, (List.length s <= n)%nat ->
                          ~ In 13 (universal_newlines s)).
  { intros n. induction n as [|n IH]; intros t Hlen.
    - destruct t; [intros []|simpl in Hlen; lia].
    - destruct t as [|c t]; [intros []|].
      cbn [universal_newlines]. cbn [List.length] in Hlen.
      destruct (Z.eqb_spec c 13) as [->|Hc].
      + destruct t as [|c' t'].
        * simpl. intuition discriminate.
        * cbn [List.length] in Hlen.
          destruct (c' =? 10); intros [E|Hin]; try discriminate;
            revert Hin; apply IH; cbn [List.length]; lia.
      + intros [E|Hin]; [congruence|]. revert Hin. apply IH. lia. }
  apply (H (List.length s)). lia.
Qed.

Lemma universal_newlines_crlf l rest :
  ~ In 13 l ->
  universal_newlines (l ++ 13 :: 10 :: rest)
  = l ++ 10 :: universal_newlines rest.
Proof.
  induction l as [|c l IH]; intros H.
  - reflexivity.
  - cbn [app universal_newlines].
    destruct (Z.eqb_spec c 13) as [->|Hc].
    + exfalso. apply H. now left.
    + rewrite IH; [reflexivity|]. intros Hin. apply H. now right.
Qed.

(** X21: a secrets file with Windows line endings is read like the same
    file with Unix line endings: the three values end with one new-line
    character and hold no carriage return. *)
Theorem load_secrets_crlf l1 l2 l3 :
  is_line l1 -> is_line l2 -> is_line l3 ->
  load_secrets (l1 ++ [13; 10] ++ l2 ++ [13; 10] ++ l3 ++ [13; 10])
  = (l1 ++ [10], l2 ++ [10], l3 ++ [10]).
Proof.
  intros [N1 R1] [N2 R2] [N3 R3]. unfold load_secrets.
  cbn [app].
  rewrite (universal_newlines_crlf l1) by assumption.
  rewrite (universal_newlines_crlf l2) by assumption.
  rewrite (universal_newlines_crlf l3) by assumption.
  cbn [universal_newlines].
  rewrite (readline_line l1) by assumption.
  rewrite (readline_line l2) by assumption.
  rewrite (readline_line l3) by assumption.
  reflexivity.
Qed.

Lemma load_secrets_crlf_witness :
  load_secrets
    (lit "tok" ++ [13; 10] ++ lit "123" ++ [13; 10] ++ lit "ytok" ++ [13; 10])
  = (lit "tok" ++ [10], lit "123" ++ [10], lit "ytok" ++ [10]).
Proof.
  apply (load_secrets_crlf (lit "tok") (lit "123") (lit "ytok"));
    split; simpl; intuition discriminate.
Defined.

Lemma readline_last l : ~ In 10 l -> readline l = (l, []).
Proof.
  induction l as [|c l IH]; intros H; [reflexivity|].
  cbn [readline].
  destruct (Z.eqb_spec c 10) as [->|Hne].
  - exfalso. apply H. now left.
  - rewrite IH; [reflexivity|]. intros Hin. apply H. now right.
Qed.

(** X22: a secrets file that is too short raises nothing: with two lines,
    the second of them not ended, the user id is that second line as it
    stands and the storage token is the empty string. *)
Theorem load_secrets_short_file l1 l2 :
  is_line l1 -> is_line l2 ->
  load_secrets (l1 ++ [10] ++ l2) = (l1 ++ [10], l2, []).
Proof.
  intros [N1 R1] [N2 R2]. unfold load_secrets.
  rewrite universal_newlines_id.
  - cbn [app]. rewrite (readline_line l1) by assumption.
    rewrite (readline_last l2) by assumption. reflexivity.
  - rewrite !in_app_iff. simpl. intros H.
    repeat destruct H as [H|H]; try discriminate; tauto.
Qed.

Lemma load_secrets_short_file_witness :
  load_secrets (lit "tok" ++ [10] ++ lit "123")
  = (lit "tok" ++ [10], lit "123", []).
Proof.
  apply (load_secrets_short_file (lit "tok") (lit "123"));
    split; simpl; intuition discriminate.
Defined.

Lemma readline_shape s :
  ~ In 13 s ->
  is_read_line (fst (readline s)) /\ ~ In 13 (snd (readline s)).
Proof.
  induction s as [|c s IH]; intros H.
  - split; [|intros []]. exists []. split; [split; intros []|left; reflexivity].
  - cbn [readline].
    destruct (Z.eqb_spec c 10) as [->|Hne].
    + split.
      * exists []. split; [split; intros []|right; reflexivity].
      * intros Hin. apply H. now right.
    + destruct IH as [(l & [Hl1 Hl2] & Hs) Hrest].
      { intros Hin. apply H. now right. }
      destruct (readline s) as [line rest]. cbn [fst snd] in *.
      split; [|exact Hrest].
      exists (c :: l). split.
      * split; intros [E|Hin]; try congruence; try tauto.
        apply H. left. exact E.
      * destruct Hs as [-> | ->]; [left|right]; reflexivity.
Qed.

(** X23: whatever the secrets file holds, each of the three values read
    from it is one line of text, ended by a new-line character or not
    ended at all: a value holds no carriage return, and no new line but as
    its last character. *)
Theorem load_secrets_values_are_lines text :
  is_read_line (fst (fst (load_secrets text)))
  /\ is_read_line (snd (fst (load_secrets text)))
  /\ is_read_line (snd (load_secrets text)).
Proof.
  unfold load_secrets.
  pose proof (universal_newlines_no_cr text) as H0.
  destruct (readline_shape _ H0) as [L1 H1].
  destruct (readline (universal_newlines text)) as [T r1]. cbn [fst snd] in *.
  destruct (readline_shape _ H1) as [L2 H2].
  destruct (readline r1) as [U r2]. cbn [fst snd] in *.
  destruct (readline_shape _ H2) as [L3 H3].
  destruct (readline r2) as [Y r3]. cbn [fst snd] in *.
  repeat split; assumption.
Qed.

(** ** Names of photos with different like counts *)

Lemma lit_inj s1 s2 : lit s1 = lit s2 -> s1 = s2.
Proof.
  unfold lit. intros H.
  rewrite <- (string_of_list_ascii_of_string s1),
          <- (string_of_list_ascii_of_string s2).
  f_equal. revert H.
  generalize (list_ascii_of_string s1) (list_ascii_of_string s2).
  induction l as [|a l IH]; intros [|b l'] H; simpl in H; try discriminate.
  - reflexivity.
  - injection H as Hab H. f_equal; [|apply IH; exact H].
    apply N2Z.inj in Hab.
    rewrite <- (ascii_N_embedding a), <- (ascii_N_embedding b), Hab.
    reflexivity.
Qed.

Lemma to_int_not_nil n :
  Z.to_int n <> Decimal.Pos Decimal.Nil /\ Z.to_int n <> Decimal.Neg Decimal.Nil.
Proof.
  destruct n as [|p|p]; simpl; split; try discriminate; intros H;
    injection H as H; exact (DecimalPos.Unsigned.to_uint_nonnil p H).
Qed.

(** [str(n)] determines [n]. *)
Lemma str_of_int_inj a b : str_of_int a = str_of_int b -> a = b.
Proof.
  unfold str_of_int. intros H. apply lit_inj in H.
  apply DecimalZ.to_int_inj.
  destruct (to_int_not_nil a) as [A1 A2], (to_int_not_nil b) as [B1 B2].
  pose proof (NilZero.isi (Z.to_int a) A1 A2) as Ha.
  pose proof (NilZero.isi (Z.to_int b) B1 B2) as Hb.
  rewrite H in Ha. rewrite Ha in Hb. injection Hb as Hb. exact Hb.
Qed.

Lemma string_of_uint_chars d :
  Forall (fun c => 48 <= c <= 57) (lit (NilEmpty.string_of_uint d)).
Proof.
  induction d; [constructor|..];
    (change (lit (NilEmpty.string_of_uint (_ d)))
       with (_ :: lit (NilEmpty.string_of_uint d)) || idtac);
    unfold lit; simpl; constructor; try exact IHd; vm_compute; split; discriminate.
Qed.

(** [str(n)] is made of digits and of the minus sign. *)
Lemma str_of_int_chars n :
  Forall (fun c => 48 <= c <= 57 \/ c = 45) (str_of_int n).
Proof.
  assert (Hu : forall d,
             Forall (fun c => 48 <= c <= 57 \/ c = 45)
               (lit (NilZero.string_of_uint d))).
  { intros d. eapply Forall_impl; [intros c Hc; left; exact Hc|].
    destruct d; try apply (string_of_uint_chars _).
    unfold lit; simpl.
    constructor; [vm_compute; split; discriminate | constructor]. }
  unfold str_of_int. destruct (Z.to_int n) as [d|d]; simpl.
  - apply Hu.
  - constructor; [right; reflexivity|]. apply Hu.
Qed.

Lemma str_of_int_no_underscore n : ~ In 95 (str_of_int n).
Proof.
  intros H. pose proof (str_of_int_chars n) as Hc.
  rewrite Forall_forall in Hc. specialize (Hc 95 H). lia.
Qed.

Lemma app_pivot_inj {A} (c : A) a b x y :
  ~ In c a -> ~ In c b -> a ++ c :: x = b ++ c :: y -> a = b.
Proof.
  revert b. induction a as [|u a IH]; intros [|v b] Ha Hb H; simpl in *.
  - reflexivity.
  - injection H as -> _. exfalso. apply Hb. now left.
  - injection H as -> _. exfalso. apply Ha. now left.
  - injection H as -> H. f_equal. apply (IH b); tauto.
Qed.

Lemma image_name_yandex_shape utcoffset counts likes date n :
  image_name_yandex utcoffset counts likes date = Ok n ->
  exists x, n = str_of_int likes ++ 95 :: x.
Proof.
  unfold image_name_yandex. destruct (negb _).
  - destruct (fromtimestamp utcoffset date) as [dt|e] eqn:E.
    + rewrite (suffixed_name_Ok _ _ _ _ E). intros H.
      assert (Hn : n = stamped_name likes dt) by congruence.
      rewrite Hn. eexists. reflexivity.
    + unfold suffixed_name. rewrite E. discriminate.
  - fold (plain_name likes). intros H.
    assert (Hn : n = plain_name likes) by congruence.
    rewrite Hn. eexists. reflexivity.
Qed.

Lemma image_name_google_shape utcoffset counts likes date n :
  image_name_google utcoffset counts likes date = Ok n ->
  exists x, n = str_of_int likes ++ 95 :: x.
Proof.
  unfold image_name_google. destruct (_ <? _).
  - destruct (fromtimestamp utcoffset date) as [dt|e] eqn:E.
    + rewrite (suffixed_name_Ok _ _ _ _ E). intros H.
      assert (Hn : n = stamped_name likes dt) by congruence.
      rewrite Hn. eexists. reflexivity.
    + unfold suffixed_name. rewrite E. discriminate.
  - fold (plain_name likes). intros H.
    assert (Hn : n = plain_name likes) by congruence.
    rewrite Hn. eexists. reflexivity.
Qed.

Lemma names_of_shape_differ l1 l2 x1 x2 :
  l1 <> l2 -> str_of_int l1 ++ 95 :: x1 <> str_of_int l2 ++ 95 :: x2.
Proof.
  intros Hne Heq. apply Hne, str_of_int_inj.
  apply (app_pivot_inj 95 _ _ x1 x2);
    [apply str_of_int_no_underscore|apply str_of_int_no_underscore|exact Heq].
Qed.

(** X24: two photos with different like counts never get the same file
    name, in either pipeline, with or without a time stamp, whatever the
    photo sets and the time zones the names were resolved in. *)
Theorem different_likes_different_names
  utcoffset1 utcoffset2 counts1 counts2 likes1 likes2 date1 date2 n1 n2 :
  likes1 <> likes2 ->
  (image_name_yandex utcoffset1 counts1 likes1 date1 = Ok n1 ->
   image_name_yandex utcoffset2 counts2 likes2 date2 = Ok n2 ->
   n1 <> n2)
  /\ (image_name_google utcoffset1 counts1 likes1 date1 = Ok n1 ->
      image_name_google utcoffset2 counts2 likes2 date2 = Ok n2 ->
      n1 <> n2).
Proof.
  intros Hne. split; intros H1 H2.
  - apply image_name_yandex_shape in H1, H2.
    destruct H1 as [x1 ->], H2 as [x2 ->].
    apply names_of_shape_differ. exact Hne.
  - apply image_name_google_shape in H1, H2.
    destruct H1 as [x1 ->], H2 as [x2 ->].
    apply names_of_shape_differ. exact Hne.
Qed.

Lemma different_likes_different_names_witness :
  10 <> 1
  /\ image_name_yandex moscow_2014 [10; 10; 1] 10 1414272600
     = Ok (lit "10_likes__2014-10-26_01-30-00.jpg")
  /\ image_name_yandex moscow_2014 [10; 10; 1] 1 1414272600
     = Ok (lit "1_likes.jpg")
  /\ image_name_google moscow_2014 [10; 10; 1] 10 1414272600
     = Ok (lit "10_likes__2014-10-26_01-30-00.jpg")
  /\ image_name_google moscow_2014 [10; 10; 1] 1 1414272600
     = Ok (lit "1_likes.jpg")
  /\ lit "10_likes__2014-10-26_01-30-00.jpg" <> lit "1_likes.jpg".
Proof.
  assert (Hne : 10 <> 1) by discriminate.
  destruct (different_likes_different_names moscow_2014 moscow_2014
              [10; 10; 1] [10; 10; 1] 10 1 1414272600 1414272600
              (lit "10_likes__2014-10-26_01-30-00.jpg") (lit "1_likes.jpg")
              Hne) as [Hy _].
  repeat split; try exact Hne; try (vm_compute; reflexivity).
  apply Hy; vm_compute; reflexivity.
Defined.

(** ** The characters of a manifest *)

Lemma ascii_text_app a b : ascii_text a -> ascii_text b -> ascii_text (a ++ b).
Proof. intros Ha Hb. apply Forall_app. split; assumption. Qed.

Lemma hexdigit_ascii d : 0 <= d < 16 -> 0 <= hexdigit d < 128.
Proof. intros H. unfold hexdigit. destruct (d <? 10); lia. Qed.

Lemma hex4_ascii n : ascii_text (hex4 n).
Proof.
  unfold hex4, ascii_text.
  repeat constructor; apply hexdigit_ascii; apply Z.mod_pos_bound; lia.
Qed.

Lemma escape_u_ascii n : ascii_text (lit "\u" ++ hex4 n).
Proof.
  apply ascii_text_app; [|apply hex4_ascii].
  unfold ascii_text. repeat constructor; vm_compute; discriminate.
Qed.

(** Every character is written with ASCII characters only. *)
Lemma escape_char_ascii c : ascii_text (escape_char c).
Proof.
  unfold escape_char.
  repeat match goal with
         | |- ascii_text (if ?b then _ else _) =>
             destruct b eqn:?;
             [try (unfold ascii_text; repeat constructor; vm_compute; discriminate)|]
         end.
  - unfold ascii_text. constructor; [|constructor].
    match goal with
    | H : (_ && _) = true |- _ =>
        apply andb_true_iff in H; destruct H as [H1 H2];
        apply Z.leb_le in H1; apply Z.leb_le in H2; lia
    end.
  - apply escape_u_ascii.
  - cbv zeta. rewrite app_assoc.
    apply ascii_text_app; apply escape_u_ascii.
Qed.

Lemma encode_basestring_ascii_ascii s : ascii_text (encode_basestring_ascii s).
Proof.
  unfold encode_basestring_ascii.
  apply ascii_text_app; [repeat constructor; lia|].
  apply ascii_text_app; [|repeat constructor; lia].
  induction s as [|c s IH]; [constructor|].
  cbn [flat_map]. apply ascii_text_app; [apply escape_char_ascii|exact IH].
Qed.

Lemma newline_indent_ascii level : ascii_text (newline_indent level).
Proof.
  unfold newline_indent. constructor; [lia|].
  apply Forall_forall. intros c Hc. apply repeat_spec in Hc. lia.
Qed.

Lemma join_ascii sep l :
  ascii_text sep -> Forall ascii_text l -> ascii_text (join sep l).
Proof.
  intros Hsep H. induction H as [|x l Hx H IH]; [constructor|].
  destruct l as [|y l]; [exact Hx|].
  change (join sep (x :: y :: l)) with (x ++ sep ++ join sep (y :: l)).
  repeat apply ascii_text_app; assumption.
Qed.

Lemma lit_ascii s :
  forallb (fun c => (0 <=? c) && (c <? 128)) (lit s) = true ->
  ascii_text (lit s).
Proof.
  intros H. apply Forall_forall. intros c Hc.
  rewrite forallb_forall in H. specialize (H c Hc).
  apply andb_true_iff in H. destruct H as [H1 H2].
  apply Z.leb_le in H1. apply Z.ltb_lt in H2. lia.
Qed.

Lemma member_ascii key value :
  ascii_text (encode_basestring_ascii key ++ lit ": "
              ++ encode_basestring_ascii value).
Proof.
  apply ascii_text_app; [apply encode_basestring_ascii_ascii|].
  apply ascii_text_app; [apply lit_ascii; reflexivity|].
  apply encode_basestring_ascii_ascii.
Qed.

Lemma entry_json_ascii level name size :
  ascii_text (iterencode level (entry_json name size)).
Proof.
  unfold entry_json. cbn [iterencode map].
  apply ascii_text_app; [apply lit_ascii; reflexivity|].
  apply ascii_text_app; [apply newline_indent_ascii|].
  apply ascii_text_app.
  - apply join_ascii.
    + apply ascii_text_app;
        [apply lit_ascii; reflexivity|apply newline_indent_ascii].
    + apply Forall_cons; [apply member_ascii|].
      apply Forall_cons; [apply member_ascii|apply Forall_nil].
  - apply ascii_text_app;
      [apply newline_indent_ascii|apply lit_ascii; reflexivity].
Qed.

(** X25: the manifest is written with ASCII characters only, whatever the
    file names and the size type are ([json.dump] escapes the others). *)
Theorem manifest_text_is_ascii self names :
  ascii_text (json_dumps (manifest self names)).
Proof.
  rewrite manifest_entries_json.
  generalize (map (fun n => (n, photo_type self)) names). intros entries.
  unfold json_dumps. destruct entries as [|e entries].
  - apply (lit_ascii "[]"). reflexivity.
  - remember (e :: entries) as es eqn:Hes.
    assert (Hshape :
              iterencode 0 (JList (entries_json es))
              = lit "[" ++ newline_indent 1
                ++ join (lit "," ++ newline_indent 1)
                     (map (iterencode 1) (entries_json es))
                ++ newline_indent 0 ++ lit "]").
    { rewrite Hes. reflexivity. }
    rewrite Hshape. clear Hshape Hes e entries.
    apply ascii_text_app; [apply lit_ascii; reflexivity|].
    apply ascii_text_app; [apply newline_indent_ascii|].
    apply ascii_text_app.
    + apply join_ascii.
      * apply ascii_text_app;
          [apply lit_ascii; reflexivity|apply newline_indent_ascii].
      * unfold entries_json. rewrite map_map. apply Forall_map.
        apply Forall_forall. intros x _. apply entry_json_ascii.
    + apply ascii_text_app;
        [apply newline_indent_ascii|apply lit_ascii; reflexivity].
Qed.

(** ** The order of the photo set *)

Lemma list_count_app l1 l2 x :
  list_count (l1 ++ l2) x = list_count l1 x + list_count l2 x.
Proof. induction l1 as [|y l1 IH]; simpl; [reflexivity|]. rewrite IH. lia. Qed.

Lemma list_count_Permutation l1 l2 x :
  Permutation.Permutation l1 l2 -> list_count l1 x = list_count l2 x.
Proof.
  intros H. induction H; simpl; lia.
Qed.

(** X26: the name a photo gets does not depend on the order in which the
    photo set lists the photos: listing the same photos in another order
    gives every photo the same name, in both pipelines. *)
Theorem names_ignore_listing_order utcoffset photos1 photos2 likes date :
  Permutation.Permutation photos1 photos2 ->
  image_name_yandex utcoffset (likes_counts photos1) likes date
  = image_name_yandex utcoffset (likes_counts photos2) likes date
  /\ image_name_google utcoffset (likes_counts photos1) likes date
     = image_name_google utcoffset (likes_counts photos2) likes date.
Proof.
  intros H. unfold image_name_yandex, image_name_google, likes_counts.
  rewrite (list_count_Permutation _ _ likes
             (Permutation.Permutation_map photo_likes H)).
  split; reflexivity.
Qed.

Lemma names_ignore_listing_order_witness :
  image_name_yandex moscow_2014
    (likes_counts [(10, 1414272600, lit "a"); (1, 1414272600, lit "b");
                   (10, 1414276200, lit "c")]) 10 1414272600
  = image_name_yandex moscow_2014
      (likes_counts [(10, 1414276200, lit "c"); (10, 1414272600, lit "a");
                     (1, 1414272600, lit "b")]) 10 1414272600
  /\ image_name_google moscow_2014
       (likes_counts [(10, 1414272600, lit "a"); (1, 1414272600, lit "b");
                      (10, 1414276200, lit "c")]) 10 1414272600
     = image_name_google moscow_2014
         (likes_counts [(10, 1414276200, lit "c"); (10, 1414272600, lit "a");
                        (1, 1414272600, lit "b")]) 10 1414272600.
Proof.
  apply names_ignore_listing_order.
  apply Permutation.Permutation_sym.
  apply (Permutation.Permutation_cons_app
           [(10, 1414272600, lit "a"); (1, 1414272600, lit "b")] []).
  rewrite app_nil_r. apply Permutation.Permutation_refl.
Defined.

(** * The manifest of a run, written and read back *)

(** ** The entries of the manifest *)

Lemma manifest_entries self names :
  manifest self names
  = JList (map (fun name => entry_json name (photo_type self)) names).
Proof. reflexivity. Qed.





(** ** Reading back the manifest of a run *)

(** The strings of a parsed text. *)

Lemma cons_chunk_Ok c x r rest :
  cons_chunk c x = Ok (r, rest) ->
  exists r', x = Ok (r', rest) /\ r = c :: r'.
Proof.
  unfold cons_chunk. destruct x as [[r' rest']|e]; simpl; [|discriminate].
  intros [= <- <-]. exists r'. split; reflexivity.
Qed.

Lemma wf_str_cons x r :
  is_code_point x = true -> wf_str r = true ->
  is_high_surrogate x = false \/ first_not_low r ->
  wf_str (x :: r) = true.
Proof.
  unfold wf_str. intros Hx Hr Hp. apply andb_true_iff in Hr.
  destruct Hr as [H1 H2].
  cbn [forallb no_surrogate_pair]. rewrite Hx, H1, H2, !andb_true_r. cbn [andb].
  destruct Hp as [->|Hp]; [reflexivity|].
  destruct r as [|b r]; [apply negb_true_iff, andb_false_r|].
  simpl in Hp. rewrite Hp. apply negb_true_iff, andb_false_r.
Qed.

Lemma hexval_range c d : hexval c = Some d -> 0 <= d < 16.
Proof.
  unfold hexval.
  repeat match goal with
  | |- context [if ?b then _ else _] => destruct b eqn:?
  end; intros [= <-];
  repeat match goal with
  | H : (_ && _) = true |- _ => apply andb_true_iff in H; destruct H
  | H : (_ <=? _) = true |- _ => apply Z.leb_le in H
  end; lia.
Qed.

Lemma hex4val_range a b c d u : hex4val a b c d = Some u -> 0 <= u < 65536.
Proof.
  unfold hex4val.
  destruct (hexval a) as [x|] eqn:Ha; [|discriminate].
  destruct (hexval b) as [y|] eqn:Hb; [|discriminate].
  destruct (hexval c) as [z|] eqn:Hc; [|discriminate].
  destruct (hexval d) as [t|] eqn:Hd; [|discriminate].
  apply hexval_range in Ha, Hb, Hc, Hd. intros [= <-]. lia.
Qed.

Lemma BACKSLASH_range esc ch : BACKSLASH esc = Some ch -> 0 <= ch < 128.
Proof.
  unfold BACKSLASH.
  repeat match goal with
  | |- context [if ?b then _ else _] => destruct b
  end; intros [= <-]; lia.
Qed.

Lemma is_code_point_range c : 0 <= c < 1114112 -> is_code_point c = true.
Proof.
  intros H. unfold is_code_point. apply andb_true_iff. split.
  - apply Z.leb_le. lia.
  - apply Z.ltb_lt. lia.
Qed.

Lemma is_high_out c : ~ (55296 <= c <= 56319) -> is_high_surrogate c = false.
Proof.
  intros H. unfold is_high_surrogate.
  destruct (Z.leb_spec 55296 c); destruct (Z.leb_spec c 56319);
    try reflexivity. lia.
Qed.

Lemma is_low_out c : ~ (56320 <= c <= 57343) -> is_low_surrogate c = false.
Proof.
  intros H. unfold is_low_surrogate.
  destruct (Z.leb_spec 56320 c); destruct (Z.leb_spec c 57343);
    try reflexivity. lia.
Qed.

Lemma joined_range uni uni2 :
  55296 <= uni <= 56319 -> 56320 <= uni2 <= 57343 ->
  65536 <= 65536 + Z.lor (Z.shiftl (uni - 55296) 10) (uni2 - 56320) < 1114112.
Proof.
  intros H1 H2. rewrite lor_shifted_low by lia. lia.
Qed.

Lemma scanstring_wf_aux n : forall s r rest,
  (List.length s <= n)%nat ->
  Forall scalar s ->
  scanstring s = Ok (r, rest) ->
  wf_str r = true /\ (no_low_escape s -> first_not_low r).
Proof.
  induction n as [|n IH]; intros s r rest Hlen Hs H.
  - destruct s; [discriminate|simpl in Hlen; lia].
  - destruct s as [|c s1]; [discriminate|].
    cbn [scanstring] in H.
    inversion Hs as [|? ? Hc Hs1]; subst.
    destruct (Z.eqb_spec c 34) as [->|Hq].
    { injection H as <- <-. split; [reflexivity|intros _; exact I]. }
    destruct (Z.eqb_spec c 92) as [->|Hb].
    2:{ destruct (c <? 32); [discriminate|].
        apply cons_chunk_Ok in H. destruct H as (r' & H & ->).
        apply IH in H; [|simpl in Hlen; lia|exact Hs1].
        destruct H as [Hw _].
        assert (Hnl : is_low_surrogate c = false)
          by (apply is_low_out; unfold scalar in Hc; lia).
        split.
        - unfold scalar in Hc.
          apply wf_str_cons; [apply is_code_point_range; lia|exact Hw|].
          left. apply is_high_out. lia.
        - intros _. exact Hnl. }
    destruct s1 as [|esc s2]; [discriminate|].
    inversion Hs1 as [|? ? Hesc Hs2]; subst.
    destruct (Z.eqb_spec esc 117) as [->|Hu].
    2:{ destruct (BACKSLASH esc) as [ch|] eqn:Hbs; [|discriminate].
        apply BACKSLASH_range in Hbs.
        apply cons_chunk_Ok in H. destruct H as (r' & H & ->).
        apply IH in H; [|simpl in Hlen; lia|exact Hs2].
        destruct H as [Hw _].
        split.
        - apply wf_str_cons; [apply is_code_point_range; lia|exact Hw
                             |left; apply is_high_out; lia].
        - intros _. apply is_low_out. lia. }
    destruct s2 as [|h1 [|h2 [|h3 [|h4 s3]]]]; try discriminate.
    destruct (hex4val h1 h2 h3 h4) as [uni|] eqn:Huni; [|discriminate].
    pose proof (hex4val_range _ _ _ _ _ Huni) as Hrange.
    assert (Hs3 : Forall scalar s3).
    { inversion Hs2 as [|? ? _ Hx1]; subst.
      inversion Hx1 as [|? ? _ Hx2]; subst.
      inversion Hx2 as [|? ? _ Hx3]; subst.
      inversion Hx3 as [|? ? _ Hx4]; subst. exact Hx4. }
    assert (Hlen3 : (List.length s3 <= n)%nat) by (simpl in Hlen; lia).
    (* the plain outcome: [uni] then the scan of [s3] *)
    assert (Hplain :
              no_low_escape s3 \/ is_high_surrogate uni = false ->
              cons_chunk uni (scanstring s3) = Ok (r, rest) ->
              wf_str r = true
              /\ (no_low_escape (92 :: 117 :: h1 :: h2 :: h3 :: h4 :: s3) ->
                  first_not_low r)).
    { intros Hcase H'. apply cons_chunk_Ok in H'. destruct H' as (r' & H' & ->).
      apply IH in H'; [|exact Hlen3|exact Hs3]. destruct H' as [Hw Hf].
      split.
      - apply wf_str_cons; [apply is_code_point_range; lia|exact Hw|].
        destruct Hcase as [Hc3|Hh]; [right; apply Hf; exact Hc3|left; exact Hh].
      - cbn [no_low_escape]. intros Hl. specialize (Hl eq_refl eq_refl).
        rewrite Huni in Hl. exact Hl. }
    destruct s3 as [|b [|u s4]].
    + apply Hplain; [left; exact I|exact H].
    + apply Hplain; [left; exact I|exact H].
    + destruct ((55296 <=? uni) && (uni <=? 56319) && (b =? 92) && (u =? 117))
        eqn:Hpair.
      * apply andb_true_iff in Hpair. destruct Hpair as [Hpair Hu'].
        apply andb_true_iff in Hpair. destruct Hpair as [Hpair Hb'].
        apply andb_true_iff in Hpair. destruct Hpair as [Hh1 Hh2].
        apply Z.leb_le in Hh1, Hh2. apply Z.eqb_eq in Hb', Hu'. subst b u.
        destruct s4 as [|g1 [|g2 [|g3 [|g4 s5]]]]; try discriminate.
        destruct (hex4val g1 g2 g3 g4) as [uni2|] eqn:Huni2; [|discriminate].
        destruct ((56320 <=? uni2) && (uni2 <=? 57343)) eqn:Hlow.
        -- apply andb_true_iff in Hlow. destruct Hlow as [Hl1 Hl2].
           apply Z.leb_le in Hl1, Hl2.
           pose proof (joined_range uni uni2 (conj Hh1 Hh2) (conj Hl1 Hl2))
             as Hj.
           apply cons_chunk_Ok in H. destruct H as (r' & H & ->).
           apply IH in H.
           2:{ cbn [List.length] in Hlen3 |- *. lia. }
           2:{ inversion Hs3 as [|? ? _ Hy1]; subst.
               inversion Hy1 as [|? ? _ Hy2]; subst.
               inversion Hy2 as [|? ? _ Hy3]; subst.
               inversion Hy3 as [|? ? _ Hy4]; subst.
               inversion Hy4 as [|? ? _ Hy5]; subst.
               inversion Hy5 as [|? ? _ Hy6]; subst. exact Hy6. }
           destruct H as [Hw _]. split.
           ++ apply wf_str_cons; [apply is_code_point_range; lia|exact Hw
                                 |left; apply is_high_out; lia].
           ++ intros _. apply is_low_out. lia.
        -- apply Hplain; [|exact H]. left.
           cbn [no_low_escape]. intros _ _. rewrite Huni2. exact Hlow.
      * apply Hplain; [|exact H].
        destruct ((55296 <=? uni) && (uni <=? 56319)) eqn:Hh.
        -- left. cbn [andb] in Hpair.
           destruct s4 as [|g1 [|g2 [|g3 [|g4 s5]]]]; try exact I.
           cbn [no_low_escape]. intros -> ->. discriminate Hpair.
        -- right. exact Hh.
Qed.

(** The strings the parser returns from a text without surrogates are
    well formed. *)
Lemma scanstring_wf s r rest :
  Forall scalar s -> scanstring s = Ok (r, rest) -> wf_str r = true.
Proof.
  intros Hs H.
  apply (scanstring_wf_aux (List.length s) s r rest (le_n _) Hs H).
Qed.

Lemma no_surrogate_pair_app a b :
  no_surrogate_pair (a ++ b) = true ->
  no_surrogate_pair a = true /\ no_surrogate_pair b = true.
Proof.
  induction a as [|x a IH]; intros H; [split; [reflexivity|exact H]|].
  cbn [app no_surrogate_pair] in H. apply andb_true_iff in H.
  destruct H as [Hx H]. destruct (IH H) as [Ha Hb]. split; [|exact Hb].
  cbn [no_surrogate_pair]. rewrite Ha, andb_true_r.
  destruct a as [|y a]; [|exact Hx].
  destruct (is_high_surrogate x); reflexivity.
Qed.

Lemma wf_str_app a b :
  wf_str (a ++ b) = true -> wf_str a = true /\ wf_str b = true.
Proof.
  unfold wf_str. rewrite forallb_app, !andb_true_iff.
  intros [[Ha Hb] H]. apply no_surrogate_pair_app in H. tauto.
Qed.

(** A string that occurs in a well-formed string is well formed. *)
Lemma contains_wf t s :
  contains t s = true -> wf_str s = true -> wf_str t = true.
Proof.
  intros H Hs. apply contains_spec in H. destruct H as (a & b & ->).
  apply wf_str_app in Hs. destruct Hs as [_ Hs].
  apply wf_str_app in Hs. tauto.
Qed.

(** A photo set that is not empty comes from a matching size type, so the
    rendition tag occurs in a parsed string. *)
Lemma records_wf_tag self items :
  parsed_types items ->
  flat_map (records_of self) items <> [] ->
  wf_str (photo_type self) = true.
Proof.
  intros Hp Hne. induction Hp as [|image items Hi Hp IH];
    [exfalso; apply Hne; reflexivity|].
  cbn [flat_map] in Hne.
  destruct (records_of self image) as [|rec recs] eqn:E.
  - apply IH. exact Hne.
  - clear IH Hne. unfold records_of, matching_sizes in E.
    induction Hi as [|size sizes Hs Hi IH]; [discriminate|].
    cbn [filter] in E. destruct (matching self size) eqn:Hm.
    + apply (contains_wf _ (size_type size)); assumption.
    + apply IH. exact E.
Qed.

Lemma manifest_read_back self names :
  Forall latin names ->
  names = [] \/ wf_str (photo_type self) = true ->
  json_loads (json_dumps (manifest self names)) = Ok (manifest self names).
Proof.
  intros Hl Htag. rewrite manifest_entries_json.
  apply loads_dumps_entries.
  destruct Htag as [->|Htag]; [reflexivity|].
  induction Hl as [|n names Hn Hl IH]; [reflexivity|].
  cbn [map forallb]. rewrite IH, andb_true_r.
  unfold wf_entry. cbn [fst snd]. rewrite Htag, andb_true_r.
  apply latin_wf. assumption.
Qed.

Lemma resolved_names_nil {A B} (R : A -> B -> Prop) names :
  Forall2 R [] names -> names = [].
Proof. intros H. inversion H. reflexivity. Qed.

(** C7: the manifest a pipeline run writes is read back as it was written:
    parsing the text [json.dump] wrote gives the same entries
    [{file_name, size}], in the same order.  The file names of a run are
    ASCII, and the rendition tag of an entry occurs in a size type of the
    listing, a string that [response.json()] parsed. *)
Theorem manifest_round_trip
  self TOKEN utcoffset album_id_vk count_photos album_id env w r items :
  http env (calls w) (photos_get_request self album_id_vk count_photos album_id)
  = Ok r ->
  response_json r = Ok (Some (VkPhotos items)) ->
  parsed_types items ->
  (forall w',
     save_photos_to_yandex_disk self TOKEN utcoffset album_id_vk count_photos
       album_id env w = (Ok tt, w') ->
     exists names,
       yandex_names utcoffset (flat_map (records_of self) items) names
       /\ dict_get (files w') (lit "photo_info_ya_disk.json")
          = Some (json_dumps
                    (JList (map (fun name => entry_json name (photo_type self))
                              names)))
       /\ json_loads
            (json_dumps
               (JList (map (fun name => entry_json name (photo_type self))
                         names)))
          = Ok (JList (map (fun name => entry_json name (photo_type self))
                         names)))
  /\ (forall w',
        save_photos_to_google_drive self utcoffset album_id_vk count_photos
          album_id env w = (Ok tt, w') ->
        exists names,
          google_names utcoffset (flat_map (records_of self) items) names
          /\ dict_get (files w') (lit "photo_info_g_drive.json")
             = Some (json_dumps
                       (JList (map (fun name =>
                                      entry_json name (photo_type self))
                                 names)))
          /\ json_loads
               (json_dumps
                  (JList (map (fun name => entry_json name (photo_type self))
                            names)))
             = Ok (JList (map (fun name => entry_json name (photo_type self))
                            names))).
Proof.
  intros Hr Hj Hp.
  pose proof (get_profile_photos_Ok self album_id_vk count_photos album_id
                env w r items Hr Hj) as Hphotos.
  assert (Htag : forall (R : photo -> str -> Prop) names,
            Forall2 R (flat_map (records_of self) items) names ->
            names = [] \/ wf_str (photo_type self) = true).
  { intros R names Hn.
    destruct (flat_map (records_of self) items) as [|p photos] eqn:E.
    - left. apply (resolved_names_nil R). exact Hn.
    - right. apply (records_wf_tag self items Hp). rewrite E. discriminate. }
  split; intros w' H.
  - apply yandex_run_Ok_inv in H.
    destruct H as (photos & names & Hg & Hn & Hf).
    rewrite Hphotos in Hg. cbn [fst] in Hg. injection Hg as <-.
    exists names. rewrite <- manifest_entries.
    split; [exact Hn|]. split; [exact Hf|].
    apply manifest_read_back.
    + apply (resolved_names_latin _ _ names) in Hn; [exact Hn|].
      intros p n. apply image_name_yandex_latin.
    + apply (Htag _ names Hn).
  - apply google_run_Ok_inv in H.
    destruct H as (photos & names & Hg & Hn & Hf).
    rewrite Hphotos in Hg. cbn [fst] in Hg. injection Hg as <-.
    exists names. rewrite <- manifest_entries.
    split; [exact Hn|]. split; [exact Hf|].
    apply manifest_read_back.
    + apply (resolved_names_latin _ _ names) in Hn; [exact Hn|].
      intros p n. apply image_name_google_latin.
    + apply (Htag _ names Hn).
Qed.

Lemma manifest_round_trip_witness :
  exists names,
    yandex_names (fun _ => 10800)
      (flat_map (records_of emoji_client) emoji_items) names
    /\ dict_get
         (files (snd (save_photos_to_yandex_disk emoji_client (lit "ytok")
                        (fun _ => 10800) (lit "1") 5 (lit "profile")
                        (constant_env emoji_listing) empty_world)))
         (lit "photo_info_ya_disk.json")
       = Some (json_dumps
                 (JList (map (fun name =>
                                entry_json name (photo_type emoji_client))
                           names)))
    /\ json_loads
         (json_dumps
            (JList (map (fun name => entry_json name (photo_type emoji_client))
                      names)))
       = Ok (JList (map (fun name => entry_json name (photo_type emoji_client))
                      names)).
Proof.
  refine (proj1 (manifest_round_trip emoji_client (lit "ytok")
                   (fun _ => 10800) (lit "1") 5 (lit "profile")
                   (constant_env emoji_listing) empty_world
                   emoji_listing emoji_items eq_refl eq_refl _)
            (snd (save_photos_to_yandex_disk emoji_client (lit "ytok")
                    (fun _ => 10800) (lit "1") 5 (lit "profile")
                    (constant_env emoji_listing) empty_world)) _).
  - repeat constructor.
  - vm_compute. reflexivity.
Defined.

(** The manifest of that run, as text: the character beyond the basic
    plane is written as the two escapes of its surrogate pair. *)
Lemma manifest_of_emoji_run :
  dict_get
    (files (snd (save_photos_to_yandex_disk emoji_client (lit "ytok")
                   (fun _ => 10800) (lit "1") 5 (lit "profile")
                   (constant_env emoji_listing) empty_world)))
    (lit "photo_info_ya_disk.json")
  = Some (lit "[" ++ [10] ++ lit "    {" ++ [10]
          ++ lit "        " ++ [34] ++ lit "file_name" ++ [34] ++ lit ": "
          ++ [34] ++ lit "3_likes.jpg" ++ [34] ++ lit "," ++ [10]
          ++ lit "        " ++ [34] ++ lit "size" ++ [34] ++ lit ": "
          ++ [34] ++ lit "\ud83d\ude00" ++ [34] ++ [10]
          ++ lit "    }" ++ [10] ++ lit "]").
Proof. vm_compute. reflexivity. Qed.
